(** * AndroidOpenAccessoryBridge: a shallow embedding of
      [android_open_accessory_bridge.py] and the properties of its
      handshake and of its length-prefixed framing.

    The Python class talks to the outside world only through pyusb.  The
    embedding keeps the class as it is written and replaces pyusb by an
    oracle: every call the class makes to the library is appended to a
    log, and the library's answer is a function of the log so far.  The
    theorems quantify over all such oracles, so they hold for every
    behaviour of the bus; concrete oracles (a phone that switches to
    accessory mode, a cross-connected bulk pipe, endpoints that fail,
    stall or transfer short) are used to run the code on examples. *)

From Stdlib Require Import ZArith List String Bool Lia.
From Stdlib Require Import Strings.Byte.
Import ListNotations.
Local Open Scope Z_scope.

(** * Python values *)

(** The exceptions the class can meet.  [USBError] carries pyusb's
    [errno] ([None] when the error is built from a message only, as the
    class itself does) and the message. *)
Inductive PyError : Type :=
| AssertionError
| IndexError
| OverflowError
| AttributeError
| USBError (errno : option Z) (strerror : string).

(** What a library call answers: a value or an exception. *)
Inductive Result (A : Type) : Type :=
| Ok (a : A)
| Err (e : PyError).
Arguments Ok {A} a.
Arguments Err {A} e.

(** What a method of the class does: it returns, it raises, or the
    embedding ran out of fuel (the method is still looping). *)
Inductive Outcome (A : Type) : Type :=
| Return (a : A)
| Raise (e : PyError)
| OutOfFuel.
Arguments Return {A} a.
Arguments Raise {A} e.
Arguments OutOfFuel {A}.

(** [usb.core.Device] objects are opaque: a device is known by a number.
    An endpoint is known by its address, whose top bit is its
    direction. *)
Definition Device : Type := Z.

Record Endpoint : Type := { bEndpointAddress : Z }.

(** A Python 3 [str], as [str(manufacturer)] and the like give: the
    sequence of its characters, each a code point.  Its [len] is the
    number of characters, not the number of bytes it takes on the
    wire. *)
Definition PyStr : Type := list Z.

(** The third positional argument [data_or_wLength] of
    [Device.ctrl_transfer]: nothing, a length to read, or the [str] the
    class passes as data. *)
Inductive CtrlData : Type :=
| NoData
| WLength (n : Z)
| Data (s : PyStr).

(** The calls the class makes to pyusb and to [time]. *)
Inductive Event : Type :=
| Find (idVendor idProduct : Z)
| Sleep (secs : Z)
| CtrlTransfer (dev : Device) (bmRequestType bRequest wValue wIndex : Z)
               (d : CtrlData)
| Reset (dev : Device)
| DisposeResources (dev : Device)
| ActiveInterface (dev : Device)
| EpWrite (ep : Endpoint) (data : list byte) (timeout : option Z)
| EpRead (ep : Endpoint) (size : Z) (timeout : option Z).

(** pyusb as an oracle.  Each function receives the calls made before
    the one it answers.  [ctrl_transfer] returns the bytes read for a
    device-to-host request and the number of bytes written for a
    host-to-device one; the class uses each request type with one
    direction only, so the oracle has one function per direction.
    [usb.core.find] answers a device or [None]; [time.sleep] and
    [usb.util.dispose_resources] answer nothing.  What an endpoint
    read answers is an [array.array] of bytes, and [tostring] is what
    the method of that name answers on such an array: its bytes on a
    Python that has the method, [AttributeError] on one that has not
    (the method is gone from Python 3.9 on). *)
Record Usb : Type := {
  find : list Event -> Z -> Z -> option Device;
  ctrl_transfer_in :
    list Event -> Device -> Z -> Z -> Z -> Z -> CtrlData -> Result (list byte);
  ctrl_transfer_out :
    list Event -> Device -> Z -> Z -> Z -> Z -> CtrlData -> Result Z;
  reset : list Event -> Device -> Result unit;
  active_interface : list Event -> Device -> Result (list Endpoint);
  ep_write : list Event -> Endpoint -> list byte -> option Z -> Result Z;
  ep_read : list Event -> Endpoint -> Z -> option Z -> Result (list byte);
  tostring : list byte -> Result (list byte)
}.

(** The attributes of an [AndroidOpenAccessoryBridge] object. *)
Record Bridge : Type := {
  _vendor_id : Z;
  _unconfigured_product_id : Z;
  _configured_product_id : Z;
  _device : option Device;
  _endpoint_out : option Endpoint;
  _endpoint_in : option Endpoint
}.

(** The state a method runs in: the object and the log of calls. *)
Record World : Type := {
  self : Bridge;
  calls : list Event
}.

(** * The monad of methods *)

Definition M (A : Type) : Type := World -> Outcome A * World.

Definition ret {A} (a : A) : M A := fun w => (Return a, w).

Definition raise {A} (e : PyError) : M A := fun w => (Raise e, w).

Definition out_of_fuel {A} : M A := fun w => (OutOfFuel, w).

Definition bind {A B} (m : M A) (k : A -> M B) : M B :=
  fun w =>
    match m w with
    | (Return a, w') => k a w'
    | (Raise e, w') => (Raise e, w')
    | (OutOfFuel, w') => (OutOfFuel, w')
    end.

Notation "x <- m ;; k" := (bind m (fun x => k))
  (at level 61, m at next level, right associativity).
Notation "' p <- m ;; k" := (bind m (fun x => match x with p => k end))
  (at level 61, p pattern, m at next level, right associativity).
Notation "m ;;; k" := (bind m (fun _ => k))
  (at level 61, right associativity).

(** [assert(c)] *)
Definition assert (c : bool) : M unit :=
  if c then ret tt else raise AssertionError.

(** [try: body  except usb.core.USBError as e: handler]: only a
    [USBError] raised by [body] reaches the handler. *)
Definition try_except_USBError {A} (body : M A)
    (handler : option Z -> string -> M A) : M A :=
  fun w =>
    match body w with
    | (Raise (USBError errno strerror), w') => handler errno strerror w'
    | r => r
    end.

(** [e.errno == n] *)
Definition errno_eqb (errno : option Z) (n : Z) : bool :=
  match errno with
  | Some k => k =? n
  | None => false
  end.

Definition get_self : M Bridge := fun w => (Return (self w), w).

Definition set_self (b : Bridge) : M unit :=
  fun w => (Return tt, {| self := b; calls := calls w |}).

Definition log (e : Event) (w : World) : World :=
  {| self := self w; calls := calls w ++ [e] |}.

Definition of_result {A} (r : Result A) : Outcome A :=
  match r with
  | Ok a => Return a
  | Err e => Raise e
  end.

(** * Bytes *)

Definition Z_of_byte (b : byte) : Z := Z.of_N (Byte.to_N b).

(** One item of [array.array('B', [...])]: an integer outside 0..255
    raises [OverflowError]. *)
Definition byte_of_Z (z : Z) : option byte :=
  if z <? 0 then None else Byte.of_N (Z.to_N z).

Fixpoint array_B (items : list Z) : M (list byte) :=
  match items with
  | [] => ret []
  | z :: rest =>
      match byte_of_Z z with
      | Some b => bs <- array_B rest ;; ret (b :: bs)
      | None => raise OverflowError
      end
  end.

(** [a[i]] on an array of bytes, for a non-negative literal [i]. *)
Definition getitem (a : list byte) (i : nat) : M Z :=
  match nth_error a i with
  | Some b => ret (Z_of_byte b)
  | None => raise IndexError
  end.

Definition len {A} (l : list A) : Z := Z.of_nat (List.length l).

(** The two bytes of the size header, as [write] computes them. *)
Definition size_header (size : Z) : list Z :=
  [Z.shiftr (Z.land size 0x0000ff00) 8; Z.land size 0x000000ff].

(** The size [read] computes from the two bytes of a header. *)
Definition header_size (b0 b1 : Z) : Z := Z.lor (Z.shiftl b0 8) b1.

(** [buf[0] | buf[1] << 8], the version code of the handshake. *)
Definition version_code (b0 b1 : Z) : Z := Z.lor b0 (Z.shiftl b1 8).

(** [usb.util.endpoint_direction] and its two values. *)
Definition ENDPOINT_OUT : Z := 0x00.
Definition ENDPOINT_IN : Z := 0x80.
Definition endpoint_direction (address : Z) : Z := Z.land address 0x80.

Section Methods.

Variable usb : Usb.

(** ** Calls to the library *)

Definition usb_core_find (idVendor idProduct : Z) : M (option Device) :=
  fun w => (Return (find usb (calls w) idVendor idProduct),
            log (Find idVendor idProduct) w).

Definition time_sleep (secs : Z) : M unit :=
  fun w => (Return tt, log (Sleep secs) w).

Definition device_ctrl_transfer_in (dev : Device)
    (bmRequestType bRequest wValue wIndex : Z) (d : CtrlData)
  : M (list byte) :=
  fun w =>
    (of_result
       (ctrl_transfer_in usb (calls w) dev bmRequestType bRequest wValue wIndex d),
     log (CtrlTransfer dev bmRequestType bRequest wValue wIndex d) w).

Definition device_ctrl_transfer_out (dev : Device)
    (bmRequestType bRequest wValue wIndex : Z) (d : CtrlData)
  : M Z :=
  fun w =>
    (of_result
       (ctrl_transfer_out usb (calls w) dev bmRequestType bRequest wValue wIndex d),
     log (CtrlTransfer dev bmRequestType bRequest wValue wIndex d) w).

Definition device_reset (dev : Device) : M unit :=
  fun w => (of_result (reset usb (calls w) dev), log (Reset dev) w).

Definition usb_util_dispose_resources (dev : Device) : M unit :=
  fun w => (Return tt, log (DisposeResources dev) w).

Definition device_active_interface (dev : Device) : M (list Endpoint) :=
  fun w => (of_result (active_interface usb (calls w) dev),
            log (ActiveInterface dev) w).

Definition endpoint_write (ep : Endpoint) (data : list byte)
    (timeout : option Z) : M Z :=
  fun w => (of_result (ep_write usb (calls w) ep data timeout),
            log (EpWrite ep data timeout) w).

Definition endpoint_read (ep : Endpoint) (size : Z)
    (timeout : option Z) : M (list byte) :=
  fun w => (of_result (ep_read usb (calls w) ep size timeout),
            log (EpRead ep size timeout) w).

(** [a.tostring()] on the array an endpoint read returned: no call to
    the library, so nothing is logged. *)
Definition array_tostring (a : list byte) : M (list byte) :=
  fun w => (of_result (tostring usb a), w).

(** ** [_detectDevice]

    The method calls itself with [attempts_left - 1]; [fuel] bounds the
    depth of the recursion. *)
Fixpoint _detectDevice (fuel : nat) (attempts_left : Z) : M (Device * bool) :=
  match fuel with
  | O => out_of_fuel
  | S fuel' =>
      s <- get_self ;;
      unconfigured_device <-
        usb_core_find (_vendor_id s) (_unconfigured_product_id s) ;;
      configured_device <-
        usb_core_find (_vendor_id s) (_configured_product_id s) ;;
      match configured_device, unconfigured_device with
      | Some d, _ => ret (d, true)
      | None, Some d => ret (d, false)
      | None, None =>
          if negb (attempts_left =? 0) then
            time_sleep 1 ;;;
            _detectDevice fuel' (attempts_left - 1)
          else
            raise (USBError None "Device not connected"%string)
      end
  end.

(** ** [_configureAndOpenDevice] *)

(** [assert(len(buf) == 2 and (buf[0] | buf[1] << 8) == 2)]; the
    conjunction is lazy, so the bytes are read only when there are
    two of them. *)
Definition validate_version_code (buf : list byte) : M unit :=
  if len buf =? 2 then
    b0 <- getitem buf 0 ;;
    b1 <- getitem buf 1 ;;
    assert (version_code b0 b1 =? 2)
  else
    assert false.

(** The [for i, data in enumerate(...)] loop, from index [i] on. *)
Fixpoint send_accessory_information (device : Device) (i : Z)
    (fields : list PyStr) : M unit :=
  match fields with
  | [] => ret tt
  | data :: rest =>
      n <- device_ctrl_transfer_out device 0x40 52 0 i (Data data) ;;
      assert (n =? len data) ;;;
      send_accessory_information device (i + 1) rest
  end.

(** The [while attempts_left:] loop; [dfuel] is the fuel of each call
    of [_detectDevice]. *)
Fixpoint wait_for_configured_device (fuel dfuel : nat) (attempts_left : Z)
  : M Device :=
  match fuel with
  | O => out_of_fuel
  | S fuel' =>
      if negb (attempts_left =? 0) then
        '(device, is_configured) <- _detectDevice dfuel 5 ;;
        if (is_configured : bool) then ret device
        else
          time_sleep 1 ;;;
          wait_for_configured_device fuel' dfuel (attempts_left - 1)
      else
        raise (USBError None "Device not configured"%string)
  end.

Definition _configureAndOpenDevice (fuel : nat)
    (manufacturer model description version uri serial : PyStr)
  : M Device :=
  '(device, is_configured) <- _detectDevice fuel 5 ;;
  (if negb is_configured then
     buf <- device_ctrl_transfer_in device 0xc0 51 0 0 (WLength 2) ;;
     validate_version_code buf ;;;
     send_accessory_information device 0
       [manufacturer; model; description; version; uri; serial] ;;;
     n <- device_ctrl_transfer_out device 0x40 53 0 0 NoData ;;
     assert (n =? 0) ;;;
     usb_util_dispose_resources device
   else
     device_reset device ;;;
     time_sleep 1) ;;;
  wait_for_configured_device fuel fuel 5.

(** ** [_detectEndpoints] *)

Definition first_out_endpoint (endpoint : Endpoint) : bool :=
  endpoint_direction (bEndpointAddress endpoint) =? ENDPOINT_OUT.

Definition first_in_endpoint (endpoint : Endpoint) : bool :=
  endpoint_direction (bEndpointAddress endpoint) =? ENDPOINT_IN.

Definition _detectEndpoints : M (Endpoint * Endpoint) :=
  s <- get_self ;;
  match _device s with
  | None => raise AssertionError
  | Some device =>
      interface <- device_active_interface device ;;
      match List.find first_out_endpoint interface,
            List.find first_in_endpoint interface with
      | Some endpoint_out, Some endpoint_in => ret (endpoint_out, endpoint_in)
      | _, _ => raise AssertionError
      end
  end.

(** ** [__init__]

    The arguments are what [int(...)] and [str(...)] made of the
    caller's: three integers and six [str]. *)

Definition __init__ (fuel : nat)
    (vendor_id unconfigured_product_id configured_product_id : Z)
    (manufacturer model description version uri serial : PyStr)
  : M unit :=
  set_self {| _vendor_id := vendor_id;
              _unconfigured_product_id := unconfigured_product_id;
              _configured_product_id := configured_product_id;
              _device := None;
              _endpoint_out := None;
              _endpoint_in := None |} ;;;
  device <- _configureAndOpenDevice fuel
              manufacturer model description version uri serial ;;
  s <- get_self ;;
  set_self {| _vendor_id := _vendor_id s;
              _unconfigured_product_id := _unconfigured_product_id s;
              _configured_product_id := _configured_product_id s;
              _device := Some device;
              _endpoint_out := _endpoint_out s;
              _endpoint_in := _endpoint_in s |} ;;;
  '(endpoint_out, endpoint_in) <- _detectEndpoints ;;
  s <- get_self ;;
  set_self {| _vendor_id := _vendor_id s;
              _unconfigured_product_id := _unconfigured_product_id s;
              _configured_product_id := _configured_product_id s;
              _device := _device s;
              _endpoint_out := Some endpoint_out;
              _endpoint_in := Some endpoint_in |}.

(** ** [write] *)

(** The [while True:] loop that sends the size header; [fuel] bounds the
    number of sends. *)
Fixpoint write_size_bytes (fuel : nat) (endpoint_out : Endpoint)
    (size_bytes : list byte) (timeout : option Z) : M unit :=
  match fuel with
  | O => out_of_fuel
  | S fuel' =>
      fun w =>
        match endpoint_write endpoint_out size_bytes timeout w with
        | (Raise (USBError errno strerror), w') =>
            if errno_eqb errno 110 then
              write_size_bytes fuel' endpoint_out size_bytes timeout w'
            else (Raise (USBError errno strerror), w')
        | (Return bytes_wrote, w') => assert (bytes_wrote =? 2) w'
        | (Raise e, w') => (Raise e, w')
        | (OutOfFuel, w') => (OutOfFuel, w')
        end
  end.

Definition write (fuel : nat) (data : list byte) (timeout : option Z)
  : M unit :=
  s <- get_self ;;
  match _device s, _endpoint_out s, data with
  | Some _, Some endpoint_out, _ :: _ =>
      let size := len data in
      size_bytes <- array_B (size_header size) ;;
      let data_bytes := data in
      write_size_bytes fuel endpoint_out size_bytes timeout ;;;
      n <- endpoint_write endpoint_out data_bytes timeout ;;
      assert (n =? size)
  | _, _, _ => raise AssertionError
  end.

(** ** [read] *)

Definition read (timeout : option Z) : M (option (list byte)) :=
  s <- get_self ;;
  match _device s, _endpoint_in s with
  | Some _, Some endpoint_in =>
      try_except_USBError
        (size_bytes <- endpoint_read endpoint_in 2 timeout ;;
         b0 <- getitem size_bytes 0 ;;
         b1 <- getitem size_bytes 1 ;;
         let size := header_size b0 b1 in
         payload <- endpoint_read endpoint_in size timeout ;;
         data <- array_tostring payload ;;
         ret (Some data))
        (fun errno strerror =>
           if errno_eqb errno 110 then ret None
           else raise (USBError errno strerror))
  | _, _ => raise AssertionError
  end.

(** ** [close] *)

Definition close : M unit :=
  s <- get_self ;;
  match _device s, _endpoint_out s with
  | Some device, Some endpoint_out =>
      zeros <- array_B [0; 0] ;;
      endpoint_write endpoint_out zeros None ;;;
      usb_util_dispose_resources device ;;;
      s <- get_self ;;
      set_self {| _vendor_id := _vendor_id s;
                  _unconfigured_product_id := _unconfigured_product_id s;
                  _configured_product_id := _configured_product_id s;
                  _device := None;
                  _endpoint_out := None;
                  _endpoint_in := None |}
  | _, _ => raise AssertionError
  end.

(** ** [__enter__] and [__exit__]

    [__enter__] returns the object itself and does nothing else;
    [__exit__] ignores its three arguments, calls [close] and returns
    [None]. *)

Definition __enter__ : M unit := ret tt.

Definition __exit__ : M unit := close.

(** ** [with AndroidOpenAccessoryBridge(...) as aoab: body]

    The constructor runs first; when it raises there is no object and
    nothing to exit.  Then [__enter__], then the body.  When the body
    ends, by falling off its end or by an exception, [__exit__] runs;
    [__exit__] returns [None], so an exception of the body is raised
    again after it, unless [__exit__] raised one of its own. *)
Definition with_bridge {A} (fuel : nat)
    (vendor_id unconfigured_product_id configured_product_id : Z)
    (manufacturer model description version uri serial : PyStr)
    (body : M A) : M A :=
  __init__ fuel vendor_id unconfigured_product_id configured_product_id
    manufacturer model description version uri serial ;;;
  __enter__ ;;;
  fun w =>
    match body w with
    | (Return a, w') => (__exit__ ;;; ret a) w'
    | (Raise e, w') => (__exit__ ;;; raise e) w'
    | (OutOfFuel, w') => (OutOfFuel, w')
    end.

End Methods.

(** * Concrete buses *)

(** [NEXUS4_USB_IDS] *)
Definition NEXUS4_USB_IDS : Z * Z * Z := (0x18d1, 0x4ee2, 0x2d01).

Definition timed_out : PyError := USBError (Some 110) "Operation timed out".

Definition no_such_device : PyError := USBError (Some 19) "No such device".

(** A bus with nothing plugged in: no device is found, and every
    transfer on a stale handle fails with ENODEV. *)
Definition empty_bus : Usb :=
  {| find := fun _ _ _ => None;
     ctrl_transfer_in := fun _ _ _ _ _ _ _ => Err no_such_device;
     ctrl_transfer_out := fun _ _ _ _ _ _ _ => Err no_such_device;
     reset := fun _ _ => Err no_such_device;
     active_interface := fun _ _ => Err no_such_device;
     ep_write := fun _ _ _ _ => Err no_such_device;
     ep_read := fun _ _ _ _ => Err no_such_device;
     tostring := fun a => Ok a |}.

(** The bytes in flight on a bulk pipe whose far end is connected back
    to its near end: what was written and not read yet. *)
Definition in_flight_step (wire : list byte) (e : Event) : list byte :=
  match e with
  | EpWrite _ data _ => wire ++ data
  | EpRead _ size _ => skipn (Z.to_nat size) wire
  | _ => wire
  end.

Definition in_flight (log : list Event) : list byte :=
  fold_left in_flight_step log [].

Definition is_nil {A} (l : list A) : bool :=
  match l with
  | [] => true
  | _ :: _ => false
  end.

(** The bulk pair of a well-behaved peer, seen from both sides at once:
    a write transfers all its bytes, a read delivers the next bytes in
    flight and times out when it wants some and there are none. *)
Definition pipe : Usb :=
  {| find := find empty_bus;
     ctrl_transfer_in := ctrl_transfer_in empty_bus;
     ctrl_transfer_out := ctrl_transfer_out empty_bus;
     reset := reset empty_bus;
     active_interface := active_interface empty_bus;
     ep_write := fun _ _ data _ => Ok (len data);
     ep_read := fun log _ size _ =>
       if (0 <? size) && is_nil (in_flight log) then Err timed_out
       else Ok (firstn (Z.to_nat size) (in_flight log));
     tostring := fun a => Ok a |}.

(** An OUT endpoint that fails every write with the given error. *)
Definition broken_pipe (e : PyError) : Usb :=
  {| find := find empty_bus;
     ctrl_transfer_in := ctrl_transfer_in empty_bus;
     ctrl_transfer_out := ctrl_transfer_out empty_bus;
     reset := reset empty_bus;
     active_interface := active_interface empty_bus;
     ep_write := fun _ _ _ _ => Err e;
     ep_read := ep_read empty_bus;
     tostring := fun a => Ok a |}.

(** An IN endpoint that delivers the given header and then times out. *)
Definition stalling_pipe (header : list byte) : Usb :=
  {| find := find empty_bus;
     ctrl_transfer_in := ctrl_transfer_in empty_bus;
     ctrl_transfer_out := ctrl_transfer_out empty_bus;
     reset := reset empty_bus;
     active_interface := active_interface empty_bus;
     ep_write := ep_write empty_bus;
     ep_read := fun log _ size _ =>
       if existsb (fun e => match e with EpRead _ _ _ => true | _ => false end) log
       then Err timed_out
       else Ok (firstn (Z.to_nat size) header);
     tostring := fun a => Ok a |}.

(** The number of bytes a [str] takes on the wire, where the library
    sends it in UTF-8: one byte for a character below 128, more for the
    others. *)
Definition utf8_width (c : Z) : Z :=
  if c <? 0x80 then 1
  else if c <? 0x800 then 2
  else if c <? 0x10000 then 3
  else 4.

Definition utf8_length (s : PyStr) : Z :=
  fold_right (fun c n => utf8_width c + n) 0 s.

(** The same bus seen from another Python: [ts] is what [tostring]
    answers on the arrays that endpoint reads return. *)
Definition with_tostring (ts : list byte -> Result (list byte)) (usb : Usb)
  : Usb :=
  {| find := find usb;
     ctrl_transfer_in := ctrl_transfer_in usb;
     ctrl_transfer_out := ctrl_transfer_out usb;
     reset := reset usb;
     active_interface := active_interface usb;
     ep_write := ep_write usb;
     ep_read := ep_read usb;
     tostring := ts |}.

(** From Python 3.9 on the arrays have no [tostring]. *)
Definition without_tostring (usb : Usb) : Usb :=
  with_tostring (fun _ => Err AttributeError) usb.

(** Whether the accessory-mode switch (request 53) was sent. *)
Definition is_switch (e : Event) : bool :=
  match e with
  | CtrlTransfer _ _ 53 _ _ _ => true
  | _ => false
  end.

(** A phone on the Nexus 4 ids that speaks protocol [version]: it shows
    up unconfigured as device 1, takes the six strings whole and
    reports the bytes each took, switches on
    request 53 and from then on shows up configured as device 2, with
    one bulk IN and one bulk OUT endpoint. *)
Definition phone (version : list byte) : Usb :=
  {| find := fun log idVendor idProduct =>
       if negb (idVendor =? 0x18d1) then None
       else if existsb is_switch log
            then (if idProduct =? 0x2d01 then Some 2 else None)
            else (if idProduct =? 0x4ee2 then Some 1 else None);
     ctrl_transfer_in := fun _ _ _ _ _ _ _ => Ok version;
     ctrl_transfer_out := fun _ _ _ _ _ _ d =>
       match d with
       | Data s => Ok (utf8_length s)
       | _ => Ok 0
       end;
     reset := fun _ _ => Ok tt;
     active_interface := fun _ _ =>
       Ok [ {| bEndpointAddress := 0x81 |}; {| bEndpointAddress := 0x02 |} ];
     ep_write := ep_write pipe;
     ep_read := ep_read pipe;
     tostring := fun a => Ok a |}.

(** A phone that already is in accessory mode. *)
Definition accessory : Usb :=
  {| find := fun _ idVendor idProduct =>
       if (idVendor =? 0x18d1) && (idProduct =? 0x2d01) then Some 2
       else None;
     ctrl_transfer_in := ctrl_transfer_in empty_bus;
     ctrl_transfer_out := ctrl_transfer_out empty_bus;
     reset := fun _ _ => Ok tt;
     active_interface := active_interface (phone []);
     ep_write := ep_write pipe;
     ep_read := ep_read pipe;
     tostring := fun a => Ok a |}.

(** A hub on which both product ids answer at once. *)
Definition both_present : Usb :=
  {| find := fun _ idVendor idProduct =>
       if negb (idVendor =? 0x18d1) then None
       else if idProduct =? 0x2d01 then Some 2
       else if idProduct =? 0x4ee2 then Some 1
       else None;
     ctrl_transfer_in := ctrl_transfer_in empty_bus;
     ctrl_transfer_out := ctrl_transfer_out empty_bus;
     reset := fun _ _ => Ok tt;
     active_interface := active_interface (phone []);
     ep_write := ep_write pipe;
     ep_read := ep_read pipe;
     tostring := fun a => Ok a |}.

(** An object before [__init__] ran, and one that is open on the
    Nexus 4 ids. *)
Definition blank : Bridge :=
  {| _vendor_id := 0; _unconfigured_product_id := 0;
     _configured_product_id := 0;
     _device := None; _endpoint_out := None; _endpoint_in := None |}.

Definition nexus4 : Bridge :=
  {| _vendor_id := 0x18d1; _unconfigured_product_id := 0x4ee2;
     _configured_product_id := 0x2d01;
     _device := None; _endpoint_out := None; _endpoint_in := None |}.

Definition nexus4_open : Bridge :=
  {| _vendor_id := 0x18d1; _unconfigured_product_id := 0x4ee2;
     _configured_product_id := 0x2d01;
     _device := Some 2;
     _endpoint_out := Some {| bEndpointAddress := 0x02 |};
     _endpoint_in := Some {| bEndpointAddress := 0x81 |} |}.

Definition start (b : Bridge) : World := {| self := b; calls := [] |}.

(** What [close] leaves of an object. *)
Definition closed (b : Bridge) : Bridge :=
  {| _vendor_id := _vendor_id b;
     _unconfigured_product_id := _unconfigured_product_id b;
     _configured_product_id := _configured_product_id b;
     _device := None; _endpoint_out := None; _endpoint_in := None |}.

(** The [str] of a text in ASCII, as the demo's accessory strings
    are. *)
Definition str_of_string (s : string) : PyStr :=
  map Z_of_byte (list_byte_of_string s).

(** An OUT endpoint that times out until [k] calls were made, and from
    then on transfers at most [limit] bytes of what it is given. *)
Definition flaky_pipe (k : nat) (limit : Z) : Usb :=
  {| find := find empty_bus;
     ctrl_transfer_in := ctrl_transfer_in empty_bus;
     ctrl_transfer_out := ctrl_transfer_out empty_bus;
     reset := reset empty_bus;
     active_interface := active_interface empty_bus;
     ep_write := fun log _ data _ =>
       if (List.length log <? k)%nat then Err timed_out
       else Ok (Z.min (len data) limit);
     ep_read := ep_read empty_bus;
     tostring := fun a => Ok a |}.

(** An object is open when [__init__] has filled its three handles. *)
Definition is_open (b : Bridge) : bool :=
  match _device b, _endpoint_out b, _endpoint_in b with
  | Some _, Some _, Some _ => true
  | _, _, _ => false
  end.

(** The world after more calls. *)
Definition after (w : World) (evs : list Event) : World :=
  {| self := self w; calls := calls w ++ evs |}.

(** The calls of one detection that finds nothing with [n] retries
    left: a look at both product ids, then, [n] times, a second of
    sleep and another look. *)
Fixpoint poll_rounds (vid unconfigured configured : Z) (n : nat)
  : list Event :=
  match n with
  | O => [Find vid unconfigured; Find vid configured]
  | S k =>
      Find vid unconfigured :: Find vid configured :: Sleep 1
      :: poll_rounds vid unconfigured configured k
  end.

Definition is_sleep (e : Event) : bool :=
  match e with
  | Sleep _ => true
  | _ => false
  end.

Definition is_ctrl (e : Event) : bool :=
  match e with
  | CtrlTransfer _ _ _ _ _ _ => true
  | _ => false
  end.

(** The control transfers of a log. *)
Definition control_transfers (log : list Event) : list Event :=
  filter is_ctrl log.

(** A method that leaves the object alone and only makes calls that
    satisfy [ok]. *)
Definition logs_only (ok : Event -> bool) {A} (m : M A) : Prop :=
  forall w, exists evs, snd (m w) = after w evs /\ forallb ok evs = true.

(** [_configureAndOpenDevice] on an unconfigured device, from the point
    where the version code was found valid. *)
Definition enter_accessory_mode (usb : Usb) (fuel : nat) (device : Device)
    (fields : list PyStr) : M Device :=
  send_accessory_information usb device 0 fields ;;;
  n <- device_ctrl_transfer_out usb device 0x40 53 0 0 NoData ;;
  assert (n =? 0) ;;;
  usb_util_dispose_resources device ;;;
  wait_for_configured_device usb fuel fuel 5.

(** What the version gate lets through.  [w1] is the world after the
    first detection, [buf] the answer to the version request and
    [result] what [_configureAndOpenDevice] does.  In every case the
    request is a control transfer 51 for two bytes; a two-byte answer
    whose little-endian value is not 2, or an answer of another length,
    is an assertion failure right after it; the value 2 lets the method
    go on, and its next call sends the first accessory string. *)
Definition version_gate (usb : Usb) (fuel : nat)
    (manufacturer model description version uri serial : PyStr)
    (w1 : World) (d : Device) (buf : list byte)
    (result : Outcome Device * World) : Prop :=
  let w2 := after w1 [CtrlTransfer d 0xc0 51 0 0 (WLength 2)] in
  (forall b0 b1,
     buf = [b0; b1] ->
     Z_of_byte b0 + 256 * Z_of_byte b1 <> 2 ->
     result = (Raise AssertionError, w2))
  /\ (List.length buf <> 2%nat -> result = (Raise AssertionError, w2))
  /\ (forall b0 b1,
        buf = [b0; b1] ->
        Z_of_byte b0 + 256 * Z_of_byte b1 = 2 ->
        result
        = enter_accessory_mode usb fuel d
            [manufacturer; model; description; version; uri; serial] w2
        /\ exists o evs,
             result
             = (o, after w2
                     (CtrlTransfer d 0x40 52 0 0 (Data manufacturer) :: evs))).

(** The fast path.  [w] is the world before [_configureAndOpenDevice],
    [w1] the world after its first detection, which found the
    configured device [d], and [result] what the method does: it makes
    no control transfer at all, and when the reset returns it sleeps a
    second and is in its re-polling loop. *)
Definition fast_path (usb : Usb) (fuel : nat) (w w1 : World) (d : Device)
    (result : Outcome Device * World) : Prop :=
  control_transfers (calls (snd result)) = control_transfers (calls w)
  /\ (reset usb (calls w1) d = Ok tt ->
      result
      = wait_for_configured_device usb fuel fuel 5
          (after w1 [Reset d; Sleep 1])).

(** * The statements of the properties *)

(** The law of the frame, for one payload on a bus: [write] puts a
    two-byte big-endian header worth [len P] and then [P] on the wire,
    and the [read] that follows returns [P]. *)
Definition round_trip (usb : Usb) (w : World) (P : list byte)
    (tw tr : option Z) : Prop :=
  exists eo ei b0 b1,
    _endpoint_out (self w) = Some eo
    /\ _endpoint_in (self w) = Some ei
    /\ Z_of_byte b0 * 256 + Z_of_byte b1 = len P
    /\ forall fuel, (0 < fuel)%nat ->
         (write usb fuel P tw ;;; read usb tr) w
         = (Return (Some P),
            after w [EpWrite eo [b0; b1] tw; EpWrite eo P tw;
                     EpRead ei 2 tr; EpRead ei (len P) tr]).

(** What [write] does with a payload of any length on an endpoint that
    transfers what it is given: it returns, having sent a header worth
    [len P mod 65536] and then the payload. *)
Definition sends_wrapped_header (usb : Usb) (w : World) (eo : Endpoint)
    (P : list byte) (t : option Z) : Prop :=
  exists b0 b1,
    Z_of_byte b0 * 256 + Z_of_byte b1 = len P mod 65536
    /\ (Z_of_byte b0 * 256 + Z_of_byte b1 = len P <-> len P <= 65535)
    /\ forall fuel, (0 < fuel)%nat ->
         write usb fuel P t w
         = (Return tt, after w [EpWrite eo [b0; b1] t; EpWrite eo P t]).

(** A payload one byte too long for a 16-bit length. *)
Definition oversized : list byte := repeat x61 (Z.to_nat 65536).

(** What [write] does after its guard, from the header loop on. *)
Definition write_from_header (usb : Usb) (fuel : nat) (eo : Endpoint)
    (hdr P : list byte) (t : option Z) : M unit :=
  write_size_bytes usb fuel eo hdr t ;;;
  n <- endpoint_write usb eo P t ;;
  assert (n =? len P).

(** The policy of [write] on a payload [P] with header [hdr]:
    - once the header loop has returned, a payload send that reports a
      count other than [len P] makes [write] raise, and that send is the
      last call [write] makes;
    - as long as the header send times out (errno 110), [write] sends
      the header again: [k] timeouts cost [k] sends and leave [write]
      at the start of its header loop;
    - so, on an endpoint where the header send always times out, [write]
      never returns nor raises: whatever the fuel, it is still sending
      the header. *)
Definition write_policy (usb : Usb) (w : World) (eo : Endpoint)
    (hdr P : list byte) (t : option Z) : Prop :=
  (forall fuel w1 n,
     write_size_bytes usb fuel eo hdr t w = (Return tt, w1) ->
     ep_write usb (calls w1) eo P t = Ok n ->
     n <> len P ->
     write usb fuel P t w = (Raise AssertionError, after w1 [EpWrite eo P t]))
  /\ (forall k fuel,
        (forall i, (i < k)%nat ->
           exists s,
             ep_write usb (calls w ++ repeat (EpWrite eo hdr t) i) eo hdr t
             = Err (USBError (Some 110) s)) ->
        write usb (k + fuel) P t w
        = write_from_header usb fuel eo hdr P t
            (after w (repeat (EpWrite eo hdr t) k)))
  /\ ((forall log, exists s,
         ep_write usb log eo hdr t = Err (USBError (Some 110) s)) ->
      forall fuel,
        write usb fuel P t w
        = (OutOfFuel, after w (repeat (EpWrite eo hdr t) fuel))).

(** What [read] answers when the payload transfer times out after the
    header [b0; b1] was consumed: [None], having made both transfers;
    and this is the very answer of any [read] whose header transfer
    times out, which leaves its object as it was. *)
Definition reads_as_no_message (usb : Usb) (w : World) (ei : Endpoint)
    (b0 b1 : byte) (t : option Z) : Prop :=
  read usb t w
  = (Return None,
     after w [EpRead ei 2 t;
              EpRead ei (header_size (Z_of_byte b0) (Z_of_byte b1)) t])
  /\ forall usb' w' d' ei' t' s',
       _device (self w') = Some d' ->
       _endpoint_in (self w') = Some ei' ->
       ep_read usb' (calls w') ei' 2 t' = Err (USBError (Some 110) s') ->
       read usb' t' w' = (Return None, after w' [EpRead ei' 2 t'])
       /\ fst (read usb' t' w') = fst (read usb t w).

(** What [close] does on an object whose device and OUT endpoint are
    set: when the send of the terminator returns, with whatever count,
    the device is disposed of and the three handles are cleared; when
    the send raises, [close] raises the same error. *)
Definition close_releases (usb : Usb) (w : World) (d : Device)
    (eo : Endpoint) : Prop :=
  (forall n,
     ep_write usb (calls w) eo [x00; x00] None = Ok n ->
     close usb w
     = (Return tt,
        {| self := closed (self w);
           calls := calls w ++ [EpWrite eo [x00; x00] None;
                                DisposeResources d] |}))
  /\ (forall e,
        ep_write usb (calls w) eo [x00; x00] None = Err e ->
        fst (close usb w) = Raise e).

(** An object on which every method raises before any call to the
    library. *)
Definition unusable (b : Bridge) : Prop :=
  forall usb fuel data t log,
    let w := {| self := b; calls := log |} in
    write usb fuel data t w = (Raise AssertionError, w)
    /\ read usb t w = (Raise AssertionError, w)
    /\ close usb w = (Raise AssertionError, w).

(** An IN endpoint that delivers the given header and then fails with
    the given error. *)
Definition failing_after_header (header : list byte) (e : PyError) : Usb :=
  {| find := find empty_bus;
     ctrl_transfer_in := ctrl_transfer_in empty_bus;
     ctrl_transfer_out := ctrl_transfer_out empty_bus;
     reset := reset empty_bus;
     active_interface := active_interface empty_bus;
     ep_write := ep_write empty_bus;
     ep_read := fun log _ size _ =>
       if existsb (fun e => match e with EpRead _ _ _ => true | _ => false end) log
       then Err e
       else Ok (firstn (Z.to_nat size) header);
     tostring := fun a => Ok a |}.

(** An OUT endpoint that times out until [k] calls were made and then
    fails with the given error. *)
Definition dying_pipe (k : nat) (e : PyError) : Usb :=
  {| find := find empty_bus;
     ctrl_transfer_in := ctrl_transfer_in empty_bus;
     ctrl_transfer_out := ctrl_transfer_out empty_bus;
     reset := reset empty_bus;
     active_interface := active_interface empty_bus;
     ep_write := fun log _ _ _ =>
       if (List.length log <? k)%nat then Err timed_out else Err e;
     ep_read := ep_read empty_bus;
     tostring := fun a => Ok a |}.

(** The errors the handlers of [write] and [read] swallow: a [USBError]
    whose [errno] is 110. *)
Definition is_timeout (e : PyError) : bool :=
  match e with
  | USBError errno _ => errno_eqb errno 110
  | _ => false
  end.

(** The header send of a [write] times out [k] times in a row. *)
Definition header_times_out (usb : Usb) (w : World) (eo : Endpoint)
    (hdr : list byte) (t : option Z) (k : nat) : Prop :=
  forall i, (i < k)%nat ->
    exists s,
      ep_write usb (calls w ++ repeat (EpWrite eo hdr t) i) eo hdr t
      = Err (USBError (Some 110) s).

(** The calls of a [write]: some sends of the header, then at most one
    send of the payload, all on the OUT endpoint with the timeout of the
    call; and nothing at all when the guard fails. *)
Definition write_calls (b : Bridge) (fuel : nat) (data : list byte)
    (t : option Z) (evs : list Event) : Prop :=
  match _device b, _endpoint_out b, data with
  | Some _, Some eo, _ :: _ =>
      exists hdr k,
        (k <= fuel)%nat
        /\ (evs = repeat (EpWrite eo hdr t) k
            \/ ((0 < k)%nat
                /\ evs = repeat (EpWrite eo hdr t) k ++ [EpWrite eo data t]))
  | _, _, _ => evs = []
  end.

(** What [read] makes of the payload a transfer delivered after the
    header [b0; b1]: it hands it to [tostring], returns what that
    returns and raises what that raises. *)
Definition read_hands_over (usb : Usb) (w : World) (ei : Endpoint)
    (b0 b1 : byte) (payload : list byte) (t : option Z) : Prop :=
  (forall data,
     tostring usb payload = Ok data ->
     read usb t w
     = (Return (Some data),
        after w [EpRead ei 2 t;
                 EpRead ei (Z_of_byte b0 * 256 + Z_of_byte b1) t]))
  /\ (forall e,
        tostring usb payload = Err e ->
        is_timeout e = false ->
        read usb t w
        = (Raise e,
           after w [EpRead ei 2 t;
                    EpRead ei (Z_of_byte b0 * 256 + Z_of_byte b1) t])).

(** The calls of a [read]: at most two, a transfer of two bytes on the
    IN endpoint and then a transfer of the size they announce. *)
Definition read_calls (b : Bridge) (t : option Z) (evs : list Event) : Prop :=
  match _device b, _endpoint_in b with
  | Some _, Some ei =>
      evs = [EpRead ei 2 t]
      \/ exists size, 0 <= size <= 65535
                      /\ evs = [EpRead ei 2 t; EpRead ei size t]
  | _, _ => evs = []
  end.

(** How [read] treats errors that are not timeouts, at the header and at
    the payload: it raises them as they are. *)
Definition read_raises (usb : Usb) (w : World) (ei : Endpoint)
    (t : option Z) : Prop :=
  (forall e,
     ep_read usb (calls w) ei 2 t = Err e ->
     is_timeout e = false ->
     read usb t w = (Raise e, after w [EpRead ei 2 t]))
  /\ (forall b0 b1 e,
        ep_read usb (calls w) ei 2 t = Ok [b0; b1] ->
        ep_read usb (calls w ++ [EpRead ei 2 t]) ei
          (Z_of_byte b0 * 256 + Z_of_byte b1) t = Err e ->
        is_timeout e = false ->
        read usb t w
        = (Raise e,
           after w [EpRead ei 2 t;
                    EpRead ei (Z_of_byte b0 * 256 + Z_of_byte b1) t])).

(** [x] is the first element of [l] that satisfies [p]. *)
Definition is_first {A} (p : A -> bool) (l : list A) (x : A) : Prop :=
  exists before behind,
    l = before ++ x :: behind
    /\ p x = true
    /\ forallb (fun y => negb (p y)) before = true.

(** What [_detectEndpoints] answers for a device whose interface (0, 0)
    lists the endpoints [eps]: when it returns, the first endpoint of
    each direction, the OUT one with bit 7 of its address clear and the
    IN one with it set; and it fails its last assertion exactly when
    one of the directions is missing. *)
Definition endpoints_resolved (usb : Usb) (w : World) (d : Device)
    (eps : list Endpoint) : Prop :=
  (forall eo ei w',
     _detectEndpoints usb w = (Return (eo, ei), w') ->
     w' = after w [ActiveInterface d]
     /\ is_first first_out_endpoint eps eo
     /\ is_first first_in_endpoint eps ei
     /\ Z.testbit (bEndpointAddress eo) 7 = false
     /\ Z.testbit (bEndpointAddress ei) 7 = true)
  /\ (_detectEndpoints usb w
      = (Raise AssertionError, after w [ActiveInterface d])
      <-> forallb first_in_endpoint eps = true
          \/ forallb first_out_endpoint eps = true)
  /\ ((exists r, fst (_detectEndpoints usb w) = Return r)
      \/ fst (_detectEndpoints usb w) = Raise AssertionError).

(** An accessory whose interface lists the given endpoints. *)
Definition accessory_with (eps : list Endpoint) : Usb :=
  {| find := find accessory;
     ctrl_transfer_in := ctrl_transfer_in accessory;
     ctrl_transfer_out := ctrl_transfer_out accessory;
     reset := reset accessory;
     active_interface := fun _ _ => Ok eps;
     ep_write := ep_write accessory;
     ep_read := ep_read accessory;
     tostring := fun a => Ok a |}.

(** What a detection that returns has seen: the world it leaves is the
    one it started in after some polls, the last of which looked at
    both product ids; the device it returns answered the last look at
    its product id, and a device returned as unconfigured was returned
    because the last look at the configured id found nothing. *)
Definition detected (usb : Usb) (w w' : World) (d : Device)
    (is_configured : bool) : Prop :=
  let vid := _vendor_id (self w) in
  let u := _unconfigured_product_id (self w) in
  let c := _configured_product_id (self w) in
  exists evs,
    w' = after w (evs ++ [Find vid u; Find vid c])
    /\ forallb (fun e => match e with
                         | Find _ _ | Sleep _ => true
                         | _ => false
                         end) evs = true
    /\ find usb (calls w ++ evs ++ [Find vid u]) vid c
       = (if is_configured then Some d else None)
    /\ (is_configured = false -> find usb (calls w ++ evs) vid u = Some d).

Definition is_poll (e : Event) : bool :=
  match e with
  | Find _ _ | Sleep _ => true
  | _ => false
  end.

(** A detection that ends: it returns or raises
    [USBError('Device not connected')], after polls only, with at most
    [n] sleeps among them. *)
Definition detection_ends (w : World) (n : nat)
    (result : Outcome (Device * bool) * World) : Prop :=
  (fst result = Raise (USBError None "Device not connected")
   \/ exists r, fst result = Return r)
  /\ exists evs,
       snd result = after w evs
       /\ forallb is_poll evs = true
       /\ (List.length (filter is_sleep evs) <= n)%nat.

(** A phone that shows up unconfigured only after [k] looks at the
    bus. *)
Definition late_phone (k : nat) : Usb :=
  {| find := fun log idVendor idProduct =>
       if (List.length log <? k)%nat then None
       else find (phone [x02; x00]) log idVendor idProduct;
     ctrl_transfer_in := ctrl_transfer_in (phone [x02; x00]);
     ctrl_transfer_out := ctrl_transfer_out (phone [x02; x00]);
     reset := reset (phone [x02; x00]);
     active_interface := active_interface (phone [x02; x00]);
     ep_write := ep_write pipe;
     ep_read := ep_read pipe;
     tostring := fun a => Ok a |}.

(** The control transfers that send the accessory strings [fields],
    numbered from [i]. *)
Fixpoint string_transfers (d : Device) (i : Z) (fields : list PyStr)
  : list Event :=
  match fields with
  | [] => []
  | data :: rest =>
      CtrlTransfer d 0x40 52 0 i (Data data) :: string_transfers d (i + 1) rest
  end.

(** The request for the protocol version and the command that switches
    the device to accessory mode. *)
Definition version_request (d : Device) : Event :=
  CtrlTransfer d 0xc0 51 0 0 (WLength 2).

Definition switch_command (d : Device) : Event :=
  CtrlTransfer d 0x40 53 0 0 NoData.

(** For each of the strings [fields], numbered from [i], the transfer
    reports a count equal to the number of characters of the string. *)
Definition reports_lengths (usb : Usb) (d : Device) (i : Z)
    (fields : list PyStr) : Prop :=
  forall log k data,
    nth_error fields k = Some data ->
    ctrl_transfer_out usb log d 0x40 52 0 (i + Z.of_nat k) (Data data)
    = Ok (len data).

(** [n] rounds of the re-polling loop that each found the device still
    unconfigured. *)
Fixpoint still_unconfigured (vid unconfigured configured : Z) (n : nat)
  : list Event :=
  match n with
  | O => []
  | S k =>
      Find vid unconfigured :: Find vid configured :: Sleep 1
      :: still_unconfigured vid unconfigured configured k
  end.

(** A phone with quirks: it takes one byte less than the string
    numbered [short_index] has, answers [switch_answer] to the switch
    command, and after the switch either shows up configured, stays
    unconfigured, or is gone. *)
Inductive AfterSwitch : Type := Reenumerates | StaysUnconfigured | Vanishes.

Definition odd_phone (short_index switch_answer : Z) (mode : AfterSwitch)
  : Usb :=
  {| find := fun log idVendor idProduct =>
       if negb (idVendor =? 0x18d1) then None
       else if existsb is_switch log
            then match mode with
                 | Reenumerates => if idProduct =? 0x2d01 then Some 2 else None
                 | StaysUnconfigured =>
                     if idProduct =? 0x4ee2 then Some 1 else None
                 | Vanishes => None
                 end
            else (if idProduct =? 0x4ee2 then Some 1 else None);
     ctrl_transfer_in := fun _ _ _ _ _ _ _ => Ok [x02; x00];
     ctrl_transfer_out := fun _ _ _ _ _ wIndex d =>
       match d with
       | Data s => if wIndex =? short_index then Ok (utf8_length s - 1)
                   else Ok (utf8_length s)
       | _ => Ok switch_answer
       end;
     reset := fun _ _ => Ok tt;
     active_interface := active_interface (phone []);
     ep_write := ep_write pipe;
     ep_read := ep_read pipe;
     tostring := fun a => Ok a |}.

(** A method that always ends, returning or raising, after calls among
    which at most [n] are sleeps, and that leaves the object alone. *)
Definition bounded (n : nat) {A} (m : M A) : Prop :=
  forall w,
    fst (m w) <> OutOfFuel
    /\ exists evs,
         snd (m w) = after w evs
         /\ (List.length (filter is_sleep evs) <= n)%nat.

(** What [__init__] leaves behind.  [r] is its outcome and final world:
    the three ids are stored whatever happens; the object is open
    exactly when [__init__] returned; and then its device is one that
    answered a look at the configured product id, its OUT endpoint has
    bit 7 of its address clear and its IN endpoint has it set. *)
Definition initialised (usb : Usb)
    (vendor_id unconfigured_product_id configured_product_id : Z)
    (r : Outcome unit * World) : Prop :=
  _vendor_id (self (snd r)) = vendor_id
  /\ _unconfigured_product_id (self (snd r)) = unconfigured_product_id
  /\ _configured_product_id (self (snd r)) = configured_product_id
  /\ (fst r = Return tt <-> is_open (self (snd r)) = true)
  /\ (fst r = Return tt ->
      exists d eo ei,
        _device (self (snd r)) = Some d
        /\ _endpoint_out (self (snd r)) = Some eo
        /\ _endpoint_in (self (snd r)) = Some ei
        /\ (exists log, find usb log vendor_id configured_product_id = Some d)
        /\ Z.testbit (bEndpointAddress eo) 7 = false
        /\ Z.testbit (bEndpointAddress ei) 7 = true).

(** The outcome of a [with] block whose body ended with [o], when
    [__exit__] returned: the value or the exception of the body. *)
Definition ended {A} (o : Outcome A) : Prop := o <> OutOfFuel.

(** A phone that negotiates well and whose bulk endpoints then fail
    with the given error. *)
Definition phone_with_dead_pipe (e : PyError) : Usb :=
  {| find := find (phone [x02; x00]);
     ctrl_transfer_in := ctrl_transfer_in (phone [x02; x00]);
     ctrl_transfer_out := ctrl_transfer_out (phone [x02; x00]);
     reset := reset (phone [x02; x00]);
     active_interface := active_interface (phone [x02; x00]);
     ep_write := fun _ _ _ _ => Err e;
     ep_read := fun _ _ _ _ => Err e;
     tostring := fun a => Ok a |}.

(** The [with] block of the demo, with its ids and strings, around a
    body. *)
Definition demo_with {A} (usb : Usb) (body : M A) : M A :=
  with_bridge usb 6 0x18d1 0x4ee2 0x2d01
    (str_of_string "AoabManufacturer") (str_of_string "AoabModel")
    (str_of_string "AoabDescription") (str_of_string "1")
    (str_of_string "https://github.com/chris-blay/android-open-accessory-bridge")
    (str_of_string "AoabSerial") body.

Definition demo_init (usb : Usb) : M unit :=
  __init__ usb 6 0x18d1 0x4ee2 0x2d01
    (str_of_string "AoabManufacturer") (str_of_string "AoabModel")
    (str_of_string "AoabDescription") (str_of_string "1")
    (str_of_string "https://github.com/chris-blay/android-open-accessory-bridge")
    (str_of_string "AoabSerial").

(** What a [with] block comes to when its constructor returned in [w1],
    its body ended with [o] in [w2] without touching the attributes of
    the object, and the terminator write of [close] returned: the
    outcome of the body, with the device disposed of and the object
    closed. *)
Definition exits_closed {A} (w1 w2 : World) (o : Outcome A)
    (result : Outcome A * World) : Prop :=
  exists d eo,
    _device (self w1) = Some d
    /\ _endpoint_out (self w1) = Some eo
    /\ result
       = (o, {| self := closed (self w1);
                calls := calls w2 ++ [EpWrite eo [x00; x00] None;
                                      DisposeResources d] |}).

(** What it comes to when the terminator write raised [e]: that error,
    whatever the body returned or raised, with the device not disposed
    of. *)
Definition exits_with_close_error {A} (w1 w2 : World) (e : PyError)
    (result : Outcome A * World) : Prop :=
  exists eo,
    _endpoint_out (self w1) = Some eo
    /\ result = (Raise e, after w2 [EpWrite eo [x00; x00] None]).

(** * Runs of the code on the concrete buses *)

(** The scenario of the demo: an unconfigured Nexus 4 speaking protocol
    2 is switched to accessory mode and opened. *)
Example init_on_phone :
  __init__ (phone [x02; x00]) 6 0x18d1 0x4ee2 0x2d01
    (str_of_string "AoabManufacturer") (str_of_string "AoabModel")
    (str_of_string "AoabDescription") (str_of_string "1")
    (str_of_string "https://github.com/chris-blay/android-open-accessory-bridge")
    (str_of_string "AoabSerial") (start blank)
  = (Return tt,
     {| self := nexus4_open;
        calls :=
          [ Find 0x18d1 0x4ee2; Find 0x18d1 0x2d01;
            CtrlTransfer 1 0xc0 51 0 0 (WLength 2);
            CtrlTransfer 1 0x40 52 0 0 (Data (str_of_string "AoabManufacturer"));
            CtrlTransfer 1 0x40 52 0 1 (Data (str_of_string "AoabModel"));
            CtrlTransfer 1 0x40 52 0 2 (Data (str_of_string "AoabDescription"));
            CtrlTransfer 1 0x40 52 0 3 (Data (str_of_string "1"));
            CtrlTransfer 1 0x40 52 0 4
              (Data (str_of_string
                 "https://github.com/chris-blay/android-open-accessory-bridge"));
            CtrlTransfer 1 0x40 52 0 5 (Data (str_of_string "AoabSerial"));
            CtrlTransfer 1 0x40 53 0 0 NoData;
            DisposeResources 1;
            Find 0x18d1 0x4ee2; Find 0x18d1 0x2d01;
            ActiveInterface 2 ] |}).
Proof. vm_compute. reflexivity. Qed.

Example write_then_read_on_pipe :
  (write pipe 1 [x68; x69] None ;;; read pipe None) (start nexus4_open)
  = (Return (Some [x68; x69]),
     {| self := nexus4_open;
        calls :=
          [ EpWrite {| bEndpointAddress := 0x02 |} [x00; x02] None;
            EpWrite {| bEndpointAddress := 0x02 |} [x68; x69] None;
            EpRead {| bEndpointAddress := 0x81 |} 2 None;
            EpRead {| bEndpointAddress := 0x81 |} 2 None ] |}).
Proof. vm_compute. reflexivity. Qed.

Example read_on_idle_pipe :
  read pipe None (start nexus4_open)
  = (Return None,
     {| self := nexus4_open;
        calls := [ EpRead {| bEndpointAddress := 0x81 |} 2 None ] |}).
Proof. vm_compute. reflexivity. Qed.

Example close_on_pipe :
  close pipe (start nexus4_open)
  = (Return tt,
     {| self := closed nexus4_open;
        calls := [ EpWrite {| bEndpointAddress := 0x02 |} [x00; x00] None;
                   DisposeResources 2 ] |}).
Proof. vm_compute. reflexivity. Qed.

Example detect_on_empty_bus :
  _detectDevice empty_bus 6 5 (start nexus4)
  = (Raise (USBError None "Device not connected"),
     {| self := nexus4;
        calls :=
          [ Find 0x18d1 0x4ee2; Find 0x18d1 0x2d01; Sleep 1;
            Find 0x18d1 0x4ee2; Find 0x18d1 0x2d01; Sleep 1;
            Find 0x18d1 0x4ee2; Find 0x18d1 0x2d01; Sleep 1;
            Find 0x18d1 0x4ee2; Find 0x18d1 0x2d01; Sleep 1;
            Find 0x18d1 0x4ee2; Find 0x18d1 0x2d01; Sleep 1;
            Find 0x18d1 0x4ee2; Find 0x18d1 0x2d01 ] |}).
Proof. vm_compute. reflexivity. Qed.

(** * Bytes and headers *)

Lemma Z_of_byte_range (b : byte) : 0 <= Z_of_byte b < 256.
Proof.
  unfold Z_of_byte. pose proof (Byte.to_N_bounded b). lia.
Qed.

Lemma byte_of_Z_some (z : Z) (b : byte) :
  byte_of_Z z = Some b -> Z_of_byte b = z.
Proof.
  unfold byte_of_Z, Z_of_byte.
  destruct (z <? 0) eqn:Hneg; [discriminate|].
  intros H. apply Byte.to_of_N in H. rewrite H.
  apply Z.ltb_ge in Hneg. lia.
Qed.

Lemma byte_of_Z_in_range (z : Z) :
  0 <= z < 256 -> exists b, byte_of_Z z = Some b /\ Z_of_byte b = z.
Proof.
  intros Hz. destruct (byte_of_Z z) as [b|] eqn:E.
  - exists b. split; [reflexivity|]. now apply byte_of_Z_some.
  - exfalso. unfold byte_of_Z in E.
    destruct (z <? 0) eqn:Hneg; [apply Z.ltb_lt in Hneg; lia|].
    apply Byte.of_N_None_iff in E. lia.
Qed.

Lemma size_header_hi (size : Z) :
  Z.shiftr (Z.land size 0x0000ff00) 8 = (size / 256) mod 256.
Proof.
  rewrite Z.shiftr_land.
  change (Z.shiftr 65280 8) with (Z.ones 8).
  rewrite Z.land_ones by lia.
  rewrite Z.shiftr_div_pow2 by lia.
  reflexivity.
Qed.

Lemma size_header_lo (size : Z) : Z.land size 0x000000ff = size mod 256.
Proof.
  change 255 with (Z.ones 8). rewrite Z.land_ones by lia. reflexivity.
Qed.

(** A byte shifted past another byte does not overlap it, so [|] adds. *)
Lemma lor_shiftl_8 (a b : Z) :
  0 <= b < 256 -> Z.lor (Z.shiftl a 8) b = a * 256 + b.
Proof.
  intros Hb.
  assert (Hdisj : Z.land (Z.shiftl a 8) b = 0).
  { apply Z.bits_inj'. intros i Hi.
    rewrite Z.land_spec, Z.bits_0.
    destruct (Z.ltb_spec i 8) as [Hlt|Hge].
    - rewrite Z.shiftl_spec_low by assumption. reflexivity.
    - replace b with (b mod 2 ^ 8)
        by (apply Z.mod_small; change (2 ^ 8) with 256; lia).
      rewrite Z.mod_pow2_bits_high by lia.
      apply andb_false_r. }
  rewrite <- Z.lxor_lor by assumption.
  rewrite <- Z.add_nocarry_lxor by assumption.
  rewrite Z.shiftl_mul_pow2 by lia. reflexivity.
Qed.

Lemma header_size_bytes (b0 b1 : byte) :
  header_size (Z_of_byte b0) (Z_of_byte b1)
  = Z_of_byte b0 * 256 + Z_of_byte b1.
Proof.
  unfold header_size. apply lor_shiftl_8, Z_of_byte_range.
Qed.

Lemma version_code_bytes (b0 b1 : byte) :
  version_code (Z_of_byte b0) (Z_of_byte b1)
  = Z_of_byte b0 + 256 * Z_of_byte b1.
Proof.
  unfold version_code. rewrite Z.lor_comm.
  rewrite lor_shiftl_8 by apply Z_of_byte_range. lia.
Qed.

(** The header [write] builds: its two bytes are the low 16 bits of the
    size, high byte first, whatever the size. *)
Lemma array_B_size_header (size : Z) (w : World) :
  exists b0 b1,
    array_B (size_header size) w = (Return [b0; b1], w)
    /\ Z_of_byte b0 = (size / 256) mod 256
    /\ Z_of_byte b1 = size mod 256.
Proof.
  destruct (byte_of_Z_in_range ((size / 256) mod 256)) as (b0 & E0 & V0).
  { apply Z.mod_pos_bound. lia. }
  destruct (byte_of_Z_in_range (size mod 256)) as (b1 & E1 & V1).
  { apply Z.mod_pos_bound. lia. }
  exists b0, b1. split; [|split; assumption].
  unfold size_header, array_B.
  rewrite size_header_hi, size_header_lo, E0, E1. reflexivity.
Qed.

Lemma header_value_mod (size : Z) (b0 b1 : byte) :
  Z_of_byte b0 = (size / 256) mod 256 ->
  Z_of_byte b1 = size mod 256 ->
  Z_of_byte b0 * 256 + Z_of_byte b1 = size mod 65536.
Proof.
  intros -> ->.
  pose proof (Z.div_mod size 256 ltac:(lia)).
  pose proof (Z.div_mod (size / 256) 256 ltac:(lia)).
  pose proof (Z.mod_pos_bound size 256 ltac:(lia)).
  pose proof (Z.mod_pos_bound (size / 256) 256 ltac:(lia)).
  apply Z.mod_unique with (q := size / 256 / 256); lia.
Qed.

Lemma array_B_zeros (w : World) : array_B [0; 0] w = (Return [x00; x00], w).
Proof. reflexivity. Qed.

(** * The framed channel *)

Lemma log_after (e : Event) (w : World) : log e w = after w [e].
Proof. reflexivity. Qed.

Lemma after_after (w : World) (xs ys : list Event) :
  after (after w xs) ys = after w (xs ++ ys).
Proof. unfold after. simpl. now rewrite app_assoc. Qed.

Lemma after_nil (w : World) : after w [] = w.
Proof. destruct w. unfold after. simpl. now rewrite app_nil_r. Qed.

(** Put a world reached by several calls in the form [after w evs]. *)
Ltac tidy := rewrite ?log_after, ?after_after; simpl app.

Section Framing.

Variable usb : Usb.

(** [write] is its guard, then the header loop, then one payload send
    whose count is checked. *)
Lemma write_unfold (fuel : nat) (w : World) (d : Device) (eo : Endpoint)
    (P hdr : list byte) (t : option Z) :
  _device (self w) = Some d ->
  _endpoint_out (self w) = Some eo ->
  P <> [] ->
  array_B (size_header (len P)) w = (Return hdr, w) ->
  write usb fuel P t w
  = (write_size_bytes usb fuel eo hdr t ;;;
     n <- endpoint_write usb eo P t ;;
     assert (n =? len P)) w.
Proof.
  intros Hd Ho HP Hh. unfold write.
  unfold bind at 1. unfold get_self. rewrite Hd, Ho.
  destruct P as [|p P']; [congruence|].
  unfold bind at 1. rewrite Hh. reflexivity.
Qed.

Lemma write_size_bytes_sent (fuel : nat) (w : World) (eo : Endpoint)
    (hdr : list byte) (t : option Z) :
  ep_write usb (calls w) eo hdr t = Ok 2 ->
  write_size_bytes usb (S fuel) eo hdr t w
  = (Return tt, after w [EpWrite eo hdr t]).
Proof.
  intros H. simpl. unfold endpoint_write. rewrite H. reflexivity.
Qed.

(** A timed-out header send is followed by the same send again. *)
Lemma write_size_bytes_timeout (fuel : nat) (w : World) (eo : Endpoint)
    (hdr : list byte) (t : option Z) (s : string) :
  ep_write usb (calls w) eo hdr t = Err (USBError (Some 110) s) ->
  write_size_bytes usb (S fuel) eo hdr t w
  = write_size_bytes usb fuel eo hdr t (after w [EpWrite eo hdr t]).
Proof.
  intros H. simpl. unfold endpoint_write. rewrite H. reflexivity.
Qed.

(** As long as the header send times out it is sent again: [k] timeouts
    cost [k] sends and leave the loop where it started. *)
Lemma write_size_bytes_timeouts (k fuel : nat) (w : World) (eo : Endpoint)
    (hdr : list byte) (t : option Z) :
  (forall i, (i < k)%nat ->
     exists s, ep_write usb (calls w ++ repeat (EpWrite eo hdr t) i) eo hdr t
               = Err (USBError (Some 110) s)) ->
  write_size_bytes usb (k + fuel) eo hdr t w
  = write_size_bytes usb fuel eo hdr t (after w (repeat (EpWrite eo hdr t) k)).
Proof.
  revert w. induction k as [|k IH]; intros w H.
  - simpl repeat. now rewrite after_nil.
  - destruct (H 0%nat ltac:(lia)) as [s Hs].
    simpl repeat in Hs. rewrite app_nil_r in Hs.
    change (S k + fuel)%nat with (S (k + fuel)).
    rewrite (write_size_bytes_timeout _ _ _ _ _ s Hs).
    rewrite IH.
    + rewrite after_after. reflexivity.
    + intros i Hi. destruct (H (S i) ltac:(lia)) as [s' Hs'].
      exists s'. simpl. rewrite <- app_assoc. exact Hs'.
Qed.

(** With an endpoint that transfers what it is given, [write] sends the
    header once and the payload once. *)
Lemma write_sends_frame (fuel : nat) (w : World) (d : Device) (eo : Endpoint)
    (P hdr : list byte) (t : option Z) :
  _device (self w) = Some d ->
  _endpoint_out (self w) = Some eo ->
  P <> [] ->
  array_B (size_header (len P)) w = (Return hdr, w) ->
  ep_write usb (calls w) eo hdr t = Ok 2 ->
  ep_write usb (calls w ++ [EpWrite eo hdr t]) eo P t = Ok (len P) ->
  write usb (S fuel) P t w
  = (Return tt, after w [EpWrite eo hdr t; EpWrite eo P t]).
Proof.
  intros Hd Ho HP Hh H2 Hp.
  rewrite (write_unfold _ _ _ _ _ _ _ Hd Ho HP Hh).
  unfold bind at 1.
  rewrite write_size_bytes_sent by assumption.
  unfold bind, endpoint_write. simpl calls. rewrite Hp. simpl of_result.
  cbv iota. rewrite Z.eqb_refl. simpl. tidy. reflexivity.
Qed.

(** [read] when both transfers deliver and [tostring] answers. *)
Lemma read_delivers (w : World) (d : Device) (ei : Endpoint)
    (b0 b1 : byte) (payload data : list byte) (t : option Z) :
  _device (self w) = Some d ->
  _endpoint_in (self w) = Some ei ->
  ep_read usb (calls w) ei 2 t = Ok [b0; b1] ->
  ep_read usb (calls w ++ [EpRead ei 2 t]) ei
    (Z_of_byte b0 * 256 + Z_of_byte b1) t = Ok payload ->
  tostring usb payload = Ok data ->
  read usb t w
  = (Return (Some data),
     after w [EpRead ei 2 t;
              EpRead ei (Z_of_byte b0 * 256 + Z_of_byte b1) t]).
Proof.
  intros Hd Hi H2 Hp Hts. unfold read.
  unfold bind at 1. unfold get_self. rewrite Hd, Hi.
  unfold try_except_USBError, bind, endpoint_read, array_tostring.
  rewrite H2. simpl. rewrite header_size_bytes, Hp. simpl.
  rewrite Hts. simpl. tidy. reflexivity.
Qed.

(** [read] when both transfers deliver and [tostring] raises. *)
Lemma read_tostring_raises (w : World) (d : Device) (ei : Endpoint)
    (b0 b1 : byte) (payload : list byte) (t : option Z) (e : PyError) :
  _device (self w) = Some d ->
  _endpoint_in (self w) = Some ei ->
  ep_read usb (calls w) ei 2 t = Ok [b0; b1] ->
  ep_read usb (calls w ++ [EpRead ei 2 t]) ei
    (Z_of_byte b0 * 256 + Z_of_byte b1) t = Ok payload ->
  tostring usb payload = Err e ->
  is_timeout e = false ->
  read usb t w
  = (Raise e,
     after w [EpRead ei 2 t;
              EpRead ei (Z_of_byte b0 * 256 + Z_of_byte b1) t]).
Proof.
  intros Hd Hi H2 Hp Hts Hnt. unfold read.
  unfold bind at 1. unfold get_self. rewrite Hd, Hi.
  unfold try_except_USBError, bind, endpoint_read, array_tostring.
  rewrite H2. simpl. rewrite header_size_bytes, Hp. simpl.
  rewrite Hts. simpl. tidy.
  destruct e as [| | | |errno s]; try reflexivity.
  simpl in Hnt. rewrite Hnt. reflexivity.
Qed.

End Framing.

(** The bytes in flight after more calls. *)
Lemma in_flight_app (log1 log2 : list Event) :
  in_flight (log1 ++ log2) = fold_left in_flight_step log2 (in_flight log1).
Proof. unfold in_flight. apply fold_left_app. Qed.

(** C1, as amended: for every payload P with 1 <= len(P) <= 65535,
    written by an open bridge to a drained pipe, [write] emits the
    two-byte big-endian header equal to len(P) followed by exactly the
    bytes of P, and the read of that wire data returns exactly P, where
    the array the transfer returns has the [tostring] method that
    [read] calls and the method returns the bytes of the array. *)
Theorem write_read_round_trip (ts : list byte -> Result (list byte))
    (w : World) (P : list byte) (tw tr : option Z) :
  is_open (self w) = true ->
  in_flight (calls w) = [] ->
  1 <= len P <= 65535 ->
  ts P = Ok P ->
  round_trip (with_tostring ts pipe) w P tw tr.
Proof.
  intros Hopen Hdrained Hlen Hts. unfold is_open in Hopen.
  destruct (_device (self w)) as [d|] eqn:Hd; [|discriminate].
  destruct (_endpoint_out (self w)) as [eo|] eqn:Ho; [|discriminate].
  destruct (_endpoint_in (self w)) as [ei|] eqn:Hi; [|discriminate].
  assert (HP : P <> []).
  { intros ->. unfold len in Hlen. simpl in Hlen. lia. }
  destruct (array_B_size_header (len P) w) as (b0 & b1 & Hh & V0 & V1).
  pose proof (header_value_mod _ _ _ V0 V1) as Hv.
  rewrite Z.mod_small in Hv by lia.
  exists eo, ei, b0, b1. repeat split; try assumption.
  intros [|fuel] Hfuel; [lia|].
  unfold bind at 1.
  rewrite (write_sends_frame (with_tostring ts pipe) fuel w d eo P [b0; b1]
             tw Hd Ho HP Hh) by reflexivity.
  set (w1 := after w [EpWrite eo [b0; b1] tw; EpWrite eo P tw]).
  assert (Hflight : in_flight (calls w1) = b0 :: b1 :: P).
  { unfold w1, after. simpl calls. rewrite in_flight_app, Hdrained.
    reflexivity. }
  rewrite (read_delivers (with_tostring ts pipe) w1 d ei b0 b1 P P tr).
  - rewrite Hv. unfold w1. rewrite after_after. reflexivity.
  - exact Hd.
  - exact Hi.
  - unfold with_tostring, pipe. cbn [ep_read]. rewrite Hflight. reflexivity.
  - unfold with_tostring, pipe. cbn [ep_read].
    rewrite in_flight_app, Hflight.
    cbn [fold_left in_flight_step].
    change (skipn (Z.to_nat 2) (b0 :: b1 :: P)) with P.
    rewrite Hv.
    destruct P as [|p P']; [congruence|].
    cbn [is_nil]. rewrite andb_false_r.
    unfold len. rewrite Nat2Z.id.
    f_equal. apply firstn_all.
  - exact Hts.
Qed.

Lemma write_read_round_trip_witness :
  is_open (self (start nexus4_open)) = true
  /\ in_flight (calls (start nexus4_open)) = []
  /\ 1 <= len [x68; x69] <= 65535
  /\ round_trip (with_tostring (fun a => Ok a) pipe) (start nexus4_open)
       [x68; x69] None None.
Proof.
  assert (H1 : is_open (self (start nexus4_open)) = true) by reflexivity.
  assert (H2 : in_flight (calls (start nexus4_open)) = []) by reflexivity.
  assert (H3 : 1 <= len [x68; x69] <= 65535) by (vm_compute; split; discriminate).
  exact (conj H1 (conj H2 (conj H3
    (write_read_round_trip (fun a => Ok a) (start nexus4_open) [x68; x69]
       None None H1 H2 H3 eq_refl)))).
Defined.

(** C1, as stated, fails.  For the empty payload, [write] refuses it
    before any transfer, so nothing is emitted and nothing is read.
    And where the arrays have no [tostring], a payload of two bytes is
    written and both transfers of [read] deliver, but [read] raises
    [AttributeError] in place of returning the payload. *)
Lemma round_trip_fails_on_empty_payload :
  0 <= len (@nil byte) <= 65535
  /\ write pipe 1 [] None (start nexus4_open)
     = (Raise AssertionError, start nexus4_open)
  /\ ~ round_trip pipe (start nexus4_open) [] None None
  /\ (write (without_tostring pipe) 1 [x68; x69] None ;;;
      read (without_tostring pipe) None) (start nexus4_open)
     = (Raise AttributeError,
        after (start nexus4_open)
          [EpWrite {| bEndpointAddress := 0x02 |} [x00; x02] None;
           EpWrite {| bEndpointAddress := 0x02 |} [x68; x69] None;
           EpRead {| bEndpointAddress := 0x81 |} 2 None;
           EpRead {| bEndpointAddress := 0x81 |} 2 None])
  /\ ~ round_trip (without_tostring pipe) (start nexus4_open)
        [x68; x69] None None.
Proof.
  split; [vm_compute; split; discriminate|].
  split; [reflexivity|].
  split.
  { intros (eo & ei & b0 & b1 & _ & _ & _ & H).
    specialize (H 1%nat ltac:(lia)). vm_compute in H. discriminate. }
  split; [reflexivity|].
  intros (eo & ei & b0 & b1 & _ & _ & _ & H).
  specialize (H 1%nat ltac:(lia)). vm_compute in H. discriminate.
Qed.

(** The guard of [write] refuses the empty payload on every bus. *)
Lemma write_refuses_empty (usb : Usb) (fuel : nat) (t : option Z) (w : World) :
  write usb fuel [] t w = (Raise AssertionError, w).
Proof.
  unfold write, bind, get_self.
  destruct (_device (self w)), (_endpoint_out (self w)); reflexivity.
Qed.

(** ** Oversized payloads *)

(** [write] compares the length of the payload with no bound.  For
    every non-empty payload, of any length, sent through an endpoint
    that transfers what it is given, it returns after emitting a header
    worth len(P) mod 65536 followed by the payload, so the header is
    worth len(P) only when len(P) <= 65535. *)
Lemma write_wraps_oversized_length (usb : Usb) (w : World) (d : Device)
    (eo : Endpoint) (P : list byte) (t : option Z) :
  _device (self w) = Some d ->
  _endpoint_out (self w) = Some eo ->
  P <> [] ->
  (forall log data, ep_write usb log eo data t = Ok (len data)) ->
  sends_wrapped_header usb w eo P t.
Proof.
  intros Hd Ho HP Hall.
  destruct (array_B_size_header (len P) w) as (b0 & b1 & Hh & V0 & V1).
  pose proof (header_value_mod _ _ _ V0 V1) as Hv.
  exists b0, b1. split; [exact Hv|]. split.
  - rewrite Hv. pose proof (Z.mod_pos_bound (len P) 65536 ltac:(lia)).
    assert (0 <= len P) by (unfold len; lia).
    split; intros Hx.
    + lia.
    + apply Z.mod_small. lia.
  - intros [|fuel] Hfuel; [lia|].
    apply (write_sends_frame usb fuel w d eo P [b0; b1] t Hd Ho HP Hh).
    + apply Hall.
    + apply Hall.
Qed.

Lemma len_oversized : len oversized = 65536.
Proof.
  unfold len, oversized. rewrite repeat_length. apply Z2Nat.id. lia.
Qed.

Lemma oversized_not_nil : oversized <> [].
Proof.
  intros H. apply (f_equal len) in H. rewrite len_oversized in H.
  discriminate H.
Qed.

Lemma write_wraps_oversized_length_witness :
  sends_wrapped_header pipe (start nexus4_open)
    {| bEndpointAddress := 0x02 |} oversized None.
Proof.
  apply (write_wraps_oversized_length pipe (start nexus4_open) 2
           {| bEndpointAddress := 0x02 |} oversized None).
  - reflexivity.
  - reflexivity.
  - exact oversized_not_nil.
  - intros log data. reflexivity.
Defined.

(** C3 fails on the code: a payload of 65536 bytes, one more than a
    16-bit length can say, is not rejected.  [write] returns, having
    emitted the header of an empty frame and then all 65536 bytes; the
    size [read] computes from that header is 0, not the length of the
    payload. *)
Theorem write_accepts_oversized_payload :
  65535 < len oversized
  /\ write pipe 1 oversized None (start nexus4_open)
     = (Return tt,
        after (start nexus4_open)
          [EpWrite {| bEndpointAddress := 0x02 |} [x00; x00] None;
           EpWrite {| bEndpointAddress := 0x02 |} oversized None])
  /\ header_size (Z_of_byte x00) (Z_of_byte x00) = 0
  /\ header_size (Z_of_byte x00) (Z_of_byte x00) <> len oversized.
Proof.
  split; [rewrite len_oversized; lia|].
  split.
  - apply (write_sends_frame pipe 0 (start nexus4_open) 2
             {| bEndpointAddress := 0x02 |} oversized [x00; x00] None).
    + reflexivity.
    + reflexivity.
    + exact oversized_not_nil.
    + rewrite len_oversized. reflexivity.
    + reflexivity.
    + reflexivity.
  - split; [reflexivity|]. rewrite len_oversized. discriminate.
Qed.

(** ** Short writes and timed-out headers *)

(** C8: once the header send has succeeded, a payload transfer that
    reports fewer bytes than len(payload) makes [write] fail with an
    error, without a second payload send; a timeout-class error on the
    header send is retried, indefinitely. *)
Theorem short_write_fatal_header_timeout_retried (usb : Usb) (w : World)
    (d : Device) (eo : Endpoint) (P hdr : list byte) (t : option Z) :
  _device (self w) = Some d ->
  _endpoint_out (self w) = Some eo ->
  P <> [] ->
  array_B (size_header (len P)) w = (Return hdr, w) ->
  write_policy usb w eo hdr P t.
Proof.
  intros Hd Ho HP Hh.
  assert (Hretry : forall k fuel,
    (forall i, (i < k)%nat ->
       exists s,
         ep_write usb (calls w ++ repeat (EpWrite eo hdr t) i) eo hdr t
         = Err (USBError (Some 110) s)) ->
    write usb (k + fuel) P t w
    = write_from_header usb fuel eo hdr P t
        (after w (repeat (EpWrite eo hdr t) k))).
  { intros k fuel Hk.
    rewrite (write_unfold usb _ w d eo P hdr t Hd Ho HP Hh).
    unfold write_from_header, bind at 1 3.
    rewrite (write_size_bytes_timeouts usb k fuel w eo hdr t Hk).
    reflexivity. }
  split; [|split].
  - intros fuel w1 n Hloop Hn Hshort.
    rewrite (write_unfold usb _ w d eo P hdr t Hd Ho HP Hh).
    unfold bind at 1. rewrite Hloop.
    unfold bind, endpoint_write. rewrite Hn. simpl of_result. cbv iota.
    apply Z.eqb_neq in Hshort. rewrite Hshort. reflexivity.
  - exact Hretry.
  - intros Hall fuel.
    replace fuel with (fuel + 0)%nat at 1 by lia.
    rewrite Hretry by (intros i _; apply Hall).
    reflexivity.
Qed.

Lemma short_write_fatal_header_timeout_retried_witness :
  write_policy (flaky_pipe 3 2) (start nexus4_open)
    {| bEndpointAddress := 0x02 |} [x00; x05] [x68; x65; x6c; x6c; x6f] None
  /\ write (flaky_pipe 3 2) 4 [x68; x65; x6c; x6c; x6f] None (start nexus4_open)
     = (Raise AssertionError,
        after (start nexus4_open)
          [EpWrite {| bEndpointAddress := 0x02 |} [x00; x05] None;
           EpWrite {| bEndpointAddress := 0x02 |} [x00; x05] None;
           EpWrite {| bEndpointAddress := 0x02 |} [x00; x05] None;
           EpWrite {| bEndpointAddress := 0x02 |} [x00; x05] None;
           EpWrite {| bEndpointAddress := 0x02 |}
             [x68; x65; x6c; x6c; x6f] None]).
Proof.
  split.
  - apply (short_write_fatal_header_timeout_retried (flaky_pipe 3 2)
             (start nexus4_open) 2 {| bEndpointAddress := 0x02 |}
             [x68; x65; x6c; x6c; x6f] [x00; x05] None).
    + reflexivity.
    + reflexivity.
    + discriminate.
    + reflexivity.
  - reflexivity.
Defined.

(** ** Timeouts in [read] *)

(** C10: a timeout-class error during the payload read, after the
    two-byte header was consumed, makes [read] return None, exactly as a
    timeout of the header read does; the one handler covers both. *)
Theorem payload_timeout_reads_as_no_message (usb : Usb) (w : World)
    (d : Device) (ei : Endpoint) (b0 b1 : byte) (t : option Z) (s : string) :
  _device (self w) = Some d ->
  _endpoint_in (self w) = Some ei ->
  ep_read usb (calls w) ei 2 t = Ok [b0; b1] ->
  ep_read usb (calls w ++ [EpRead ei 2 t]) ei
    (header_size (Z_of_byte b0) (Z_of_byte b1)) t
  = Err (USBError (Some 110) s) ->
  reads_as_no_message usb w ei b0 b1 t.
Proof.
  intros Hd Hi H2 Hp.
  assert (Hpayload : read usb t w
    = (Return None,
       after w [EpRead ei 2 t;
                EpRead ei (header_size (Z_of_byte b0) (Z_of_byte b1)) t])).
  { unfold read. unfold bind at 1. unfold get_self. rewrite Hd, Hi.
    unfold try_except_USBError, bind, endpoint_read.
    rewrite H2. simpl. rewrite Hp. simpl. tidy. reflexivity. }
  split; [exact Hpayload|].
  intros usb' w' d' ei' t' s' Hd' Hi' Hh.
  assert (Hheader : read usb' t' w' = (Return None, after w' [EpRead ei' 2 t'])).
  { unfold read. unfold bind at 1. unfold get_self. rewrite Hd', Hi'.
    unfold try_except_USBError, bind, endpoint_read.
    rewrite Hh. simpl. tidy. reflexivity. }
  split; [exact Hheader|].
  rewrite Hheader, Hpayload. reflexivity.
Qed.

Lemma payload_timeout_reads_as_no_message_witness :
  reads_as_no_message (stalling_pipe [x00; x05]) (start nexus4_open)
    {| bEndpointAddress := 0x81 |} x00 x05 None.
Proof.
  apply (payload_timeout_reads_as_no_message (stalling_pipe [x00; x05])
           (start nexus4_open) 2 {| bEndpointAddress := 0x81 |}
           x00 x05 None "Operation timed out").
  - reflexivity.
  - reflexivity.
  - reflexivity.
  - reflexivity.
Defined.

(** ** [close] *)

(** C2, as amended: for every open bridge, [close] writes a zero-length
    terminator frame without checking its count; whenever that write
    returns, the device handle is released and the endpoint pair is
    invalidated before [close] returns; when that write raises a
    transport error, [close] propagates the error. *)
Theorem close_releases_after_terminator (usb : Usb) (w : World) (d : Device)
    (eo : Endpoint) :
  _device (self w) = Some d ->
  _endpoint_out (self w) = Some eo ->
  close_releases usb w d eo.
Proof.
  intros Hd Ho. split.
  - intros n Hn. unfold close. unfold bind at 1. unfold get_self.
    rewrite Hd, Ho. unfold bind at 1. rewrite array_B_zeros.
    unfold bind, endpoint_write. rewrite Hn. simpl.
    unfold set_self, log, closed. simpl. rewrite <- app_assoc. reflexivity.
  - intros e He. unfold close. unfold bind at 1. unfold get_self.
    rewrite Hd, Ho. unfold bind at 1. rewrite array_B_zeros.
    unfold bind, endpoint_write. rewrite He. reflexivity.
Qed.

Lemma close_releases_after_terminator_witness :
  close_releases (flaky_pipe 0 1) (start nexus4_open) 2
    {| bEndpointAddress := 0x02 |}
  /\ close (flaky_pipe 0 1) (start nexus4_open)
     = (Return tt,
        {| self := closed nexus4_open;
           calls := [EpWrite {| bEndpointAddress := 0x02 |} [x00; x00] None;
                     DisposeResources 2] |}).
Proof.
  split.
  - apply (close_releases_after_terminator (flaky_pipe 0 1)
             (start nexus4_open) 2 {| bEndpointAddress := 0x02 |}).
    + reflexivity.
    + reflexivity.
  - reflexivity.
Defined.

(** C2, as stated, fails: when the terminator write raises a transport
    error, [close] raises it at once; the device is not disposed of and
    the object keeps its three handles. *)
Lemma close_keeps_handles_on_transport_error :
  close (broken_pipe no_such_device) (start nexus4_open)
  = (Raise no_such_device,
     {| self := nexus4_open;
        calls := [EpWrite {| bEndpointAddress := 0x02 |} [x00; x00] None] |})
  /\ is_open (self (snd (close (broken_pipe no_such_device)
                           (start nexus4_open)))) = true
  /\ ~ In (DisposeResources 2)
         (calls (snd (close (broken_pipe no_such_device)
                        (start nexus4_open)))).
Proof.
  split; [reflexivity|]. split; [reflexivity|].
  simpl. intros [H|[]]. discriminate H.
Qed.

(** ** Use after [close] *)

Lemma no_device_unusable (b : Bridge) : _device b = None -> unusable b.
Proof.
  intros Hd usb fuel data t log w. subst w.
  unfold write, read, close, bind, get_self. cbn [self fst snd].
  rewrite Hd. repeat split; reflexivity.
Qed.

(** C9: once [close] has returned, the device handle and both endpoints
    of the bridge are invalidated, and every later [write], [read] or
    [close] fails with an error before performing any transfer. *)
Theorem use_after_close_fails (usb : Usb) (w w' : World) :
  close usb w = (Return tt, w') ->
  _device (self w') = None
  /\ _endpoint_out (self w') = None
  /\ _endpoint_in (self w') = None
  /\ unusable (self w').
Proof.
  unfold close. unfold bind at 1. unfold get_self.
  destruct (_device (self w)) as [d|] eqn:Hd; [|discriminate].
  destruct (_endpoint_out (self w)) as [eo|] eqn:Ho; [|discriminate].
  unfold bind at 1. rewrite array_B_zeros.
  unfold bind, endpoint_write.
  destruct (ep_write usb (calls w) eo [x00; x00] None) as [n|e];
    simpl; [|discriminate].
  unfold set_self, log. simpl.
  intros H. injection H as <-. simpl.
  split; [reflexivity|]. split; [reflexivity|]. split; [reflexivity|].
  apply no_device_unusable. reflexivity.
Qed.

Lemma use_after_close_fails_witness :
  close pipe (start nexus4_open)
  = (Return tt,
     {| self := closed nexus4_open;
        calls := [EpWrite {| bEndpointAddress := 0x02 |} [x00; x00] None;
                  DisposeResources 2] |})
  /\ unusable (closed nexus4_open).
Proof.
  assert (H : close pipe (start nexus4_open)
    = (Return tt,
       {| self := closed nexus4_open;
          calls := [EpWrite {| bEndpointAddress := 0x02 |} [x00; x00] None;
                    DisposeResources 2] |})) by reflexivity.
  split; [exact H|].
  exact (proj2 (proj2 (proj2 (use_after_close_fails pipe _ _ H)))).
Defined.

(** * Detection and negotiation *)

(** ** Which calls a method makes *)

Lemma logs_only_ret (ok : Event -> bool) {A} (a : A) : logs_only ok (ret a).
Proof. intros w. exists []. now rewrite after_nil. Qed.

Lemma logs_only_raise (ok : Event -> bool) {A} (e : PyError) :
  logs_only ok (@raise A e).
Proof. intros w. exists []. now rewrite after_nil. Qed.

Lemma logs_only_out_of_fuel (ok : Event -> bool) {A} :
  logs_only ok (@out_of_fuel A).
Proof. intros w. exists []. now rewrite after_nil. Qed.

Lemma logs_only_assert (ok : Event -> bool) (c : bool) :
  logs_only ok (assert c).
Proof.
  destruct c; [apply logs_only_ret | apply logs_only_raise].
Qed.

Lemma logs_only_get_self (ok : Event -> bool) : logs_only ok get_self.
Proof. intros w. exists []. now rewrite after_nil. Qed.

Lemma logs_only_bind (ok : Event -> bool) {A B} (m : M A) (k : A -> M B) :
  logs_only ok m -> (forall a, logs_only ok (k a)) -> logs_only ok (bind m k).
Proof.
  intros Hm Hk w. destruct (Hm w) as (evs & Hw & Hok).
  unfold bind. destruct (m w) as [[a|e|] w1]; simpl in Hw; subst w1.
  - destruct (Hk a (after w evs)) as (evs' & Hw' & Hok').
    exists (evs ++ evs'). rewrite Hw', after_after. split; [reflexivity|].
    rewrite forallb_app, Hok, Hok'. reflexivity.
  - exists evs. now split.
  - exists evs. now split.
Qed.

Lemma logs_only_call (ok : Event -> bool) {A} (e : Event) (o : World -> Outcome A) :
  ok e = true -> logs_only ok (fun w => (o w, log e w)).
Proof.
  intros He w. exists [e]. simpl. rewrite He. now split.
Qed.

Lemma control_transfers_after (w : World) (evs : list Event) :
  forallb (fun e => negb (is_ctrl e)) evs = true ->
  control_transfers (calls (after w evs)) = control_transfers (calls w).
Proof.
  intros H. unfold control_transfers, after. simpl.
  rewrite filter_app.
  replace (filter is_ctrl evs) with (@nil Event); [apply app_nil_r|].
  induction evs as [|e evs IH]; [reflexivity|].
  simpl in H. apply andb_true_iff in H as [He Hevs]. simpl.
  destruct (is_ctrl e); [discriminate|]. auto.
Qed.

Lemma bind_assoc {A B C} (m : M A) (k1 : A -> M B) (k2 : B -> M C)
    (w : World) :
  bind (bind m k1) k2 w = bind m (fun a => bind (k1 a) k2) w.
Proof.
  unfold bind. destruct (m w) as [[a|e|] w1]; reflexivity.
Qed.

Lemma bind_call {A B} (e : Event) (o : World -> Outcome A) (k : A -> M B)
    (w : World) :
  bind (fun w => (o w, log e w)) k w
  = match o w with
    | Return a => k a (log e w)
    | Raise x => (Raise x, log e w)
    | OutOfFuel => (OutOfFuel, log e w)
    end.
Proof. reflexivity. Qed.

Section Handshake.

Variable usb : Usb.

(** One round of [_detectDevice]. *)
Lemma _detectDevice_round (fuel : nat) (attempts_left : Z) (w : World) :
  let vid := _vendor_id (self w) in
  let u := _unconfigured_product_id (self w) in
  let c := _configured_product_id (self w) in
  let w2 := after w [Find vid u; Find vid c] in
  _detectDevice usb (S fuel) attempts_left w
  = match find usb (calls w ++ [Find vid u]) vid c, find usb (calls w) vid u with
    | Some d, _ => (Return (d, true), w2)
    | None, Some d => (Return (d, false), w2)
    | None, None =>
        if negb (attempts_left =? 0)
        then _detectDevice usb fuel (attempts_left - 1)
               (after w [Find vid u; Find vid c; Sleep 1])
        else (Raise (USBError None "Device not connected"), w2)
    end.
Proof.
  intros vid u c w2.
  cbn [_detectDevice]. unfold bind, get_self, usb_core_find.
  cbn [calls self log]. fold vid u c.
  subst w2.
  destruct (find usb (calls w ++ [Find vid u]) vid c) as [dc|];
    destruct (find usb (calls w) vid u) as [du|]; tidy; try reflexivity.
  destruct (negb (attempts_left =? 0)); [|tidy; reflexivity].
  unfold time_sleep. tidy. reflexivity.
Qed.

Lemma _detectDevice_logs (ok : Event -> bool) (fuel : nat) (attempts_left : Z) :
  (forall vid pid, ok (Find vid pid) = true) ->
  (forall secs, ok (Sleep secs) = true) ->
  logs_only ok (_detectDevice usb fuel attempts_left).
Proof.
  intros Hfind Hsleep. revert attempts_left.
  induction fuel as [|fuel IH]; intros attempts_left.
  - apply logs_only_out_of_fuel.
  - cbn [_detectDevice].
    apply logs_only_bind; [apply logs_only_get_self|intros s].
    apply logs_only_bind; [apply logs_only_call, Hfind|intros u].
    apply logs_only_bind; [apply logs_only_call, Hfind|intros c].
    destruct c, u; try apply logs_only_ret.
    destruct (negb (attempts_left =? 0)); [|apply logs_only_raise].
    apply logs_only_bind; [apply logs_only_call, Hsleep|intros _].
    apply IH.
Qed.

Lemma wait_for_configured_device_logs (ok : Event -> bool)
    (fuel dfuel : nat) (attempts_left : Z) :
  (forall vid pid, ok (Find vid pid) = true) ->
  (forall secs, ok (Sleep secs) = true) ->
  logs_only ok (wait_for_configured_device usb fuel dfuel attempts_left).
Proof.
  intros Hfind Hsleep. revert attempts_left.
  induction fuel as [|fuel IH]; intros attempts_left.
  - apply logs_only_out_of_fuel.
  - cbn [wait_for_configured_device].
    destruct (negb (attempts_left =? 0)); [|apply logs_only_raise].
    apply logs_only_bind; [now apply _detectDevice_logs|intros [d b]].
    destruct b; [apply logs_only_ret|].
    apply logs_only_bind; [apply logs_only_call, Hsleep|intros _].
    apply IH.
Qed.

Lemma send_accessory_information_logs (device : Device) (i : Z)
    (fields : list PyStr) :
  logs_only (fun _ => true) (send_accessory_information usb device i fields).
Proof.
  revert i. induction fields as [|data rest IH]; intros i.
  - apply logs_only_ret.
  - cbn [send_accessory_information].
    apply logs_only_bind; [now apply logs_only_call|intros n].
    apply logs_only_bind; [apply logs_only_assert|intros _].
    apply IH.
Qed.

End Handshake.

(** ** The detector *)

(** C5: whenever a device answers to the unconfigured product id and a
    device answers to the configured product id in the same round,
    [_detectDevice] returns the configured one, with [True]. *)
Theorem configured_device_takes_priority (usb : Usb) (fuel : nat)
    (attempts_left : Z) (w : World) (du dc : Device) :
  find usb (calls w) (_vendor_id (self w)) (_unconfigured_product_id (self w))
  = Some du ->
  find usb
    (calls w ++ [Find (_vendor_id (self w)) (_unconfigured_product_id (self w))])
    (_vendor_id (self w)) (_configured_product_id (self w))
  = Some dc ->
  _detectDevice usb (S fuel) attempts_left w
  = (Return (dc, true),
     after w [Find (_vendor_id (self w)) (_unconfigured_product_id (self w));
              Find (_vendor_id (self w)) (_configured_product_id (self w))]).
Proof.
  intros Hu Hc. rewrite _detectDevice_round. cbv zeta.
  rewrite Hc. reflexivity.
Qed.

Lemma configured_device_takes_priority_witness :
  _detectDevice both_present 1 5 (start nexus4)
  = (Return (2, true), after (start nexus4) [Find 0x18d1 0x4ee2; Find 0x18d1 0x2d01]).
Proof.
  apply (configured_device_takes_priority both_present 0 5 (start nexus4) 1 2).
  - reflexivity.
  - reflexivity.
Defined.

Lemma poll_rounds_sleeps (vid u c : Z) (n : nat) :
  List.length (filter is_sleep (poll_rounds vid u c n)) = n.
Proof.
  induction n as [|n IH]; [reflexivity|]. simpl. now rewrite IH.
Qed.

Lemma _detectDevice_nothing_found (usb : Usb) (fuel : nat) (w : World) :
  (forall log,
     find usb log (_vendor_id (self w)) (_unconfigured_product_id (self w)) = None
     /\ find usb log (_vendor_id (self w)) (_configured_product_id (self w)) = None) ->
  forall (k : nat) (evs : list Event),
    (k < fuel)%nat ->
    _detectDevice usb fuel (Z.of_nat k) (after w evs)
    = (Raise (USBError None "Device not connected"),
       after w (evs ++ poll_rounds (_vendor_id (self w))
                         (_unconfigured_product_id (self w))
                         (_configured_product_id (self w)) k)).
Proof.
  intros Hnone. induction fuel as [|fuel IH]; intros k evs Hk; [lia|].
  rewrite _detectDevice_round. cbv zeta. cbn [self after calls].
  rewrite (proj2 (Hnone _)), (proj1 (Hnone _)).
  destruct k as [|k].
  - simpl. tidy. reflexivity.
  - replace (negb (Z.of_nat (S k) =? 0)) with true
      by (symmetry; apply negb_true_iff, Z.eqb_neq; lia).
    replace (Z.of_nat (S k) - 1) with (Z.of_nat k) by lia.
    rewrite after_after. rewrite IH by lia.
    rewrite <- app_assoc. reflexivity.
Qed.

(** C6: when no device ever answers to either product id,
    [_detectDevice] with [attempts_left] retries left looks at both ids,
    retries [attempts_left] times with one second of sleep before each
    retry, and then raises [USBError('Device not connected')]; a
    recursion depth of [attempts_left + 1] is enough, so it does not
    recurse or block for ever.  With the default, that is 5 retries. *)
Theorem detection_gives_up (usb : Usb) (fuel : nat) (attempts_left : Z)
    (w : World) :
  0 <= attempts_left ->
  (Z.to_nat attempts_left < fuel)%nat ->
  (forall log,
     find usb log (_vendor_id (self w)) (_unconfigured_product_id (self w)) = None
     /\ find usb log (_vendor_id (self w)) (_configured_product_id (self w)) = None) ->
  let polls := poll_rounds (_vendor_id (self w))
                 (_unconfigured_product_id (self w))
                 (_configured_product_id (self w)) (Z.to_nat attempts_left) in
  _detectDevice usb fuel attempts_left w
  = (Raise (USBError None "Device not connected"), after w polls)
  /\ Z.of_nat (List.length (filter is_sleep polls)) = attempts_left.
Proof.
  intros Hpos Hfuel Hnone polls. subst polls. split.
  - pose proof (_detectDevice_nothing_found usb fuel w Hnone
                  (Z.to_nat attempts_left) [] Hfuel) as H.
    rewrite after_nil, Z2Nat.id in H by assumption. exact H.
  - rewrite poll_rounds_sleeps. now apply Z2Nat.id.
Qed.

Lemma detection_gives_up_witness :
  _detectDevice empty_bus 6 5 (start nexus4)
  = (Raise (USBError None "Device not connected"),
     after (start nexus4) (poll_rounds 0x18d1 0x4ee2 0x2d01 5))
  /\ Z.of_nat (List.length (filter is_sleep (poll_rounds 0x18d1 0x4ee2 0x2d01 5)))
     = 5.
Proof.
  apply (detection_gives_up empty_bus 6 5 (start nexus4)).
  - lia.
  - simpl. lia.
  - intros log. split; reflexivity.
Defined.

(** ** The negotiator *)

(** C7: when the first detection returns a configured device,
    [_configureAndOpenDevice] makes no control transfer (no version
    query, no accessory string, no mode switch); it resets the device,
    sleeps one second and goes straight to re-polling. *)
Theorem configured_device_skips_handshake (usb : Usb) (fuel : nat)
    (manufacturer model description version uri serial : PyStr)
    (w w1 : World) (d : Device) :
  _detectDevice usb fuel 5 w = (Return (d, true), w1) ->
  fast_path usb fuel w w1 d
    (_configureAndOpenDevice usb fuel
       manufacturer model description version uri serial w).
Proof.
  intros Hdetect.
  assert (Hquiet_find : forall vid pid, negb (is_ctrl (Find vid pid)) = true)
    by reflexivity.
  assert (Hquiet_sleep : forall secs, negb (is_ctrl (Sleep secs)) = true)
    by reflexivity.
  destruct (_detectDevice_logs usb (fun e => negb (is_ctrl e)) fuel 5
              Hquiet_find Hquiet_sleep w) as (evs1 & Hw1 & Hq1).
  rewrite Hdetect in Hw1. simpl in Hw1.
  assert (Hrun : _configureAndOpenDevice usb fuel
                   manufacturer model description version uri serial w
    = (device_reset usb d ;;; time_sleep 1 ;;;
       wait_for_configured_device usb fuel fuel 5) w1).
  { unfold _configureAndOpenDevice.
    unfold bind at 1. rewrite Hdetect. cbn [negb].
    unfold bind. destruct (device_reset usb d w1) as [[[]|e|] w2];
      reflexivity. }
  unfold fast_path. rewrite Hrun.
  unfold bind, device_reset, time_sleep.
  split.
  - destruct (reset usb (calls w1) d) as [[]|e]; cbn [of_result].
    + destruct (wait_for_configured_device_logs usb
                  (fun e => negb (is_ctrl e)) fuel fuel 5
                  Hquiet_find Hquiet_sleep
                  (log (Sleep 1) (log (Reset d) w1))) as (evs2 & Hw2 & Hq2).
      rewrite Hw2. subst w1. tidy.
      apply control_transfers_after.
      rewrite forallb_app, Hq1. simpl. exact Hq2.
    + cbn [snd]. subst w1. tidy.
      apply control_transfers_after.
      rewrite forallb_app, Hq1. reflexivity.
  - intros Hreset. rewrite Hreset. cbn [of_result].
    tidy. reflexivity.
Qed.

Lemma configured_device_skips_handshake_witness :
  fast_path accessory 6 (start nexus4)
    (after (start nexus4) [Find 0x18d1 0x4ee2; Find 0x18d1 0x2d01]) 2
    (_configureAndOpenDevice accessory 6 [] [] [] [] [] [] (start nexus4))
  /\ _configureAndOpenDevice accessory 6 [] [] [] [] [] [] (start nexus4)
     = (Return 2,
        after (start nexus4)
          [Find 0x18d1 0x4ee2; Find 0x18d1 0x2d01; Reset 2; Sleep 1;
           Find 0x18d1 0x4ee2; Find 0x18d1 0x2d01]).
Proof.
  split.
  - apply (configured_device_skips_handshake accessory 6 [] [] [] [] [] []
             (start nexus4)
             (after (start nexus4) [Find 0x18d1 0x4ee2; Find 0x18d1 0x2d01]) 2).
    reflexivity.
  - reflexivity.
Defined.

(** C4: on an unconfigured device, [_configureAndOpenDevice] reads two
    bytes with control transfer request 51 and fails whenever the
    little-endian 16-bit value of those bytes is other than 2; it goes
    on to send the accessory strings only when the value is 2. *)
Theorem version_gate_checks_protocol_2 (usb : Usb) (fuel : nat)
    (manufacturer model description version uri serial : PyStr)
    (w w1 : World) (d : Device) (buf : list byte) :
  _detectDevice usb fuel 5 w = (Return (d, false), w1) ->
  ctrl_transfer_in usb (calls w1) d 0xc0 51 0 0 (WLength 2) = Ok buf ->
  version_gate usb fuel manufacturer model description version uri serial
    w1 d buf
    (_configureAndOpenDevice usb fuel
       manufacturer model description version uri serial w).
Proof.
  intros Hdetect Hbuf.
  assert (Hrun : _configureAndOpenDevice usb fuel
                   manufacturer model description version uri serial w
    = (validate_version_code buf ;;;
       enter_accessory_mode usb fuel d
         [manufacturer; model; description; version; uri; serial])
        (after w1 [CtrlTransfer d 0xc0 51 0 0 (WLength 2)])).
  { unfold _configureAndOpenDevice, enter_accessory_mode.
    unfold bind at 1. rewrite Hdetect. cbn [negb].
    unfold bind at 1. unfold bind at 1. unfold device_ctrl_transfer_in at 1.
    rewrite Hbuf. cbn [of_result]. tidy.
    unfold bind.
    destruct (validate_version_code buf _) as [[[]|e|] w3]; try reflexivity.
    destruct (send_accessory_information usb d 0 _ w3) as [[[]|e|] w4];
      try reflexivity.
    destruct (device_ctrl_transfer_out usb d 64 53 0 0 NoData w4)
      as [[n|e|] w5]; try reflexivity.
    destruct (assert (n =? 0) w5) as [[[]|e|] w6]; try reflexivity. }
  unfold version_gate. cbv zeta. rewrite Hrun. split; [|split].
  - intros b0 b1 -> Hne. unfold bind at 1.
    unfold validate_version_code. cbn.
    rewrite version_code_bytes.
    apply Z.eqb_neq in Hne. rewrite Hne. reflexivity.
  - intros Hlen. unfold bind at 1. unfold validate_version_code.
    replace (len buf =? 2) with false; [reflexivity|].
    symmetry. apply Z.eqb_neq. unfold len. lia.
  - intros b0 b1 -> Heq.
    assert (Hvalid : forall w', validate_version_code [b0; b1] w' = (Return tt, w')).
    { intros w'. unfold validate_version_code. cbn.
      rewrite version_code_bytes.
      apply Z.eqb_eq in Heq. rewrite Heq. reflexivity. }
    replace ((validate_version_code [b0; b1] ;;;
              enter_accessory_mode usb fuel d
                [manufacturer; model; description; version; uri; serial])
               (after w1 [CtrlTransfer d 0xc0 51 0 0 (WLength 2)]))
      with (enter_accessory_mode usb fuel d
              [manufacturer; model; description; version; uri; serial]
              (after w1 [CtrlTransfer d 0xc0 51 0 0 (WLength 2)]))
      by (unfold bind; rewrite Hvalid; reflexivity).
    split; [reflexivity|].
    unfold enter_accessory_mode.
    set (w2 := after w1 [CtrlTransfer d 0xc0 51 0 0 (WLength 2)]).
    set (rest := [model; description; version; uri; serial]).
    set (tail := fun _ : unit =>
           n <- device_ctrl_transfer_out usb d 64 53 0 0 NoData ;;
           assert (n =? 0) ;;;
           usb_util_dispose_resources d ;;;
           wait_for_configured_device usb fuel fuel 5).
    assert (Htail : logs_only (fun _ => true) (tail tt)).
    { unfold tail.
      apply logs_only_bind; [now apply logs_only_call|intros n].
      apply logs_only_bind; [apply logs_only_assert|intros _].
      apply logs_only_bind; [now apply logs_only_call|intros _].
      now apply wait_for_configured_device_logs. }
    assert (Hrest : forall n,
      logs_only (fun _ => true)
        (bind (assert (n =? len manufacturer) ;;;
               send_accessory_information usb d (0 + 1) rest) tail)).
    { intros n.
      apply logs_only_bind; [|intros []; exact Htail].
      apply logs_only_bind; [apply logs_only_assert|intros _].
      apply send_accessory_information_logs. }
    cbn [send_accessory_information].
    rewrite bind_assoc. unfold device_ctrl_transfer_out at 1.
    rewrite bind_call.
    destruct (ctrl_transfer_out usb (calls w2) d 64 52 0 0 (Data manufacturer))
      as [n|e]; cbn [of_result].
    + destruct (Hrest n (log (CtrlTransfer d 64 52 0 0 (Data manufacturer)) w2))
        as (evs & Hw & _).
      match type of Hw with
      | snd ?r = _ => exists (fst r), evs; rewrite (surjective_pairing r)
      end.
      cbn [fst]. rewrite Hw. tidy. reflexivity.
    + exists (Raise e), []. tidy. reflexivity.
Qed.

Lemma version_gate_checks_protocol_2_witness :
  version_gate (phone [x02; x00]) 6
    (str_of_string "AoabManufacturer") [] [] [] [] []
    (after (start nexus4) [Find 0x18d1 0x4ee2; Find 0x18d1 0x2d01]) 1
    [x02; x00]
    (_configureAndOpenDevice (phone [x02; x00]) 6
       (str_of_string "AoabManufacturer") [] [] [] [] [] (start nexus4)).
Proof.
  apply (version_gate_checks_protocol_2 (phone [x02; x00]) 6
           (str_of_string "AoabManufacturer") [] [] [] [] []
           (start nexus4)
           (after (start nexus4) [Find 0x18d1 0x4ee2; Find 0x18d1 0x2d01]) 1
           [x02; x00]).
  - reflexivity.
  - reflexivity.
Defined.

(** A phone that speaks protocol 1, or 3, is turned away after the
    version request; no accessory string is sent to it. *)
Example protocol_1_is_refused :
  _configureAndOpenDevice (phone [x01; x00]) 6 [] [] [] [] [] [] (start nexus4)
  = (Raise AssertionError,
     after (start nexus4)
       [Find 0x18d1 0x4ee2; Find 0x18d1 0x2d01;
        CtrlTransfer 1 0xc0 51 0 0 (WLength 2)]).
Proof. reflexivity. Qed.

Example protocol_3_is_refused :
  _configureAndOpenDevice (phone [x03; x00]) 6 [] [] [] [] [] [] (start nexus4)
  = (Raise AssertionError,
     after (start nexus4)
       [Find 0x18d1 0x4ee2; Find 0x18d1 0x2d01;
        CtrlTransfer 1 0xc0 51 0 0 (WLength 2)]).
Proof. reflexivity. Qed.

(** Protocol 2 read big-endian is 512: the gate reads the low byte
    first. *)
Example protocol_2_big_endian_is_refused :
  _configureAndOpenDevice (phone [x00; x02]) 6 [] [] [] [] [] [] (start nexus4)
  = (Raise AssertionError,
     after (start nexus4)
       [Find 0x18d1 0x4ee2; Find 0x18d1 0x2d01;
        CtrlTransfer 1 0xc0 51 0 0 (WLength 2)]).
Proof. reflexivity. Qed.

(** * More on the framed channel *)

(** X1: the size header never overflows a byte: for every size, of any
    magnitude or sign, [array.array('B', ...)] accepts the two values
    [write] computes, and the size [read] computes back from them is
    the size modulo 65536, hence the size itself on 0..65535. *)
Theorem size_header_round_trip (size : Z) (w : World) :
  exists b0 b1,
    array_B (size_header size) w = (Return [b0; b1], w)
    /\ header_size (Z_of_byte b0) (Z_of_byte b1) = size mod 65536
    /\ (0 <= size <= 65535 ->
        header_size (Z_of_byte b0) (Z_of_byte b1) = size).
Proof.
  destruct (array_B_size_header size w) as (b0 & b1 & Hh & V0 & V1).
  exists b0, b1. split; [exact Hh|].
  rewrite header_size_bytes, (header_value_mod size b0 b1 V0 V1).
  split; [reflexivity|].
  intros Hrange. apply Z.mod_small. lia.
Qed.

(** [write], past its guard, after [k] timeouts of the header send. *)
Lemma write_retries (usb : Usb) (k fuel : nat) (w : World) (d : Device)
    (eo : Endpoint) (P hdr : list byte) (t : option Z) :
  _device (self w) = Some d ->
  _endpoint_out (self w) = Some eo ->
  P <> [] ->
  array_B (size_header (len P)) w = (Return hdr, w) ->
  header_times_out usb w eo hdr t k ->
  write usb (k + fuel) P t w
  = write_from_header usb fuel eo hdr P t
      (after w (repeat (EpWrite eo hdr t) k)).
Proof.
  intros Hd Ho HP Hh Hk.
  rewrite (write_unfold usb _ w d eo P hdr t Hd Ho HP Hh).
  unfold write_from_header, bind at 1 3.
  rewrite (write_size_bytes_timeouts usb k fuel w eo hdr t Hk).
  reflexivity.
Qed.

Lemma repeat_snoc {A} (x : A) (k : nat) : repeat x k ++ [x] = repeat x (S k).
Proof.
  induction k as [|k IH]; [reflexivity|]. simpl. now rewrite IH.
Qed.

(** X2: an error of the header send that is not a timeout ends [write]
    at once, also after any number of timeouts: [write] raises that
    error, does not send the header again and never sends the
    payload. *)
Theorem write_raises_header_error (usb : Usb) (k fuel : nat) (w : World)
    (d : Device) (eo : Endpoint) (P hdr : list byte) (t : option Z)
    (e : PyError) :
  _device (self w) = Some d ->
  _endpoint_out (self w) = Some eo ->
  P <> [] ->
  array_B (size_header (len P)) w = (Return hdr, w) ->
  header_times_out usb w eo hdr t k ->
  ep_write usb (calls w ++ repeat (EpWrite eo hdr t) k) eo hdr t = Err e ->
  is_timeout e = false ->
  write usb (k + S fuel) P t w
  = (Raise e, after w (repeat (EpWrite eo hdr t) (S k))).
Proof.
  intros Hd Ho HP Hh Hk He Hnt.
  rewrite (write_retries usb k (S fuel) w d eo P hdr t Hd Ho HP Hh Hk).
  unfold write_from_header. unfold bind at 1.
  cbn [write_size_bytes]. unfold endpoint_write. cbn [after calls].
  rewrite He. cbn [of_result]. tidy. rewrite repeat_snoc.
  destruct e as [| | | |errno s]; try reflexivity.
  simpl in Hnt. rewrite Hnt. reflexivity.
Qed.

Lemma write_raises_header_error_witness :
  write (dying_pipe 2 no_such_device) (2 + 1) [x68; x69] None
    (start nexus4_open)
  = (Raise no_such_device,
     after (start nexus4_open)
       (repeat (EpWrite {| bEndpointAddress := 0x02 |} [x00; x02] None) 3)).
Proof.
  apply (write_raises_header_error (dying_pipe 2 no_such_device) 2 0
           (start nexus4_open) 2 {| bEndpointAddress := 0x02 |}
           [x68; x69] [x00; x02] None no_such_device).
  - reflexivity.
  - reflexivity.
  - discriminate.
  - reflexivity.
  - intros i Hi. exists "Operation timed out"%string.
    destruct i as [|[|i]]; [reflexivity|reflexivity|lia].
  - reflexivity.
  - reflexivity.
Defined.

(** X3: a header send that reports a count other than 2 ends [write]
    with an assertion failure, also after any number of timeouts; the
    payload is never sent after a header that did not go out whole. *)
Theorem write_fails_on_short_header (usb : Usb) (k fuel : nat) (w : World)
    (d : Device) (eo : Endpoint) (P hdr : list byte) (t : option Z) (n : Z) :
  _device (self w) = Some d ->
  _endpoint_out (self w) = Some eo ->
  P <> [] ->
  array_B (size_header (len P)) w = (Return hdr, w) ->
  header_times_out usb w eo hdr t k ->
  ep_write usb (calls w ++ repeat (EpWrite eo hdr t) k) eo hdr t = Ok n ->
  n <> 2 ->
  write usb (k + S fuel) P t w
  = (Raise AssertionError, after w (repeat (EpWrite eo hdr t) (S k))).
Proof.
  intros Hd Ho HP Hh Hk Hn Hne.
  rewrite (write_retries usb k (S fuel) w d eo P hdr t Hd Ho HP Hh Hk).
  unfold write_from_header. unfold bind at 1.
  cbn [write_size_bytes]. unfold endpoint_write. cbn [after calls].
  rewrite Hn. cbn [of_result]. tidy. rewrite repeat_snoc.
  apply Z.eqb_neq in Hne. unfold assert. rewrite Hne. reflexivity.
Qed.

Lemma write_fails_on_short_header_witness :
  write (flaky_pipe 2 1) (2 + 1) [x68; x69] None (start nexus4_open)
  = (Raise AssertionError,
     after (start nexus4_open)
       (repeat (EpWrite {| bEndpointAddress := 0x02 |} [x00; x02] None) 3)).
Proof.
  apply (write_fails_on_short_header (flaky_pipe 2 1) 2 0
           (start nexus4_open) 2 {| bEndpointAddress := 0x02 |}
           [x68; x69] [x00; x02] None 1).
  - reflexivity.
  - reflexivity.
  - discriminate.
  - reflexivity.
  - intros i Hi. exists "Operation timed out"%string.
    destruct i as [|[|i]]; [reflexivity|reflexivity|lia].
  - reflexivity.
  - discriminate.
Defined.

(** The header loop makes nothing but header sends, at most one per unit
    of fuel, and at least one when it returns. *)
Lemma write_size_bytes_calls (usb : Usb) (eo : Endpoint) (hdr : list byte)
    (t : option Z) (fuel : nat) (w : World) :
  exists k,
    (k <= fuel)%nat
    /\ snd (write_size_bytes usb fuel eo hdr t w)
       = after w (repeat (EpWrite eo hdr t) k)
    /\ (forall a, fst (write_size_bytes usb fuel eo hdr t w) = Return a ->
        (0 < k)%nat).
Proof.
  revert w. induction fuel as [|fuel IH]; intros w.
  - exists 0%nat. simpl. rewrite after_nil.
    split; [lia|]. split; [reflexivity|]. discriminate.
  - cbn [write_size_bytes]. unfold endpoint_write.
    destruct (ep_write usb (calls w) eo hdr t) as [n|e]; cbn [of_result].
    + exists 1%nat. split; [lia|]. split; [|lia].
      unfold assert. destruct (n =? 2); reflexivity.
    + destruct e as [| | | |errno s];
        try (exists 1%nat; split; [lia|]; split; [reflexivity|discriminate]).
      destruct (errno_eqb errno 110).
      * destruct (IH (log (EpWrite eo hdr t) w)) as (k & Hk & Hw & Hret).
        exists (S k). split; [lia|]. split.
        -- rewrite Hw. tidy. reflexivity.
        -- intros; lia.
      * exists 1%nat. split; [lia|]. split; [reflexivity|discriminate].
Qed.

(** X4: whatever the bus does and however [write] ends, its calls are
    sends of the size header followed by at most one send of the
    payload, the payload only after a header send, all on the OUT
    endpoint and with the timeout of the call; it touches no attribute
    of the object, and makes no call at all when its guard fails. *)
Theorem write_only_sends_frame (usb : Usb) (fuel : nat) (data : list byte)
    (t : option Z) (w : World) :
  exists evs,
    snd (write usb fuel data t w) = after w evs
    /\ write_calls (self w) fuel data t evs.
Proof.
  unfold write_calls.
  destruct (_device (self w)) as [d|] eqn:Hd;
    [|exists []; rewrite after_nil; unfold write, bind, get_self;
      rewrite Hd; split; reflexivity].
  destruct (_endpoint_out (self w)) as [eo|] eqn:Ho;
    [|exists []; rewrite after_nil; unfold write, bind, get_self;
      rewrite Hd, Ho; split; reflexivity].
  destruct data as [|p P'] eqn:Hdata;
    [exists []; rewrite after_nil; unfold write, bind, get_self;
     rewrite Hd, Ho; split; reflexivity|].
  rewrite <- Hdata.
  assert (HP : data <> []) by (rewrite Hdata; discriminate).
  destruct (array_B_size_header (len data) w) as (b0 & b1 & Hh & _).
  rewrite (write_unfold usb fuel w d eo data [b0; b1] t Hd Ho HP Hh).
  destruct (write_size_bytes_calls usb eo [b0; b1] t fuel w)
    as (k & Hk & Hw & Hret).
  unfold bind at 1.
  destruct (write_size_bytes usb fuel eo [b0; b1] t w) as [[[]|e|] w1] eqn:Hloop;
    cbn [snd fst] in Hw, Hret; subst w1.
  - exists (repeat (EpWrite eo [b0; b1] t) k ++ [EpWrite eo data t]).
    split.
    + unfold bind, endpoint_write.
      destruct (ep_write usb _ eo data t) as [n|e]; cbn [of_result].
      * unfold assert. destruct (n =? len data); cbn [snd]; tidy; reflexivity.
      * cbn [snd]. tidy. reflexivity.
    + exists [b0; b1], k. split; [exact Hk|]. right.
      split; [apply (Hret tt); reflexivity|reflexivity].
  - exists (repeat (EpWrite eo [b0; b1] t) k). split; [reflexivity|].
    exists [b0; b1], k. split; [exact Hk|]. now left.
  - exists (repeat (EpWrite eo [b0; b1] t) k). split; [reflexivity|].
    exists [b0; b1], k. split; [exact Hk|]. now left.
Qed.

(** * More on [read] *)

(** X5: whatever the bus does and however [read] ends, it makes at most
    two calls: a transfer of two bytes on the IN endpoint and, when
    that delivered two bytes, one transfer of the size they announce,
    which is never more than 65535; it touches no attribute of the
    object, and makes no call at all when its guard fails. *)
Theorem read_only_receives_frame (usb : Usb) (t : option Z) (w : World) :
  exists evs,
    snd (read usb t w) = after w evs
    /\ read_calls (self w) t evs.
Proof.
  unfold read_calls, read. unfold bind at 1. unfold get_self.
  destruct (_device (self w)) as [d|];
    [|exists []; rewrite after_nil; split; reflexivity].
  destruct (_endpoint_in (self w)) as [ei|];
    [|exists []; rewrite after_nil; split; reflexivity].
  unfold try_except_USBError, bind, endpoint_read.
  destruct (ep_read usb (calls w) ei 2 t) as [hdr|e]; cbn [of_result].
  - destruct hdr as [|b0 [|b1 hdr']]; cbn [getitem nth_error ret raise];
      try (exists [EpRead ei 2 t]; split; [tidy; reflexivity|now left]).
    exists [EpRead ei 2 t;
            EpRead ei (header_size (Z_of_byte b0) (Z_of_byte b1)) t].
    split.
    + destruct (ep_read usb _ ei _ t) as [p|e]; cbn [of_result].
      * unfold array_tostring.
        destruct (tostring usb p) as [bs|e]; cbn [of_result ret].
        -- tidy. reflexivity.
        -- destruct e as [| | | |errno s]; try (tidy; reflexivity).
           destruct (errno_eqb errno 110); tidy; reflexivity.
      * destruct e as [| | | |errno s]; try (tidy; reflexivity).
        destruct (errno_eqb errno 110); tidy; reflexivity.
    + right. exists (header_size (Z_of_byte b0) (Z_of_byte b1)).
      split; [|reflexivity].
      rewrite header_size_bytes.
      pose proof (Z_of_byte_range b0). pose proof (Z_of_byte_range b1). lia.
  - exists [EpRead ei 2 t]. split; [|now left].
    destruct e as [| | | |errno s]; try (tidy; reflexivity).
    destruct (errno_eqb errno 110); tidy; reflexivity.
Qed.

(** X6: an error of either transfer that is not a timeout (a [USBError]
    with another [errno], or without one) is raised by [read] as it
    is; only errno 110 turns into [None]. *)
Theorem read_raises_other_errors (usb : Usb) (w : World) (d : Device)
    (ei : Endpoint) (t : option Z) :
  _device (self w) = Some d ->
  _endpoint_in (self w) = Some ei ->
  read_raises usb w ei t.
Proof.
  intros Hd Hi. split.
  - intros e He Hnt. unfold read. unfold bind at 1. unfold get_self.
    rewrite Hd, Hi. unfold try_except_USBError, bind, endpoint_read.
    rewrite He. cbn [of_result]. tidy.
    destruct e as [| | | |errno s]; try reflexivity.
    simpl in Hnt. rewrite Hnt. reflexivity.
  - intros b0 b1 e H2 He Hnt. unfold read. unfold bind at 1. unfold get_self.
    rewrite Hd, Hi. unfold try_except_USBError, bind, endpoint_read.
    rewrite H2. cbn [of_result getitem nth_error ret].
    rewrite header_size_bytes. cbn [log calls]. rewrite He.
    cbn [of_result]. tidy.
    destruct e as [| | | |errno s]; try reflexivity.
    simpl in Hnt. rewrite Hnt. reflexivity.
Qed.

Lemma read_raises_other_errors_witness :
  read_raises (failing_after_header [x00; x05] no_such_device)
    (start nexus4_open) {| bEndpointAddress := 0x81 |} None
  /\ read (failing_after_header [x00; x05] no_such_device) None
       (start nexus4_open)
     = (Raise no_such_device,
        after (start nexus4_open)
          [EpRead {| bEndpointAddress := 0x81 |} 2 None;
           EpRead {| bEndpointAddress := 0x81 |} 5 None]).
Proof.
  split.
  - apply (read_raises_other_errors
             (failing_after_header [x00; x05] no_such_device)
             (start nexus4_open) 2 {| bEndpointAddress := 0x81 |} None).
    + reflexivity.
    + reflexivity.
  - reflexivity.
Defined.

(** X7: when the header transfer delivers fewer than two bytes, [read]
    raises [IndexError]; the handler does not catch it, and no payload
    transfer is made. *)
Theorem read_short_header_is_index_error (usb : Usb) (w : World) (d : Device)
    (ei : Endpoint) (t : option Z) (hdr : list byte) :
  _device (self w) = Some d ->
  _endpoint_in (self w) = Some ei ->
  ep_read usb (calls w) ei 2 t = Ok hdr ->
  (List.length hdr < 2)%nat ->
  read usb t w = (Raise IndexError, after w [EpRead ei 2 t]).
Proof.
  intros Hd Hi H2 Hshort. unfold read. unfold bind at 1. unfold get_self.
  rewrite Hd, Hi. unfold try_except_USBError, bind, endpoint_read.
  rewrite H2. cbn [of_result].
  destruct hdr as [|b0 [|b1 hdr']]; [| |simpl in Hshort; lia];
    cbn [getitem nth_error ret raise]; tidy; reflexivity.
Qed.

Lemma read_short_header_is_index_error_witness :
  read (stalling_pipe [x07]) None (start nexus4_open)
  = (Raise IndexError,
     after (start nexus4_open) [EpRead {| bEndpointAddress := 0x81 |} 2 None]).
Proof.
  apply (read_short_header_is_index_error (stalling_pipe [x07])
           (start nexus4_open) 2 {| bEndpointAddress := 0x81 |} None [x07]).
  - reflexivity.
  - reflexivity.
  - reflexivity.
  - simpl. lia.
Defined.

(** X8: [read] asks for the size the header announces and hands what
    the payload transfer delivers to [tostring], without comparing its
    length with that size: it returns what [tostring] returns, so a
    delivery shorter than announced is returned as a message; and when
    [tostring] raises, as it does with [AttributeError] where the
    arrays have no such method, [read] raises that error after both
    transfers were made. *)
Theorem read_returns_what_is_delivered (usb : Usb) (w : World) (d : Device)
    (ei : Endpoint) (b0 b1 : byte) (payload : list byte) (t : option Z) :
  _device (self w) = Some d ->
  _endpoint_in (self w) = Some ei ->
  ep_read usb (calls w) ei 2 t = Ok [b0; b1] ->
  ep_read usb (calls w ++ [EpRead ei 2 t]) ei
    (Z_of_byte b0 * 256 + Z_of_byte b1) t = Ok payload ->
  read_hands_over usb w ei b0 b1 payload t.
Proof.
  intros Hd Hi H2 Hp. split.
  - intros data Hts.
    now apply (read_delivers usb w d ei b0 b1 payload data t).
  - intros e Hts Hnt.
    now apply (read_tostring_raises usb w d ei b0 b1 payload t e).
Qed.

Lemma read_returns_what_is_delivered_witness :
  read_hands_over (without_tostring pipe)
    {| self := nexus4_open;
       calls := [EpWrite {| bEndpointAddress := 0x02 |}
                   [x00; x05; x68; x69] None] |}
    {| bEndpointAddress := 0x81 |} x00 x05 [x68; x69] None
  /\ read pipe None
       {| self := nexus4_open;
          calls := [EpWrite {| bEndpointAddress := 0x02 |}
                      [x00; x05; x68; x69] None] |}
     = (Return (Some [x68; x69]),
        {| self := nexus4_open;
           calls := [EpWrite {| bEndpointAddress := 0x02 |}
                       [x00; x05; x68; x69] None;
                     EpRead {| bEndpointAddress := 0x81 |} 2 None;
                     EpRead {| bEndpointAddress := 0x81 |} 5 None] |})
  /\ read (without_tostring pipe) None
       {| self := nexus4_open;
          calls := [EpWrite {| bEndpointAddress := 0x02 |}
                      [x00; x05; x68; x69] None] |}
     = (Raise AttributeError,
        {| self := nexus4_open;
           calls := [EpWrite {| bEndpointAddress := 0x02 |}
                       [x00; x05; x68; x69] None;
                     EpRead {| bEndpointAddress := 0x81 |} 2 None;
                     EpRead {| bEndpointAddress := 0x81 |} 5 None] |}).
Proof.
  split; [|split; reflexivity].
  apply (read_returns_what_is_delivered (without_tostring pipe)
           {| self := nexus4_open;
              calls := [EpWrite {| bEndpointAddress := 0x02 |}
                          [x00; x05; x68; x69] None] |}
           2 {| bEndpointAddress := 0x81 |} x00 x05 [x68; x69] None).
  - reflexivity.
  - reflexivity.
  - reflexivity.
  - reflexivity.
Defined.

(** * More on the endpoints *)

Lemma land_128 (a : Z) :
  Z.land a 0x80 = if Z.testbit a 7 then 0x80 else 0.
Proof.
  apply Z.bits_inj'. intros i Hi.
  rewrite Z.land_spec. change 128 with (2 ^ 7).
  rewrite Z.pow2_bits_eqb by lia.
  destruct (Z.eqb_spec 7 i) as [<-|Hne].
  - destruct (Z.testbit a 7); [|reflexivity].
    rewrite Z.pow2_bits_eqb by lia. reflexivity.
  - rewrite andb_false_r.
    destruct (Z.testbit a 7); [|now rewrite Z.bits_0].
    rewrite Z.pow2_bits_eqb by lia.
    symmetry. now apply Z.eqb_neq.
Qed.

Lemma first_out_endpoint_bit (e : Endpoint) :
  first_out_endpoint e = negb (Z.testbit (bEndpointAddress e) 7).
Proof.
  unfold first_out_endpoint, endpoint_direction, ENDPOINT_OUT.
  rewrite land_128. destruct (Z.testbit (bEndpointAddress e) 7); reflexivity.
Qed.

Lemma first_in_endpoint_bit (e : Endpoint) :
  first_in_endpoint e = Z.testbit (bEndpointAddress e) 7.
Proof.
  unfold first_in_endpoint, endpoint_direction, ENDPOINT_IN.
  rewrite land_128. destruct (Z.testbit (bEndpointAddress e) 7); reflexivity.
Qed.

Lemma find_is_first {A} (p : A -> bool) (l : list A) (x : A) :
  List.find p l = Some x -> is_first p l x.
Proof.
  induction l as [|y l IH]; [discriminate|]. simpl.
  destruct (p y) eqn:Hy.
  - intros H. injection H as <-. exists [], l. now repeat split.
  - intros H. destruct (IH H) as (before & behind & -> & Hx & Hb).
    exists (y :: before), behind. repeat split; try assumption.
    simpl. now rewrite Hy, Hb.
Qed.

Lemma forallb_pointwise {A} (p q : A -> bool) (l : list A) :
  (forall x, p x = q x) -> forallb p l = forallb q l.
Proof.
  intros H. induction l as [|x l IH]; [reflexivity|].
  simpl. now rewrite H, IH.
Qed.

Lemma find_none_forallb {A} (p : A -> bool) (l : list A) :
  List.find p l = None <-> forallb (fun y => negb (p y)) l = true.
Proof.
  induction l as [|y l IH]; [now split|]. simpl.
  destruct (p y); simpl; [split; discriminate|exact IH].
Qed.

(** X10: [_detectEndpoints] returns the first endpoint of the interface
    whose address has bit 7 clear as the OUT endpoint and the first
    whose address has bit 7 set as the IN endpoint, wherever they stand
    in the list; it fails its assertion exactly when the interface has
    no endpoint of one of the two directions, so also when it has no
    endpoint at all. *)
Theorem _detectEndpoints_first_of_each_direction (usb : Usb) (w : World)
    (d : Device) (eps : list Endpoint) :
  _device (self w) = Some d ->
  active_interface usb (calls w) d = Ok eps ->
  endpoints_resolved usb w d eps.
Proof.
  intros Hd Heps.
  assert (Hrun : _detectEndpoints usb w
    = match List.find first_out_endpoint eps,
            List.find first_in_endpoint eps with
      | Some eo, Some ei => (Return (eo, ei), after w [ActiveInterface d])
      | _, _ => (Raise AssertionError, after w [ActiveInterface d])
      end).
  { unfold _detectEndpoints. unfold bind at 1. unfold get_self. rewrite Hd.
    unfold bind, device_active_interface. rewrite Heps. cbn [of_result].
    tidy.
    destruct (List.find first_out_endpoint eps),
             (List.find first_in_endpoint eps); reflexivity. }
  assert (Hin_out : forall l,
    forallb (fun y => negb (first_out_endpoint y)) l
    = forallb first_in_endpoint l).
  { intros l. apply forallb_pointwise. intros e.
    rewrite first_out_endpoint_bit, first_in_endpoint_bit.
    apply negb_involutive. }
  assert (Hout_in : forall l,
    forallb (fun y => negb (first_in_endpoint y)) l
    = forallb first_out_endpoint l).
  { intros l. apply forallb_pointwise. intros e.
    rewrite first_out_endpoint_bit, first_in_endpoint_bit. reflexivity. }
  unfold endpoints_resolved. rewrite Hrun.
  destruct (List.find first_out_endpoint eps) as [eo|] eqn:Hfo;
    destruct (List.find first_in_endpoint eps) as [ei|] eqn:Hfi.
  - split; [|split].
    + intros eo' ei' w' H. injection H as <- <- <-.
      pose proof (find_is_first _ _ _ Hfo) as Ho.
      pose proof (find_is_first _ _ _ Hfi) as Hi.
      split; [reflexivity|]. split; [exact Ho|]. split; [exact Hi|].
      destruct Ho as (_ & _ & _ & Hpo & _).
      destruct Hi as (_ & _ & _ & Hpi & _).
      rewrite first_out_endpoint_bit in Hpo.
      rewrite first_in_endpoint_bit in Hpi.
      split; [now apply negb_true_iff|exact Hpi].
    + split; [discriminate|].
      intros [Hall|Hall].
      * rewrite <- Hin_out in Hall. apply find_none_forallb in Hall.
        congruence.
      * rewrite <- Hout_in in Hall. apply find_none_forallb in Hall.
        congruence.
    + left. now exists (eo, ei).
  - split; [intros ? ? ? H; discriminate H|]. split.
    + split; [|reflexivity]. intros _. right.
      rewrite <- Hout_in. now apply find_none_forallb.
    + now right.
  - split; [intros ? ? ? H; discriminate H|]. split.
    + split; [|reflexivity]. intros _. left.
      rewrite <- Hin_out. now apply find_none_forallb.
    + now right.
  - split; [intros ? ? ? H; discriminate H|]. split.
    + split; [|reflexivity]. intros _. left.
      rewrite <- Hin_out. now apply find_none_forallb.
    + now right.
Qed.

Lemma _detectEndpoints_first_of_each_direction_witness :
  endpoints_resolved
    (accessory_with [ {| bEndpointAddress := 0x83 |};
                      {| bEndpointAddress := 0x81 |};
                      {| bEndpointAddress := 0x02 |};
                      {| bEndpointAddress := 0x04 |} ])
    (start nexus4_open) 2
    [ {| bEndpointAddress := 0x83 |}; {| bEndpointAddress := 0x81 |};
      {| bEndpointAddress := 0x02 |}; {| bEndpointAddress := 0x04 |} ]
  /\ _detectEndpoints
       (accessory_with [ {| bEndpointAddress := 0x83 |};
                         {| bEndpointAddress := 0x81 |};
                         {| bEndpointAddress := 0x02 |};
                         {| bEndpointAddress := 0x04 |} ])
       (start nexus4_open)
     = (Return ({| bEndpointAddress := 0x02 |}, {| bEndpointAddress := 0x83 |}),
        after (start nexus4_open) [ActiveInterface 2]).
Proof.
  split.
  - apply (_detectEndpoints_first_of_each_direction
             (accessory_with [ {| bEndpointAddress := 0x83 |};
                               {| bEndpointAddress := 0x81 |};
                               {| bEndpointAddress := 0x02 |};
                               {| bEndpointAddress := 0x04 |} ])
             (start nexus4_open) 2).
    + reflexivity.
    + reflexivity.
  - reflexivity.
Defined.

(** * More on the detector *)

Lemma _detectDevice_sound (usb : Usb) (fuel : nat)
    (attempts_left : Z) (w w' : World) (d : Device) (is_configured : bool) :
  _detectDevice usb fuel attempts_left w = (Return (d, is_configured), w') ->
  detected usb w w' d is_configured.
Proof.
  revert attempts_left w.
  induction fuel as [|fuel IH]; intros attempts_left w; [discriminate|].
  rewrite _detectDevice_round. cbv zeta. unfold detected. cbv zeta.
  set (vid := _vendor_id (self w)).
  set (u := _unconfigured_product_id (self w)).
  set (c := _configured_product_id (self w)).
  destruct (find usb (calls w ++ [Find vid u]) vid c) as [dc|] eqn:Hc.
  - intros H. injection H as <- <- <-. exists []. cbn [app].
    rewrite app_nil_r.
    split; [reflexivity|]. split; [reflexivity|]. split; [exact Hc|].
    discriminate.
  - destruct (find usb (calls w) vid u) as [du|] eqn:Hu.
    + intros H. injection H as <- <- <-. exists []. cbn [app].
      rewrite app_nil_r.
      split; [reflexivity|]. split; [reflexivity|]. split; [exact Hc|].
      intros _. exact Hu.
    + destruct (negb (attempts_left =? 0)); [|discriminate].
      intros H. apply IH in H. unfold detected in H. cbv zeta in H.
      cbn [self after calls] in H. fold vid u c in H.
      destruct H as (evs & Hw' & Hpolls & Hfc & Hfu).
      exists ([Find vid u; Find vid c; Sleep 1] ++ evs).
      split; [|split; [|split]].
      * rewrite Hw', after_after, <- app_assoc. reflexivity.
      * cbn. exact Hpolls.
      * rewrite <- Hfc. f_equal. rewrite <- !app_assoc. reflexivity.
      * intros Hb. rewrite <- (Hfu Hb). f_equal.
        rewrite <- !app_assoc. reflexivity.
Qed.

(** X11: a detection that returns a device returns one that the last
    look at the bus found: under the configured product id when it says
    [True]; under the unconfigured id, the configured id having found
    nothing in that same round, when it says [False].  Before that last
    round it only polled, and it left the object alone. *)
Theorem _detectDevice_returns_what_it_found (usb : Usb) (fuel : nat)
    (attempts_left : Z) (w w' : World) (d : Device) (is_configured : bool) :
  _detectDevice usb fuel attempts_left w = (Return (d, is_configured), w') ->
  detected usb w w' d is_configured.
Proof. apply _detectDevice_sound. Qed.

Lemma _detectDevice_returns_what_it_found_witness :
  detected (late_phone 4) (start nexus4)
    (after (start nexus4)
       [Find 0x18d1 0x4ee2; Find 0x18d1 0x2d01; Sleep 1;
        Find 0x18d1 0x4ee2; Find 0x18d1 0x2d01; Sleep 1;
        Find 0x18d1 0x4ee2; Find 0x18d1 0x2d01])
    1 false.
Proof.
  apply (_detectDevice_returns_what_it_found (late_phone 4) 6 5
           (start nexus4)).
  reflexivity.
Defined.

Lemma _detectDevice_ends_within (usb : Usb) (fuel : nat) :
  forall (k : nat) (w : World),
    (k < fuel)%nat ->
    detection_ends w k (_detectDevice usb fuel (Z.of_nat k) w).
Proof.
  induction fuel as [|fuel IH]; intros k w Hk; [lia|].
  rewrite _detectDevice_round. cbv zeta.
  set (vid := _vendor_id (self w)).
  set (u := _unconfigured_product_id (self w)).
  set (c := _configured_product_id (self w)).
  assert (Hnow : forall o,
    (o = Raise (USBError None "Device not connected")
     \/ exists r, o = Return r) ->
    detection_ends w k (o, after w [Find vid u; Find vid c])).
  { intros o Ho. split; [exact Ho|].
    exists [Find vid u; Find vid c]. repeat split. simpl. lia. }
  destruct (find usb (calls w ++ [Find vid u]) vid c) as [dc|];
    [apply Hnow; right; eauto|].
  destruct (find usb (calls w) vid u) as [du|];
    [apply Hnow; right; eauto|].
  destruct k as [|k]; [apply Hnow; now left|].
  replace (negb (Z.of_nat (S k) =? 0)) with true
    by (symmetry; apply negb_true_iff, Z.eqb_neq; lia).
  replace (Z.of_nat (S k) - 1) with (Z.of_nat k) by lia.
  destruct (IH k (after w [Find vid u; Find vid c; Sleep 1]) ltac:(lia))
    as (Hout & evs & Hw & Hpolls & Hsleeps).
  split; [exact Hout|].
  exists ([Find vid u; Find vid c; Sleep 1] ++ evs).
  split; [rewrite Hw, after_after; reflexivity|].
  split; [cbn; exact Hpolls|].
  cbn. lia.
Qed.

(** X12: whatever the bus answers, a detection with [attempts_left >= 0]
    ends within [attempts_left + 1] rounds: it returns a device or
    raises [USBError('Device not connected')], having only looked at
    the bus and slept, at most [attempts_left] times one second. *)
Theorem _detectDevice_always_ends (usb : Usb) (fuel : nat)
    (attempts_left : Z) (w : World) :
  0 <= attempts_left ->
  (Z.to_nat attempts_left < fuel)%nat ->
  detection_ends w (Z.to_nat attempts_left)
    (_detectDevice usb fuel attempts_left w).
Proof.
  intros Hpos Hfuel.
  pose proof (_detectDevice_ends_within usb fuel (Z.to_nat attempts_left) w
                Hfuel) as H.
  rewrite Z2Nat.id in H by assumption. exact H.
Qed.

Lemma _detectDevice_always_ends_witness :
  detection_ends (start nexus4) (Z.to_nat 5)
    (_detectDevice (late_phone 4) 6 5 (start nexus4)).
Proof.
  apply (_detectDevice_always_ends (late_phone 4) 6 5 (start nexus4)).
  - lia.
  - simpl. lia.
Defined.

(** * More on the negotiator *)

(** [_configureAndOpenDevice] on an unconfigured device, from the answer
    to the version request on. *)
Lemma _configureAndOpenDevice_unconfigured (usb : Usb) (fuel : nat)
    (manufacturer model description version uri serial : PyStr)
    (w w1 : World) (d : Device) (buf : list byte) :
  _detectDevice usb fuel 5 w = (Return (d, false), w1) ->
  ctrl_transfer_in usb (calls w1) d 0xc0 51 0 0 (WLength 2) = Ok buf ->
  _configureAndOpenDevice usb fuel
    manufacturer model description version uri serial w
  = (validate_version_code buf ;;;
     enter_accessory_mode usb fuel d
       [manufacturer; model; description; version; uri; serial])
      (after w1 [version_request d]).
Proof.
  intros Hdetect Hbuf.
  unfold _configureAndOpenDevice, enter_accessory_mode, version_request.
  unfold bind at 1. rewrite Hdetect. cbn [negb].
  unfold bind at 1. unfold bind at 1. unfold device_ctrl_transfer_in at 1.
  rewrite Hbuf. cbn [of_result]. tidy.
  unfold bind.
  destruct (validate_version_code buf _) as [[[]|e|] w3]; try reflexivity.
  destruct (send_accessory_information usb d 0 _ w3) as [[[]|e|] w4];
    try reflexivity.
  destruct (device_ctrl_transfer_out usb d 64 53 0 0 NoData w4)
    as [[n|e|] w5]; try reflexivity.
  destruct (assert (n =? 0) w5) as [[[]|e|] w6]; try reflexivity.
Qed.

Lemma _configureAndOpenDevice_protocol_2 (usb : Usb) (fuel : nat)
    (manufacturer model description version uri serial : PyStr)
    (w w1 : World) (d : Device) :
  _detectDevice usb fuel 5 w = (Return (d, false), w1) ->
  ctrl_transfer_in usb (calls w1) d 0xc0 51 0 0 (WLength 2) = Ok [x02; x00] ->
  _configureAndOpenDevice usb fuel
    manufacturer model description version uri serial w
  = enter_accessory_mode usb fuel d
      [manufacturer; model; description; version; uri; serial]
      (after w1 [version_request d]).
Proof.
  intros Hdetect Hbuf.
  rewrite (_configureAndOpenDevice_unconfigured usb fuel
             manufacturer model description version uri serial
             w w1 d [x02; x00] Hdetect Hbuf).
  reflexivity.
Qed.

(** Strings whose transfers report their number of characters are all
    sent, in order. *)
Lemma send_accessory_information_accepted (usb : Usb) (d : Device)
    (fields : list PyStr) :
  forall (i : Z) (w : World),
    reports_lengths usb d i fields ->
    send_accessory_information usb d i fields w
    = (Return tt, after w (string_transfers d i fields)).
Proof.
  induction fields as [|data rest IH]; intros i w Hacc.
  - simpl. now rewrite after_nil.
  - cbn [send_accessory_information string_transfers].
    unfold device_ctrl_transfer_out. rewrite bind_call.
    pose proof (Hacc (calls w) 0%nat data eq_refl) as H0.
    replace (i + Z.of_nat 0) with i in H0 by lia.
    rewrite H0. cbn [of_result].
    unfold bind at 1. unfold assert at 1. rewrite Z.eqb_refl. cbn [ret].
    rewrite IH.
    + tidy. reflexivity.
    + intros log k x Hk.
      pose proof (Hacc log (S k) x Hk) as H.
      replace (i + Z.of_nat (S k)) with (i + 1 + Z.of_nat k) in H by lia.
      exact H.
Qed.

(** The string whose transfer reports another count is the last one
    sent. *)
Lemma send_accessory_information_refused (usb : Usb) (d : Device)
    (pre : list PyStr) (data : PyStr) (post : list PyStr)
    (i n : Z) (w : World) :
  reports_lengths usb d i pre ->
  ctrl_transfer_out usb (calls w ++ string_transfers d i pre) d 0x40 52 0
    (i + len pre) (Data data) = Ok n ->
  n <> len data ->
  send_accessory_information usb d i (pre ++ data :: post) w
  = (Raise AssertionError, after w (string_transfers d i (pre ++ [data]))).
Proof.
  revert i w. induction pre as [|x pre IH]; intros i w Hacc Hn Hne.
  - cbn [app send_accessory_information string_transfers].
    unfold device_ctrl_transfer_out. rewrite bind_call.
    cbn [string_transfers] in Hn. rewrite app_nil_r in Hn.
    replace (i + len (@nil PyStr)) with i in Hn
      by (unfold len; simpl; lia).
    rewrite Hn. cbn [of_result].
    unfold bind at 1. unfold assert at 1.
    apply Z.eqb_neq in Hne. rewrite Hne. tidy. reflexivity.
  - assert (Hlen : len (x :: pre) = len pre + 1)
      by (unfold len; simpl List.length; lia).
    cbn [app send_accessory_information string_transfers].
    unfold device_ctrl_transfer_out at 1. rewrite bind_call.
    pose proof (Hacc (calls w) 0%nat x eq_refl) as H0.
    replace (i + Z.of_nat 0) with i in H0 by lia.
    rewrite H0. cbn [of_result].
    unfold bind at 1. unfold assert at 1. rewrite Z.eqb_refl. cbn [ret].
    rewrite (IH (i + 1)).
    + tidy. reflexivity.
    + intros log k y Hk.
      pose proof (Hacc log (S k) y Hk) as H.
      replace (i + Z.of_nat (S k)) with (i + 1 + Z.of_nat k) in H by lia.
      exact H.
    + cbn [log calls]. cbn [string_transfers] in Hn.
      rewrite <- app_assoc. cbn [app].
      replace (i + 1 + len pre) with (i + len (x :: pre)) by lia.
      exact Hn.
    + exact Hne.
Qed.

(** A [str] takes at least one byte per character on the wire, and more
    than that as soon as one of its characters is not ASCII. *)
Lemma utf8_length_ge (s : PyStr) : len s <= utf8_length s.
Proof.
  induction s as [|c s IH]; [reflexivity|].
  replace (len (c :: s)) with (1 + len s)
    by (unfold len; simpl List.length; lia).
  cbn [utf8_length fold_right]. fold (utf8_length s).
  assert (1 <= utf8_width c).
  { unfold utf8_width.
    destruct (c <? 128); [lia|]. destruct (c <? 2048); [lia|].
    destruct (c <? 65536); lia. }
  lia.
Qed.

Lemma utf8_length_non_ascii (s : PyStr) (c : Z) :
  In c s -> 0x80 <= c -> len s < utf8_length s.
Proof.
  induction s as [|x s IH]; [intros []|].
  intros Hin Hc.
  replace (len (x :: s)) with (1 + len s)
    by (unfold len; simpl List.length; lia).
  cbn [utf8_length fold_right]. fold (utf8_length s).
  assert (1 <= utf8_width x).
  { unfold utf8_width.
    destruct (x <? 128); [lia|]. destruct (x <? 2048); [lia|].
    destruct (x <? 65536); lia. }
  destruct Hin as [->|Hin].
  - pose proof (utf8_length_ge s).
    assert (2 <= utf8_width c).
    { unfold utf8_width.
      replace (c <? 128) with false by (symmetry; apply Z.ltb_ge; lia).
      destruct (c <? 2048); [lia|]. destruct (c <? 65536); lia. }
    lia.
  - specialize (IH Hin Hc). lia.
Qed.

(** The phone reports, for an ASCII string, its number of characters. *)
Ltac each_string :=
  let log := fresh "log" in
  let k := fresh "k" in
  let data := fresh "data" in
  let Hk := fresh "Hk" in
  intros log k data Hk;
  repeat (destruct k as [|k];
          [injection Hk as <-; reflexivity|cbn [nth_error] in Hk]);
  try (destruct k; discriminate Hk).

(** X13: on an unconfigured device that answers protocol version 2,
    for which each of the six string transfers reports a count equal to
    the number of characters of the string, and that answers 0 to the
    switch command, [_configureAndOpenDevice] sends the strings in the
    order manufacturer, model, description, version, uri, serial,
    numbered 0 to 5, then the switch command, then disposes of the
    device, and only then starts re-polling. *)
Theorem handshake_sends_strings_then_switches (usb : Usb) (fuel : nat)
    (manufacturer model description version uri serial : PyStr)
    (w w1 : World) (d : Device) :
  _detectDevice usb fuel 5 w = (Return (d, false), w1) ->
  ctrl_transfer_in usb (calls w1) d 0xc0 51 0 0 (WLength 2) = Ok [x02; x00] ->
  reports_lengths usb d 0
    [manufacturer; model; description; version; uri; serial] ->
  ctrl_transfer_out usb
    (calls w1 ++ version_request d
       :: string_transfers d 0
            [manufacturer; model; description; version; uri; serial])
    d 0x40 53 0 0 NoData = Ok 0 ->
  _configureAndOpenDevice usb fuel
    manufacturer model description version uri serial w
  = wait_for_configured_device usb fuel fuel 5
      (after w1
         [version_request d;
          CtrlTransfer d 0x40 52 0 0 (Data manufacturer);
          CtrlTransfer d 0x40 52 0 1 (Data model);
          CtrlTransfer d 0x40 52 0 2 (Data description);
          CtrlTransfer d 0x40 52 0 3 (Data version);
          CtrlTransfer d 0x40 52 0 4 (Data uri);
          CtrlTransfer d 0x40 52 0 5 (Data serial);
          switch_command d;
          DisposeResources d]).
Proof.
  intros Hdetect Hbuf Hacc Hswitch.
  rewrite (_configureAndOpenDevice_protocol_2 usb fuel
             manufacturer model description version uri serial
             w w1 d Hdetect Hbuf).
  unfold enter_accessory_mode. unfold bind at 1.
  rewrite send_accessory_information_accepted by exact Hacc.
  unfold device_ctrl_transfer_out. rewrite bind_call.
  cbn [after calls]. rewrite <- app_assoc. cbn [app].
  rewrite Hswitch. cbn [of_result].
  unfold bind at 1. unfold assert at 1. cbn [Z.eqb ret].
  unfold bind at 1. unfold usb_util_dispose_resources.
  tidy. reflexivity.
Qed.

Lemma handshake_sends_strings_then_switches_witness :
  _configureAndOpenDevice (phone [x02; x00]) 6
    [0x41] [0x42] [0x43] [0x44] [0x45] [0x46] (start nexus4)
  = wait_for_configured_device (phone [x02; x00]) 6 6 5
      (after (after (start nexus4) [Find 0x18d1 0x4ee2; Find 0x18d1 0x2d01])
         [version_request 1;
          CtrlTransfer 1 0x40 52 0 0 (Data [0x41]);
          CtrlTransfer 1 0x40 52 0 1 (Data [0x42]);
          CtrlTransfer 1 0x40 52 0 2 (Data [0x43]);
          CtrlTransfer 1 0x40 52 0 3 (Data [0x44]);
          CtrlTransfer 1 0x40 52 0 4 (Data [0x45]);
          CtrlTransfer 1 0x40 52 0 5 (Data [0x46]);
          switch_command 1;
          DisposeResources 1]).
Proof.
  apply (handshake_sends_strings_then_switches (phone [x02; x00]) 6
           [0x41] [0x42] [0x43] [0x44] [0x45] [0x46] (start nexus4)
           (after (start nexus4) [Find 0x18d1 0x4ee2; Find 0x18d1 0x2d01]) 1).
  - reflexivity.
  - reflexivity.
  - each_string.
  - reflexivity.
Defined.

(** X14: the first accessory string whose transfer reports a count
    other than its number of characters ends the negotiation with an
    assertion failure: the strings after it are not sent, the switch
    command is not sent, and the device is not disposed of. *)
Theorem handshake_stops_at_incomplete_string (usb : Usb) (fuel : nat)
    (manufacturer model description version uri serial : PyStr)
    (w w1 : World) (d : Device)
    (pre : list PyStr) (data : PyStr) (post : list PyStr)
    (n : Z) :
  _detectDevice usb fuel 5 w = (Return (d, false), w1) ->
  ctrl_transfer_in usb (calls w1) d 0xc0 51 0 0 (WLength 2) = Ok [x02; x00] ->
  [manufacturer; model; description; version; uri; serial]
  = pre ++ data :: post ->
  reports_lengths usb d 0 pre ->
  ctrl_transfer_out usb
    (calls w1 ++ version_request d :: string_transfers d 0 pre)
    d 0x40 52 0 (len pre) (Data data) = Ok n ->
  n <> len data ->
  _configureAndOpenDevice usb fuel
    manufacturer model description version uri serial w
  = (Raise AssertionError,
     after w1 (version_request d :: string_transfers d 0 (pre ++ [data]))).
Proof.
  intros Hdetect Hbuf Hfields Hacc Hn Hne.
  rewrite (_configureAndOpenDevice_protocol_2 usb fuel
             manufacturer model description version uri serial
             w w1 d Hdetect Hbuf).
  unfold enter_accessory_mode. rewrite Hfields. unfold bind at 1.
  rewrite (send_accessory_information_refused usb d pre data post 0 n).
  - tidy. reflexivity.
  - exact Hacc.
  - cbn [after calls]. rewrite <- app_assoc. exact Hn.
  - exact Hne.
Qed.

Lemma handshake_stops_at_incomplete_string_witness :
  _configureAndOpenDevice (odd_phone 2 0 Reenumerates) 6
    [0x41] [0x42] [0x43] [0x44] [0x45] [0x46] (start nexus4)
  = (Raise AssertionError,
     after (after (start nexus4) [Find 0x18d1 0x4ee2; Find 0x18d1 0x2d01])
       (version_request 1
        :: string_transfers 1 0 ([[0x41]; [0x42]] ++ [[0x43]]))).
Proof.
  apply (handshake_stops_at_incomplete_string (odd_phone 2 0 Reenumerates) 6
           [0x41] [0x42] [0x43] [0x44] [0x45] [0x46] (start nexus4)
           (after (start nexus4) [Find 0x18d1 0x4ee2; Find 0x18d1 0x2d01]) 1
           [[0x41]; [0x42]] [0x43] [[0x44]; [0x45]; [0x46]] 0).
  - reflexivity.
  - reflexivity.
  - reflexivity.
  - each_string.
  - reflexivity.
  - discriminate.
Defined.

(** X9: a string with a character that is not ASCII cannot pass, even
    on a device that takes it whole.  The class compares the count the
    transfer reports with the number of characters of the string; when
    the transfer reports the bytes the string took on the wire in
    UTF-8, the two differ for such a string, and the negotiation ends
    with an assertion failure right after that string was sent. *)
Theorem handshake_fails_on_non_ascii_string (usb : Usb) (fuel : nat)
    (manufacturer model description version uri serial : PyStr)
    (w w1 : World) (d : Device)
    (pre : list PyStr) (data : PyStr) (post : list PyStr) (c : Z) :
  _detectDevice usb fuel 5 w = (Return (d, false), w1) ->
  ctrl_transfer_in usb (calls w1) d 0xc0 51 0 0 (WLength 2) = Ok [x02; x00] ->
  [manufacturer; model; description; version; uri; serial]
  = pre ++ data :: post ->
  reports_lengths usb d 0 pre ->
  ctrl_transfer_out usb
    (calls w1 ++ version_request d :: string_transfers d 0 pre)
    d 0x40 52 0 (len pre) (Data data) = Ok (utf8_length data) ->
  In c data ->
  0x80 <= c ->
  _configureAndOpenDevice usb fuel
    manufacturer model description version uri serial w
  = (Raise AssertionError,
     after w1 (version_request d :: string_transfers d 0 (pre ++ [data]))).
Proof.
  intros Hdetect Hbuf Hfields Hacc Hn Hin Hc.
  rewrite (_configureAndOpenDevice_protocol_2 usb fuel
             manufacturer model description version uri serial
             w w1 d Hdetect Hbuf).
  unfold enter_accessory_mode. rewrite Hfields. unfold bind at 1.
  rewrite (send_accessory_information_refused usb d pre data post 0
             (utf8_length data)).
  - tidy. reflexivity.
  - exact Hacc.
  - cbn [after calls]. rewrite <- app_assoc. exact Hn.
  - pose proof (utf8_length_non_ascii data c Hin Hc). lia.
Qed.

Lemma handshake_fails_on_non_ascii_string_witness :
  _configureAndOpenDevice (phone [x02; x00]) 6
    [0x41] [0x63; 0xe9] [0x43] [0x44] [0x45] [0x46] (start nexus4)
  = (Raise AssertionError,
     after (after (start nexus4) [Find 0x18d1 0x4ee2; Find 0x18d1 0x2d01])
       (version_request 1
        :: string_transfers 1 0 ([[0x41]] ++ [[0x63; 0xe9]]))).
Proof.
  apply (handshake_fails_on_non_ascii_string (phone [x02; x00]) 6
           [0x41] [0x63; 0xe9] [0x43] [0x44] [0x45] [0x46] (start nexus4)
           (after (start nexus4) [Find 0x18d1 0x4ee2; Find 0x18d1 0x2d01]) 1
           [[0x41]] [0x63; 0xe9] [[0x43]; [0x44]; [0x45]; [0x46]] 0xe9).
  - reflexivity.
  - reflexivity.
  - reflexivity.
  - each_string.
  - reflexivity.
  - simpl. right. left. reflexivity.
  - lia.
Defined.

(** X15: when each string transfer reported the number of characters
    of its string and the device answers the switch command with a
    count other than 0, the negotiation ends with an assertion failure
    right after the command: the device is not disposed of and nothing
    is re-polled. *)
Theorem handshake_fails_on_refused_switch (usb : Usb) (fuel : nat)
    (manufacturer model description version uri serial : PyStr)
    (w w1 : World) (d : Device) (n : Z) :
  _detectDevice usb fuel 5 w = (Return (d, false), w1) ->
  ctrl_transfer_in usb (calls w1) d 0xc0 51 0 0 (WLength 2) = Ok [x02; x00] ->
  reports_lengths usb d 0
    [manufacturer; model; description; version; uri; serial] ->
  ctrl_transfer_out usb
    (calls w1 ++ version_request d
       :: string_transfers d 0
            [manufacturer; model; description; version; uri; serial])
    d 0x40 53 0 0 NoData = Ok n ->
  n <> 0 ->
  _configureAndOpenDevice usb fuel
    manufacturer model description version uri serial w
  = (Raise AssertionError,
     after w1
       (version_request d
        :: string_transfers d 0
             [manufacturer; model; description; version; uri; serial]
        ++ [switch_command d])).
Proof.
  intros Hdetect Hbuf Hacc Hswitch Hne.
  rewrite (_configureAndOpenDevice_protocol_2 usb fuel
             manufacturer model description version uri serial
             w w1 d Hdetect Hbuf).
  unfold enter_accessory_mode. unfold bind at 1.
  rewrite send_accessory_information_accepted by exact Hacc.
  unfold device_ctrl_transfer_out. rewrite bind_call.
  cbn [after calls]. rewrite <- app_assoc. cbn [app].
  rewrite Hswitch. cbn [of_result].
  unfold bind at 1. unfold assert at 1.
  apply Z.eqb_neq in Hne. rewrite Hne.
  tidy. reflexivity.
Qed.

Lemma handshake_fails_on_refused_switch_witness :
  _configureAndOpenDevice (odd_phone 9 1 Reenumerates) 6
    [0x41] [0x42] [0x43] [0x44] [0x45] [0x46] (start nexus4)
  = (Raise AssertionError,
     after (after (start nexus4) [Find 0x18d1 0x4ee2; Find 0x18d1 0x2d01])
       (version_request 1
        :: string_transfers 1 0
             [[0x41]; [0x42]; [0x43]; [0x44]; [0x45]; [0x46]]
        ++ [switch_command 1])).
Proof.
  apply (handshake_fails_on_refused_switch (odd_phone 9 1 Reenumerates) 6
           [0x41] [0x42] [0x43] [0x44] [0x45] [0x46] (start nexus4)
           (after (start nexus4) [Find 0x18d1 0x4ee2; Find 0x18d1 0x2d01]) 1 1).
  - reflexivity.
  - reflexivity.
  - each_string.
  - reflexivity.
  - discriminate.
Defined.

(** ** The re-polling loop *)

Lemma wait_while_unconfigured (usb : Usb) (dfuel : nat) (w : World)
    (du : Device) :
  (forall log,
     find usb log (_vendor_id (self w)) (_unconfigured_product_id (self w))
     = Some du
     /\ find usb log (_vendor_id (self w)) (_configured_product_id (self w))
        = None) ->
  forall (fuel k : nat) (evs : list Event),
    (k < fuel)%nat ->
    wait_for_configured_device usb fuel (S dfuel) (Z.of_nat k) (after w evs)
    = (Raise (USBError None "Device not configured"),
       after w (evs ++ still_unconfigured (_vendor_id (self w))
                         (_unconfigured_product_id (self w))
                         (_configured_product_id (self w)) k)).
Proof.
  intros Hfinds. induction fuel as [|fuel IH]; intros k evs Hk; [lia|].
  cbn [wait_for_configured_device].
  destruct k as [|k].
  - cbn. rewrite app_nil_r. reflexivity.
  - replace (negb (Z.of_nat (S k) =? 0)) with true
      by (symmetry; apply negb_true_iff, Z.eqb_neq; lia).
    unfold bind at 1. rewrite _detectDevice_round. cbv zeta.
    cbn [self after calls].
    rewrite (proj2 (Hfinds _)), (proj1 (Hfinds _)).
    unfold bind, time_sleep. tidy.
    replace (Z.of_nat (S k) - 1) with (Z.of_nat k) by lia.
    rewrite IH by lia. rewrite <- app_assoc. reflexivity.
Qed.

(** X16: when the device keeps answering to the unconfigured product
    id and never to the configured one, the re-polling loop looks at
    the bus five times, sleeping a second after each look, and then
    raises [USBError('Device not configured')]. *)
Theorem repolling_gives_up_on_unconfigured_device (usb : Usb)
    (fuel dfuel : nat) (w : World) (du : Device) :
  (6 <= fuel)%nat ->
  (1 <= dfuel)%nat ->
  (forall log,
     find usb log (_vendor_id (self w)) (_unconfigured_product_id (self w))
     = Some du
     /\ find usb log (_vendor_id (self w)) (_configured_product_id (self w))
        = None) ->
  wait_for_configured_device usb fuel dfuel 5 w
  = (Raise (USBError None "Device not configured"),
     after w (still_unconfigured (_vendor_id (self w))
                (_unconfigured_product_id (self w))
                (_configured_product_id (self w)) 5)).
Proof.
  intros Hfuel Hdfuel Hfinds.
  destruct dfuel as [|dfuel]; [lia|].
  pose proof (wait_while_unconfigured usb dfuel w du Hfinds fuel 5 []
                ltac:(lia)) as H.
  rewrite after_nil in H. exact H.
Qed.

Lemma repolling_gives_up_on_unconfigured_device_witness :
  wait_for_configured_device (odd_phone 9 0 StaysUnconfigured) 6 6 5
    (start nexus4)
  = (Raise (USBError None "Device not configured"),
     after (start nexus4) (still_unconfigured 0x18d1 0x4ee2 0x2d01 5)).
Proof.
  apply (repolling_gives_up_on_unconfigured_device
           (odd_phone 9 0 StaysUnconfigured) 6 6 (start nexus4) 1).
  - lia.
  - lia.
  - intros log. cbn. destruct (existsb is_switch log); split; reflexivity.
Defined.

(** X17: when no device at all answers after the switch, the error of
    the re-polling loop is not 'Device not configured': the first
    detection of the loop uses up its own five retries and its
    [USBError('Device not connected')] ends the loop. *)
Theorem repolling_reports_vanished_device_as_not_connected (usb : Usb)
    (fuel dfuel : nat) (w : World) :
  (1 <= fuel)%nat ->
  (6 <= dfuel)%nat ->
  (forall log,
     find usb log (_vendor_id (self w)) (_unconfigured_product_id (self w))
     = None
     /\ find usb log (_vendor_id (self w)) (_configured_product_id (self w))
        = None) ->
  wait_for_configured_device usb fuel dfuel 5 w
  = (Raise (USBError None "Device not connected"),
     after w (poll_rounds (_vendor_id (self w))
                (_unconfigured_product_id (self w))
                (_configured_product_id (self w)) 5)).
Proof.
  intros Hfuel Hdfuel Hnone.
  destruct fuel as [|fuel]; [lia|].
  cbn [wait_for_configured_device Z.eqb negb].
  unfold bind.
  pose proof (_detectDevice_nothing_found usb dfuel w Hnone 5 []
                ltac:(lia)) as H.
  rewrite after_nil in H. change (Z.of_nat 5) with 5 in H.
  rewrite H. reflexivity.
Qed.

Lemma repolling_reports_vanished_device_as_not_connected_witness :
  wait_for_configured_device empty_bus 6 6 5 (start nexus4)
  = (Raise (USBError None "Device not connected"),
     after (start nexus4) (poll_rounds 0x18d1 0x4ee2 0x2d01 5)).
Proof.
  apply (repolling_reports_vanished_device_as_not_connected
           empty_bus 6 6 (start nexus4)).
  - lia.
  - lia.
  - intros log. split; reflexivity.
Defined.

(** ** What the negotiator returns *)

Lemma bind_return_inv {A B} (m : M A) (k : A -> M B) (w w' : World) (b : B) :
  bind m k w = (Return b, w') ->
  exists a w1, m w = (Return a, w1) /\ k a w1 = (Return b, w').
Proof.
  unfold bind. destruct (m w) as [[a|e|] w1]; try discriminate.
  intros H. now exists a, w1.
Qed.

Lemma logs_only_self (ok : Event -> bool) {A} (m : M A) (w : World) :
  logs_only ok m -> self (snd (m w)) = self w.
Proof.
  intros H. destruct (H w) as (evs & -> & _). reflexivity.
Qed.

Lemma validate_version_code_logs (buf : list byte) :
  logs_only (fun _ => true) (validate_version_code buf).
Proof.
  unfold validate_version_code.
  destruct (len buf =? 2); [|apply logs_only_assert].
  unfold getitem.
  apply logs_only_bind;
    [destruct (nth_error buf 0);
       [apply logs_only_ret|apply logs_only_raise]|intros b0].
  apply logs_only_bind;
    [destruct (nth_error buf 1);
       [apply logs_only_ret|apply logs_only_raise]|intros b1].
  apply logs_only_assert.
Qed.

Lemma _configureAndOpenDevice_logs (usb : Usb) (fuel : nat)
    (manufacturer model description version uri serial : PyStr) :
  logs_only (fun _ => true)
    (_configureAndOpenDevice usb fuel
       manufacturer model description version uri serial).
Proof.
  unfold _configureAndOpenDevice.
  apply logs_only_bind; [now apply _detectDevice_logs|intros [d b]].
  apply logs_only_bind; [|intros _; now apply wait_for_configured_device_logs].
  destruct b; cbn [negb].
  - apply logs_only_bind; [now apply logs_only_call|intros _].
    now apply logs_only_call.
  - apply logs_only_bind; [now apply logs_only_call|intros buf].
    apply logs_only_bind; [apply validate_version_code_logs|intros _].
    apply logs_only_bind; [apply send_accessory_information_logs|intros _].
    apply logs_only_bind; [now apply logs_only_call|intros n].
    apply logs_only_bind; [apply logs_only_assert|intros _].
    now apply logs_only_call.
Qed.

Lemma wait_returns_configured (usb : Usb) (dfuel : nat) :
  forall (fuel : nat) (attempts_left : Z) (w w' : World) (d : Device),
    wait_for_configured_device usb fuel dfuel attempts_left w
    = (Return d, w') ->
    exists log,
      find usb log (_vendor_id (self w)) (_configured_product_id (self w))
      = Some d.
Proof.
  induction fuel as [|fuel IH]; intros attempts_left w w' d; [discriminate|].
  cbn [wait_for_configured_device].
  destruct (negb (attempts_left =? 0)); [|discriminate].
  intros H. apply bind_return_inv in H as ([d0 b] & w1 & Hdet & H).
  pose proof (_detectDevice_sound usb dfuel 5 w w1 d0 b Hdet) as Hsound.
  destruct b.
  - injection H as <- <-.
    destruct Hsound as (evs & _ & _ & Hc & _). eauto.
  - apply bind_return_inv in H as ([] & w2 & Hsleep & H).
    injection Hsleep as <-.
    apply IH in H.
    destruct Hsound as (evs & -> & _). exact H.
Qed.

Lemma _configureAndOpenDevice_sound (usb : Usb)
    (fuel : nat)
    (manufacturer model description version uri serial : PyStr)
    (w w' : World) (d : Device) :
  _configureAndOpenDevice usb fuel
    manufacturer model description version uri serial w = (Return d, w') ->
  self w' = self w
  /\ exists log,
       find usb log (_vendor_id (self w)) (_configured_product_id (self w))
       = Some d.
Proof.
  intros H. split.
  - pose proof (logs_only_self _ _ w
                  (_configureAndOpenDevice_logs usb fuel
                     manufacturer model description version uri serial)) as Hs.
    rewrite H in Hs. exact Hs.
  - unfold _configureAndOpenDevice in H.
    apply bind_return_inv in H as ([d0 b] & w1 & Hdet & H).
    apply bind_return_inv in H as ([] & w2 & Hstep & Hwait).
    apply wait_returns_configured in Hwait.
    assert (Hs1 : self w1 = self w).
    { pose proof (logs_only_self _ _ w
                    (_detectDevice_logs usb (fun _ => true) fuel 5
                       (fun _ _ => eq_refl) (fun _ => eq_refl))) as Hs.
      rewrite Hdet in Hs. exact Hs. }
    assert (Hs2 : self w2 = self w1).
    { destruct b; cbn [negb] in Hstep.
      - apply bind_return_inv in Hstep as ([] & w3 & Hreset & Hsleep).
        injection Hsleep as <-.
        unfold device_reset in Hreset. injection Hreset as _ <-.
        reflexivity.
      - assert (Hl : logs_only (fun _ => true)
          (buf <- device_ctrl_transfer_in usb d0 192 51 0 0 (WLength 2) ;;
           validate_version_code buf ;;;
           send_accessory_information usb d0 0
             [manufacturer; model; description; version; uri; serial] ;;;
           n <- device_ctrl_transfer_out usb d0 64 53 0 0 NoData ;;
           assert (n =? 0) ;;;
           usb_util_dispose_resources d0)).
        { apply logs_only_bind; [now apply logs_only_call|intros buf].
          apply logs_only_bind; [apply validate_version_code_logs|intros _].
          apply logs_only_bind;
            [apply send_accessory_information_logs|intros _].
          apply logs_only_bind; [now apply logs_only_call|intros n].
          apply logs_only_bind; [apply logs_only_assert|intros _].
          now apply logs_only_call. }
        pose proof (logs_only_self _ _ w1 Hl) as Hs.
        rewrite Hstep in Hs. exact Hs. }
    rewrite Hs2, Hs1 in Hwait. exact Hwait.
Qed.

(** X18: whatever the bus does, a device that [_configureAndOpenDevice]
    returns is one that answered a look at the configured product id;
    the device found first, if it was unconfigured, is never the one
    returned.  The method leaves the attributes of the object as they
    were. *)
Theorem _configureAndOpenDevice_returns_configured_device (usb : Usb)
    (fuel : nat)
    (manufacturer model description version uri serial : PyStr)
    (w w' : World) (d : Device) :
  _configureAndOpenDevice usb fuel
    manufacturer model description version uri serial w = (Return d, w') ->
  self w' = self w
  /\ exists log,
       find usb log (_vendor_id (self w)) (_configured_product_id (self w))
       = Some d.
Proof. apply _configureAndOpenDevice_sound. Qed.

Lemma _configureAndOpenDevice_returns_configured_device_witness :
  self (after (start nexus4)
          [Find 0x18d1 0x4ee2; Find 0x18d1 0x2d01; Reset 2; Sleep 1;
           Find 0x18d1 0x4ee2; Find 0x18d1 0x2d01])
  = self (start nexus4)
  /\ exists log,
       find accessory log (_vendor_id (self (start nexus4)))
         (_configured_product_id (self (start nexus4))) = Some 2.
Proof.
  apply (_configureAndOpenDevice_returns_configured_device accessory 6
           [] [] [] [] [] [] (start nexus4)).
  reflexivity.
Defined.

(** ** How long the negotiator can take *)

Lemma bounded_ret (n : nat) {A} (a : A) : bounded n (ret a).
Proof.
  intros w. split; [discriminate|]. exists []. rewrite after_nil.
  split; [reflexivity|simpl; lia].
Qed.

Lemma bounded_raise (n : nat) {A} (e : PyError) : bounded n (@raise A e).
Proof.
  intros w. split; [discriminate|]. exists []. rewrite after_nil.
  split; [reflexivity|simpl; lia].
Qed.

Lemma bounded_assert (n : nat) (c : bool) : bounded n (assert c).
Proof. destruct c; [apply bounded_ret|apply bounded_raise]. Qed.

Lemma bounded_weaken (n n' : nat) {A} (m : M A) :
  (n <= n')%nat -> bounded n m -> bounded n' m.
Proof.
  intros Hle Hm w. destruct (Hm w) as (Hend & evs & Hw & Hs).
  split; [exact Hend|]. exists evs. split; [exact Hw|lia].
Qed.

Lemma bounded_bind (n1 n2 : nat) {A B} (m : M A) (k : A -> M B) :
  bounded n1 m -> (forall a, bounded n2 (k a)) -> bounded (n1 + n2) (bind m k).
Proof.
  intros Hm Hk w. destruct (Hm w) as (Hend & evs & Hw & Hs).
  unfold bind. destruct (m w) as [[a|e|] w1]; cbn [fst snd] in *; subst w1.
  - destruct (Hk a (after w evs)) as (Hend' & evs' & Hw' & Hs').
    split; [exact Hend'|]. exists (evs ++ evs').
    rewrite Hw', after_after. split; [reflexivity|].
    rewrite filter_app, length_app. lia.
  - split; [discriminate|]. exists evs. split; [reflexivity|lia].
  - congruence.
Qed.

Lemma bounded_call {A} (e : Event) (r : list Event -> Result A) :
  bounded (if is_sleep e then 1 else 0)
    (fun w => (of_result (r (calls w)), log e w)).
Proof.
  intros w. split.
  - cbn [fst]. destruct (r (calls w)); discriminate.
  - exists [e]. split; [reflexivity|]. simpl. destruct (is_sleep e); simpl; lia.
Qed.

Lemma bounded_time_sleep (secs : Z) : bounded 1 (time_sleep secs).
Proof.
  intros w. split; [discriminate|]. exists [Sleep secs].
  split; [reflexivity|simpl; lia].
Qed.

Lemma bounded_dispose (d : Device) : bounded 0 (usb_util_dispose_resources d).
Proof.
  intros w. split; [discriminate|]. exists [DisposeResources d].
  split; [reflexivity|simpl; lia].
Qed.

Lemma bounded_detectDevice (usb : Usb) (fuel k : nat) :
  (k < fuel)%nat -> bounded k (_detectDevice usb fuel (Z.of_nat k)).
Proof.
  intros Hk w.
  destruct (_detectDevice_ends_within usb fuel k w Hk)
    as (Hout & evs & Hw & _ & Hs).
  split.
  - destruct Hout as [H|[r H]]; rewrite H; discriminate.
  - exists evs. now split.
Qed.

Lemma bounded_validate (buf : list byte) :
  bounded 0 (validate_version_code buf).
Proof.
  unfold validate_version_code.
  destruct (len buf =? 2); [|apply bounded_assert].
  unfold getitem.
  apply (bounded_bind 0 0);
    [destruct (nth_error buf 0);
       [apply bounded_ret|apply bounded_raise]|intros b0].
  apply (bounded_bind 0 0);
    [destruct (nth_error buf 1);
       [apply bounded_ret|apply bounded_raise]|intros b1].
  apply bounded_assert.
Qed.

Lemma bounded_send (usb : Usb) (d : Device) (fields : list PyStr) :
  forall i, bounded 0 (send_accessory_information usb d i fields).
Proof.
  induction fields as [|data rest IH]; intros i.
  - apply bounded_ret.
  - cbn [send_accessory_information].
    apply (bounded_bind 0 0);
      [apply (bounded_call (CtrlTransfer d 64 52 0 i (Data data))
                (fun log => ctrl_transfer_out usb log d 64 52 0 i (Data data)))
      |intros n].
    apply (bounded_bind 0 0); [apply bounded_assert|intros _].
    apply IH.
Qed.

Lemma bounded_wait (usb : Usb) (dfuel : nat) :
  (6 <= dfuel)%nat ->
  forall (fuel k : nat),
    (k < fuel)%nat ->
    bounded (6 * k) (wait_for_configured_device usb fuel dfuel (Z.of_nat k)).
Proof.
  intros Hdfuel. induction fuel as [|fuel IH]; intros k Hk; [lia|].
  cbn [wait_for_configured_device].
  destruct k as [|k]; [apply bounded_raise|].
  replace (negb (Z.of_nat (S k) =? 0)) with true
    by (symmetry; apply negb_true_iff, Z.eqb_neq; lia).
  replace (Z.of_nat (S k) - 1) with (Z.of_nat k) by lia.
  apply (bounded_weaken (5 + (1 + 6 * k))); [lia|].
  apply bounded_bind.
  - apply (bounded_detectDevice usb dfuel 5). lia.
  - intros [d b]. destruct b; [apply bounded_ret|].
    apply bounded_bind; [apply bounded_time_sleep|intros _].
    apply IH. lia.
Qed.

(** X19: whatever the bus answers, [_configureAndOpenDevice] ends: it
    returns or raises, and a recursion and iteration depth of 6 is
    enough for every loop in it.  Among its calls there are at most 36
    sleeps of one second: 5 in the first detection, 1 after a reset,
    and 6 in each of the 5 rounds of re-polling. *)
Theorem _configureAndOpenDevice_always_ends (usb : Usb) (fuel : nat)
    (manufacturer model description version uri serial : PyStr) :
  (6 <= fuel)%nat ->
  bounded 36
    (_configureAndOpenDevice usb fuel
       manufacturer model description version uri serial).
Proof.
  intros Hfuel. unfold _configureAndOpenDevice.
  apply (bounded_bind 5 31).
  - apply (bounded_detectDevice usb fuel 5). lia.
  - intros [d b].
    apply (bounded_bind 1 30);
      [|intros _; apply (bounded_wait usb fuel Hfuel fuel 5); lia].
    destruct b; cbn [negb].
    + apply (bounded_bind 0 1); [|intros _; apply bounded_time_sleep].
      apply (bounded_call (Reset d) (fun log => reset usb log d)).
    + apply (bounded_weaken 0); [lia|].
      apply (bounded_bind 0 0);
        [apply (bounded_call (CtrlTransfer d 192 51 0 0 (WLength 2))
                  (fun log => ctrl_transfer_in usb log d 192 51 0 0 (WLength 2)))
        |intros buf].
      apply (bounded_bind 0 0); [apply bounded_validate|intros _].
      apply (bounded_bind 0 0); [apply bounded_send|intros _].
      apply (bounded_bind 0 0);
        [apply (bounded_call (CtrlTransfer d 64 53 0 0 NoData)
                  (fun log => ctrl_transfer_out usb log d 64 53 0 0 NoData))
        |intros n].
      apply (bounded_bind 0 0); [apply bounded_assert|intros _].
      apply bounded_dispose.
Qed.

Lemma _configureAndOpenDevice_always_ends_witness :
  bounded 36
    (_configureAndOpenDevice (odd_phone 9 0 StaysUnconfigured) 6
       [0x41] [0x42] [0x43] [0x44] [0x45] [0x46]).
Proof.
  apply (_configureAndOpenDevice_always_ends
           (odd_phone 9 0 StaysUnconfigured) 6).
  lia.
Defined.

(** * The constructor and the [with] block *)

Lemma _detectEndpoints_inv (usb : Usb) (w w' : World)
    (o : Outcome (Endpoint * Endpoint)) :
  _detectEndpoints usb w = (o, w') ->
  self w' = self w
  /\ o <> OutOfFuel
  /\ (forall eo ei,
        o = Return (eo, ei) ->
        Z.testbit (bEndpointAddress eo) 7 = false
        /\ Z.testbit (bEndpointAddress ei) 7 = true).
Proof.
  unfold _detectEndpoints. unfold bind at 1. unfold get_self.
  destruct (_device (self w)) as [d|].
  - unfold bind, device_active_interface.
    destruct (active_interface usb (calls w) d) as [eps|e]; cbn [of_result].
    + destruct (List.find first_out_endpoint eps) as [eo|] eqn:Hfo;
        destruct (List.find first_in_endpoint eps) as [ei|] eqn:Hfi;
        intros H; injection H as <- <-;
        (split; [reflexivity|]); (split; [discriminate|]);
        intros eo' ei' Heq; try discriminate Heq.
      injection Heq as <- <-.
      apply find_some in Hfo as [_ Hfo]. apply find_some in Hfi as [_ Hfi].
      rewrite first_out_endpoint_bit in Hfo.
      rewrite first_in_endpoint_bit in Hfi.
      split; [now apply negb_true_iff|exact Hfi].
    + intros H; injection H as <- <-.
      split; [reflexivity|]. split; [discriminate|]. discriminate.
  - intros H; injection H as <- <-.
    split; [reflexivity|]. split; [discriminate|]. discriminate.
Qed.

Lemma __init___initialised (usb : Usb) (fuel : nat)
    (vendor_id unconfigured_product_id configured_product_id : Z)
    (manufacturer model description version uri serial : PyStr)
    (w : World) :
  initialised usb vendor_id unconfigured_product_id configured_product_id
    (__init__ usb fuel vendor_id unconfigured_product_id configured_product_id
       manufacturer model description version uri serial w).
Proof.
  remember (__init__ usb fuel vendor_id unconfigured_product_id
              configured_product_id manufacturer model description version
              uri serial w) as r eqn:Hr.
  unfold __init__ in Hr. unfold bind at 1 in Hr. unfold set_self at 1 in Hr.
  unfold bind at 1 in Hr.
  match type of Hr with
  | context [_configureAndOpenDevice usb fuel manufacturer model description
               version uri serial ?w0] =>
      pose proof (logs_only_self _ _ w0
                    (_configureAndOpenDevice_logs usb fuel manufacturer model
                       description version uri serial)) as Hs1;
      pose proof (_configureAndOpenDevice_sound usb fuel manufacturer model
                    description version uri serial w0) as Hfound;
      destruct (_configureAndOpenDevice usb fuel manufacturer model
                  description version uri serial w0) as [[d|e|] w1]
  end; cbn [snd self] in Hs1.
  - specialize (Hfound w1 d eq_refl) as [_ Hfound]. cbn [self] in Hfound.
    cbn [_vendor_id _configured_product_id] in Hfound.
    unfold bind at 1 in Hr. unfold get_self in Hr.
    unfold bind at 1 in Hr. unfold set_self at 1 in Hr.
    rewrite Hs1 in Hr.
    cbn [_vendor_id _unconfigured_product_id _configured_product_id
         _endpoint_out _endpoint_in] in Hr.
    unfold bind at 1 in Hr.
    match type of Hr with
    | context [_detectEndpoints usb ?w1'] =>
        destruct (_detectEndpoints usb w1') as [[[eo ei]|e|] w2] eqn:Hep;
        apply _detectEndpoints_inv in Hep as (Hs2 & Hne & Hbits)
    end; cbn [self] in Hs2.
    + unfold bind, set_self in Hr. cbn [fst snd self calls] in Hr.
      rewrite Hs2 in Hr.
      cbn [_vendor_id _unconfigured_product_id _configured_product_id
           _device] in Hr.
      destruct (Hbits eo ei eq_refl) as [Hbo Hbi].
      subst r. unfold initialised. cbn.
      repeat (split; [reflexivity|]).
      split; [split; reflexivity|].
      intros _. exists d, eo, ei.
      repeat (split; [reflexivity|]).
      split; [exact Hfound|]. split; assumption.
    + subst r. unfold initialised. cbn [fst snd]. rewrite Hs2.
      cbn. repeat (split; [reflexivity|]).
      split; [split; discriminate|discriminate].
    + congruence.
  - subst r. unfold initialised. cbn [fst snd]. rewrite Hs1.
    cbn. repeat (split; [reflexivity|]).
    split; [split; discriminate|discriminate].
  - subst r. unfold initialised. cbn [fst snd]. rewrite Hs1.
    cbn. repeat (split; [reflexivity|]).
    split; [split; discriminate|discriminate].
Qed.

(** X20: [__init__] stores the three ids whatever happens, and leaves
    the object open exactly when it returns: after an exception at
    least one of the three handles is missing.  When it returns, the
    device it stored answered a look at the configured product id, the
    OUT endpoint has bit 7 of its address clear and the IN endpoint has
    it set. *)
Theorem __init___opens_exactly_when_it_returns (usb : Usb) (fuel : nat)
    (vendor_id unconfigured_product_id configured_product_id : Z)
    (manufacturer model description version uri serial : PyStr)
    (w : World) :
  initialised usb vendor_id unconfigured_product_id configured_product_id
    (__init__ usb fuel vendor_id unconfigured_product_id configured_product_id
       manufacturer model description version uri serial w).
Proof. apply __init___initialised. Qed.

Lemma close_returns (usb : Usb) (w : World) (d : Device) (eo : Endpoint)
    (n : Z) :
  _device (self w) = Some d ->
  _endpoint_out (self w) = Some eo ->
  ep_write usb (calls w) eo [x00; x00] None = Ok n ->
  close usb w
  = (Return tt,
     {| self := closed (self w);
        calls := calls w ++ [EpWrite eo [x00; x00] None;
                             DisposeResources d] |}).
Proof.
  intros Hd Ho Hn. unfold close. unfold bind at 1. unfold get_self.
  rewrite Hd, Ho. unfold bind at 1. rewrite array_B_zeros.
  unfold bind, endpoint_write. rewrite Hn. simpl.
  unfold set_self, log, closed. simpl. rewrite <- app_assoc. reflexivity.
Qed.

Lemma close_raises (usb : Usb) (w : World) (d : Device) (eo : Endpoint)
    (e : PyError) :
  _device (self w) = Some d ->
  _endpoint_out (self w) = Some eo ->
  ep_write usb (calls w) eo [x00; x00] None = Err e ->
  close usb w = (Raise e, after w [EpWrite eo [x00; x00] None]).
Proof.
  intros Hd Ho He. unfold close. unfold bind at 1. unfold get_self.
  rewrite Hd, Ho. unfold bind at 1. rewrite array_B_zeros.
  unfold bind, endpoint_write. rewrite He. reflexivity.
Qed.

(** A [with] block whose constructor returned, from its body on. *)
Lemma with_bridge_body {A} (usb : Usb) (fuel : nat)
    (vendor_id unconfigured_product_id configured_product_id : Z)
    (manufacturer model description version uri serial : PyStr)
    (body : M A) (w w1 w2 : World) (o : Outcome A) :
  __init__ usb fuel vendor_id unconfigured_product_id configured_product_id
    manufacturer model description version uri serial w = (Return tt, w1) ->
  body w1 = (o, w2) ->
  with_bridge usb fuel vendor_id unconfigured_product_id
    configured_product_id manufacturer model description version uri serial
    body w
  = match o with
    | Return a => (close usb ;;; ret a) w2
    | Raise e => (close usb ;;; raise e) w2
    | OutOfFuel => (OutOfFuel, w2)
    end.
Proof.
  intros Hinit Hbody. unfold with_bridge.
  unfold bind at 1. rewrite Hinit.
  unfold bind at 1. unfold __enter__, ret. rewrite Hbody.
  destruct o; reflexivity.
Qed.

Lemma __init___opens (usb : Usb) (fuel : nat)
    (vendor_id unconfigured_product_id configured_product_id : Z)
    (manufacturer model description version uri serial : PyStr)
    (w w1 : World) :
  __init__ usb fuel vendor_id unconfigured_product_id configured_product_id
    manufacturer model description version uri serial w = (Return tt, w1) ->
  exists d eo,
    _device (self w1) = Some d /\ _endpoint_out (self w1) = Some eo.
Proof.
  intros Hinit.
  pose proof (__init___initialised usb fuel vendor_id unconfigured_product_id
                configured_product_id manufacturer model description version
                uri serial w) as H.
  rewrite Hinit in H. destruct H as (_ & _ & _ & _ & H).
  destruct (H eq_refl) as (d & eo & ei & Hd & Ho & _).
  now exists d, eo.
Qed.

(** X21: [close] runs on every way out of the [with] block.  When the
    constructor returned and the body ended, by returning or by
    raising, without touching the attributes of the object, and the
    terminator write returns, the block ends as its body did, after the
    terminator was sent and the device disposed of, and with the object
    closed. *)
Theorem with_block_closes_on_every_exit {A} (usb : Usb) (fuel : nat)
    (vendor_id unconfigured_product_id configured_product_id : Z)
    (manufacturer model description version uri serial : PyStr)
    (body : M A) (w w1 w2 : World) (o : Outcome A) (n : Z) :
  __init__ usb fuel vendor_id unconfigured_product_id configured_product_id
    manufacturer model description version uri serial w = (Return tt, w1) ->
  body w1 = (o, w2) ->
  ended o ->
  self w2 = self w1 ->
  (forall eo, _endpoint_out (self w1) = Some eo ->
     ep_write usb (calls w2) eo [x00; x00] None = Ok n) ->
  exits_closed w1 w2 o
    (with_bridge usb fuel vendor_id unconfigured_product_id
       configured_product_id manufacturer model description version uri
       serial body w).
Proof.
  intros Hinit Hbody Hended Hself Hterm.
  destruct (__init___opens _ _ _ _ _ _ _ _ _ _ _ _ _ Hinit)
    as (d & eo & Hd & Ho).
  exists d, eo. split; [exact Hd|]. split; [exact Ho|].
  rewrite (with_bridge_body usb fuel vendor_id unconfigured_product_id
             configured_product_id manufacturer model description version
             uri serial body w w1 w2 o Hinit Hbody).
  assert (Hclose : close usb w2
    = (Return tt,
       {| self := closed (self w1);
          calls := calls w2 ++ [EpWrite eo [x00; x00] None;
                                DisposeResources d] |})).
  { rewrite <- Hself. apply (close_returns usb w2 d eo n).
    - now rewrite Hself.
    - now rewrite Hself.
    - now apply Hterm. }
  destruct o as [a|e|]; [| |now elim Hended];
    unfold bind; rewrite Hclose; reflexivity.
Qed.

Lemma with_block_closes_on_every_exit_witness :
  exits_closed
    (snd (demo_init (phone [x02; x00]) (start blank)))
    (snd (write (phone [x02; x00]) 1 [] None
            (snd (demo_init (phone [x02; x00]) (start blank)))))
    (Raise AssertionError)
    (demo_with (phone [x02; x00]) (write (phone [x02; x00]) 1 [] None)
       (start blank)).
Proof.
  apply (with_block_closes_on_every_exit (phone [x02; x00]) 6
           0x18d1 0x4ee2 0x2d01
           (str_of_string "AoabManufacturer") (str_of_string "AoabModel")
           (str_of_string "AoabDescription") (str_of_string "1")
           (str_of_string
              "https://github.com/chris-blay/android-open-accessory-bridge")
           (str_of_string "AoabSerial")
           (write (phone [x02; x00]) 1 [] None) (start blank)
           (snd (demo_init (phone [x02; x00]) (start blank)))
           (snd (write (phone [x02; x00]) 1 [] None
                   (snd (demo_init (phone [x02; x00]) (start blank)))))
           (Raise AssertionError) 2).
  - reflexivity.
  - reflexivity.
  - discriminate.
  - reflexivity.
  - intros eo Heo. reflexivity.
Defined.

(** X22: an error of the terminator write takes the place of whatever
    the body did.  When the body ended, with a value or with an
    exception of its own, and the terminator write raises, the [with]
    block raises the error of the write; the value or the exception of
    the body is lost and the device is not disposed of. *)
Theorem with_block_close_error_replaces_outcome {A} (usb : Usb) (fuel : nat)
    (vendor_id unconfigured_product_id configured_product_id : Z)
    (manufacturer model description version uri serial : PyStr)
    (body : M A) (w w1 w2 : World) (o : Outcome A) (e : PyError) :
  __init__ usb fuel vendor_id unconfigured_product_id configured_product_id
    manufacturer model description version uri serial w = (Return tt, w1) ->
  body w1 = (o, w2) ->
  ended o ->
  self w2 = self w1 ->
  (forall eo, _endpoint_out (self w1) = Some eo ->
     ep_write usb (calls w2) eo [x00; x00] None = Err e) ->
  exits_with_close_error w1 w2 e
    (with_bridge usb fuel vendor_id unconfigured_product_id
       configured_product_id manufacturer model description version uri
       serial body w).
Proof.
  intros Hinit Hbody Hended Hself Hterm.
  destruct (__init___opens _ _ _ _ _ _ _ _ _ _ _ _ _ Hinit)
    as (d & eo & Hd & Ho).
  exists eo. split; [exact Ho|].
  rewrite (with_bridge_body usb fuel vendor_id unconfigured_product_id
             configured_product_id manufacturer model description version
             uri serial body w w1 w2 o Hinit Hbody).
  assert (Hclose : close usb w2
    = (Raise e, after w2 [EpWrite eo [x00; x00] None])).
  { apply (close_raises usb w2 d eo e).
    - now rewrite Hself.
    - now rewrite Hself.
    - now apply Hterm. }
  destruct o as [a|e0|]; [| |now elim Hended];
    unfold bind; rewrite Hclose; reflexivity.
Qed.

Lemma with_block_close_error_replaces_outcome_witness :
  exits_with_close_error
    (snd (demo_init (phone_with_dead_pipe no_such_device) (start blank)))
    (snd (write (phone_with_dead_pipe no_such_device) 1 [] None
            (snd (demo_init (phone_with_dead_pipe no_such_device)
                    (start blank)))))
    no_such_device
    (demo_with (phone_with_dead_pipe no_such_device)
       (write (phone_with_dead_pipe no_such_device) 1 [] None)
       (start blank)).
Proof.
  apply (with_block_close_error_replaces_outcome
           (phone_with_dead_pipe no_such_device) 6
           0x18d1 0x4ee2 0x2d01
           (str_of_string "AoabManufacturer") (str_of_string "AoabModel")
           (str_of_string "AoabDescription") (str_of_string "1")
           (str_of_string
              "https://github.com/chris-blay/android-open-accessory-bridge")
           (str_of_string "AoabSerial")
           (write (phone_with_dead_pipe no_such_device) 1 [] None)
           (start blank)
           (snd (demo_init (phone_with_dead_pipe no_such_device)
                   (start blank)))
           (snd (write (phone_with_dead_pipe no_such_device) 1 [] None
                   (snd (demo_init (phone_with_dead_pipe no_such_device)
                           (start blank)))))
           (Raise AssertionError) no_such_device).
  - reflexivity.
  - reflexivity.
  - discriminate.
  - reflexivity.
  - intros eo Heo. reflexivity.
Defined.

(** X23: a body that closes the bridge itself makes the [with] block
    fail.  When the body ended with the device handle cleared, the
    [close] that [__exit__] runs fails its guard, and the block raises
    [AssertionError] in place of what the body returned or raised,
    without any further call. *)
Theorem with_block_fails_after_explicit_close {A} (usb : Usb) (fuel : nat)
    (vendor_id unconfigured_product_id configured_product_id : Z)
    (manufacturer model description version uri serial : PyStr)
    (body : M A) (w w1 w2 : World) (o : Outcome A) :
  __init__ usb fuel vendor_id unconfigured_product_id configured_product_id
    manufacturer model description version uri serial w = (Return tt, w1) ->
  body w1 = (o, w2) ->
  ended o ->
  _device (self w2) = None ->
  with_bridge usb fuel vendor_id unconfigured_product_id
    configured_product_id manufacturer model description version uri serial
    body w
  = (Raise AssertionError, w2).
Proof.
  intros Hinit Hbody Hended Hclosed.
  rewrite (with_bridge_body usb fuel vendor_id unconfigured_product_id
             configured_product_id manufacturer model description version
             uri serial body w w1 w2 o Hinit Hbody).
  assert (Hclose : close usb w2 = (Raise AssertionError, w2)).
  { unfold close, bind, get_self. rewrite Hclosed. reflexivity. }
  destruct o as [a|e0|]; [| |now elim Hended];
    unfold bind; rewrite Hclose; reflexivity.
Qed.

Lemma with_block_fails_after_explicit_close_witness :
  demo_with (phone [x02; x00]) (close (phone [x02; x00])) (start blank)
  = (Raise AssertionError,
     snd (close (phone [x02; x00])
            (snd (demo_init (phone [x02; x00]) (start blank))))).
Proof.
  apply (with_block_fails_after_explicit_close (phone [x02; x00]) 6
           0x18d1 0x4ee2 0x2d01
           (str_of_string "AoabManufacturer") (str_of_string "AoabModel")
           (str_of_string "AoabDescription") (str_of_string "1")
           (str_of_string
              "https://github.com/chris-blay/android-open-accessory-bridge")
           (str_of_string "AoabSerial")
           (close (phone [x02; x00])) (start blank)
           (snd (demo_init (phone [x02; x00]) (start blank)))
           (snd (close (phone [x02; x00])
                   (snd (demo_init (phone [x02; x00]) (start blank)))))
           (Return tt)).
  - reflexivity.
  - reflexivity.
  - discriminate.
  - reflexivity.
Defined.

(** * Frames in a row *)

Lemma write_on_pipe (ts : list byte -> Result (list byte)) (w : World)
    (d : Device) (eo : Endpoint) (P : list byte) (t : option Z) :
  _device (self w) = Some d ->
  _endpoint_out (self w) = Some eo ->
  1 <= len P <= 65535 ->
  exists b0 b1,
    Z_of_byte b0 * 256 + Z_of_byte b1 = len P
    /\ write (with_tostring ts pipe) 1 P t w
       = (Return tt, after w [EpWrite eo [b0; b1] t; EpWrite eo P t])
    /\ in_flight (calls (after w [EpWrite eo [b0; b1] t; EpWrite eo P t]))
       = in_flight (calls w) ++ b0 :: b1 :: P.
Proof.
  intros Hd Ho Hlen.
  assert (HP : P <> []).
  { intros ->. unfold len in Hlen. simpl in Hlen. lia. }
  destruct (array_B_size_header (len P) w) as (b0 & b1 & Hh & V0 & V1).
  pose proof (header_value_mod _ _ _ V0 V1) as Hv.
  rewrite Z.mod_small in Hv by lia.
  exists b0, b1. split; [exact Hv|]. split.
  - apply (write_sends_frame (with_tostring ts pipe) 0 w d eo P [b0; b1] t
             Hd Ho HP Hh); reflexivity.
  - cbn [after calls]. rewrite in_flight_app. cbn [fold_left in_flight_step].
    rewrite <- app_assoc. reflexivity.
Qed.

Lemma read_on_pipe (ts : list byte -> Result (list byte)) (w : World)
    (d : Device) (ei : Endpoint)
    (b0 b1 : byte) (P rest : list byte) (t : option Z) :
  _device (self w) = Some d ->
  _endpoint_in (self w) = Some ei ->
  in_flight (calls w) = b0 :: b1 :: P ++ rest ->
  Z_of_byte b0 * 256 + Z_of_byte b1 = len P ->
  ts P = Ok P ->
  read (with_tostring ts pipe) t w
  = (Return (Some P), after w [EpRead ei 2 t; EpRead ei (len P) t])
  /\ in_flight (calls (after w [EpRead ei 2 t; EpRead ei (len P) t])) = rest.
Proof.
  intros Hd Hi Hflight Hv Hts.
  assert (Hlen : Z.to_nat (len P) = List.length P)
    by (unfold len; apply Nat2Z.id).
  split.
  - rewrite (read_delivers (with_tostring ts pipe) w d ei b0 b1 P P t Hd Hi).
    + rewrite Hv. reflexivity.
    + unfold with_tostring, pipe. cbn [ep_read]. rewrite Hflight.
      reflexivity.
    + unfold with_tostring, pipe. cbn [ep_read].
      rewrite in_flight_app, Hflight.
      cbn [fold_left in_flight_step].
      change (skipn (Z.to_nat 2) (b0 :: b1 :: P ++ rest)) with (P ++ rest).
      rewrite Hv, Hlen.
      rewrite firstn_app, Nat.sub_diag, firstn_all. cbn [firstn].
      rewrite app_nil_r.
      destruct P as [|p P']; [reflexivity|].
      cbn [app is_nil]. now rewrite andb_false_r.
    + exact Hts.
  - cbn [after calls]. rewrite in_flight_app, Hflight.
    cbn [fold_left in_flight_step].
    change (skipn (Z.to_nat 2) (b0 :: b1 :: P ++ rest)) with (P ++ rest).
    rewrite Hlen, skipn_app, Nat.sub_diag, skipn_all. reflexivity.
Qed.

Lemma read_on_drained_pipe (ts : list byte -> Result (list byte)) (w : World)
    (d : Device) (ei : Endpoint) (t : option Z) :
  _device (self w) = Some d ->
  _endpoint_in (self w) = Some ei ->
  in_flight (calls w) = [] ->
  read (with_tostring ts pipe) t w = (Return None, after w [EpRead ei 2 t])
  /\ in_flight (calls (after w [EpRead ei 2 t])) = [].
Proof.
  intros Hd Hi Hflight. split.
  - unfold read. unfold bind at 1. unfold get_self. rewrite Hd, Hi.
    unfold try_except_USBError, bind, endpoint_read.
    unfold with_tostring, pipe. cbn [ep_read]. rewrite Hflight. reflexivity.
  - cbn [after calls]. rewrite in_flight_app, Hflight. reflexivity.
Qed.

(** X24: frames do not run into each other.  Where [tostring] returns
    the bytes of the arrays, two payloads of 1 to 65535 bytes written
    one after the other to a drained pipe are returned by the next two
    reads, whole and in the order of writing; a third read finds
    nothing and returns [None], and the pipe is drained again. *)
Theorem frames_are_read_in_order (ts : list byte -> Result (list byte))
    (w : World) (P1 P2 : list byte) (t : option Z) :
  is_open (self w) = true ->
  in_flight (calls w) = [] ->
  1 <= len P1 <= 65535 ->
  1 <= len P2 <= 65535 ->
  ts P1 = Ok P1 ->
  ts P2 = Ok P2 ->
  exists w',
    (write (with_tostring ts pipe) 1 P1 t ;;;
     write (with_tostring ts pipe) 1 P2 t ;;;
     a <- read (with_tostring ts pipe) t ;;
     b <- read (with_tostring ts pipe) t ;;
     c <- read (with_tostring ts pipe) t ;;
     ret (a, b, c)) w
    = (Return (Some P1, Some P2, None), w')
    /\ self w' = self w
    /\ in_flight (calls w') = [].
Proof.
  intros Hopen Hdrained Hlen1 Hlen2 Hts1 Hts2. unfold is_open in Hopen.
  destruct (_device (self w)) as [d|] eqn:Hd; [|discriminate].
  destruct (_endpoint_out (self w)) as [eo|] eqn:Ho; [|discriminate].
  destruct (_endpoint_in (self w)) as [ei|] eqn:Hi; [|discriminate].
  destruct (write_on_pipe ts w d eo P1 t Hd Ho Hlen1)
    as (a0 & a1 & Hva & Hw1 & Hf1).
  set (w1 := after w [EpWrite eo [a0; a1] t; EpWrite eo P1 t]) in *.
  destruct (write_on_pipe ts w1 d eo P2 t Hd Ho Hlen2)
    as (c0 & c1 & Hvc & Hw2 & Hf2).
  set (w2 := after w1 [EpWrite eo [c0; c1] t; EpWrite eo P2 t]) in *.
  rewrite Hf1, Hdrained in Hf2. cbn [app] in Hf2.
  destruct (read_on_pipe ts w2 d ei a0 a1 P1 (c0 :: c1 :: P2) t Hd Hi)
    as (Hr1 & Hf3); [exact Hf2|exact Hva|exact Hts1|].
  set (w3 := after w2 [EpRead ei 2 t; EpRead ei (len P1) t]) in *.
  destruct (read_on_pipe ts w3 d ei c0 c1 P2 [] t Hd Hi)
    as (Hr2 & Hf4);
    [rewrite Hf3, app_nil_r; reflexivity|exact Hvc|exact Hts2|].
  set (w4 := after w3 [EpRead ei 2 t; EpRead ei (len P2) t]) in *.
  destruct (read_on_drained_pipe ts w4 d ei t Hd Hi Hf4) as (Hr3 & Hf5).
  exists (after w4 [EpRead ei 2 t]).
  split; [|split; [reflexivity|exact Hf5]].
  unfold bind. rewrite Hw1, Hw2, Hr1, Hr2, Hr3. reflexivity.
Qed.

Lemma frames_are_read_in_order_witness :
  exists w',
    (write (with_tostring (fun a => Ok a) pipe) 1 [x68; x69] None ;;;
     write (with_tostring (fun a => Ok a) pipe) 1 [x79; x6f; x75] None ;;;
     a <- read (with_tostring (fun a => Ok a) pipe) None ;;
     b <- read (with_tostring (fun a => Ok a) pipe) None ;;
     c <- read (with_tostring (fun a => Ok a) pipe) None ;;
     ret (a, b, c)) (start nexus4_open)
    = (Return (Some [x68; x69], Some [x79; x6f; x75], None), w')
    /\ self w' = self (start nexus4_open)
    /\ in_flight (calls w') = [].
Proof.
  apply (frames_are_read_in_order (fun a => Ok a) (start nexus4_open)
           [x68; x69] [x79; x6f; x75] None).
  - reflexivity.
  - reflexivity.
  - vm_compute. split; discriminate.
  - vm_compute. split; discriminate.
  - reflexivity.
  - reflexivity.
Defined.

(** The demo's first steps on a phone: the constructor, the write of
    "0" and the way out of the block. *)
Example demo_with_on_phone :
  demo_with (phone [x02; x00]) (write (phone [x02; x00]) 1 [x30] None)
    (start blank)
  = (Return tt,
     {| self := closed nexus4_open;
        calls :=
          [ Find 0x18d1 0x4ee2; Find 0x18d1 0x2d01;
            CtrlTransfer 1 0xc0 51 0 0 (WLength 2);
            CtrlTransfer 1 0x40 52 0 0 (Data (str_of_string "AoabManufacturer"));
            CtrlTransfer 1 0x40 52 0 1 (Data (str_of_string "AoabModel"));
            CtrlTransfer 1 0x40 52 0 2 (Data (str_of_string "AoabDescription"));
            CtrlTransfer 1 0x40 52 0 3 (Data (str_of_string "1"));
            CtrlTransfer 1 0x40 52 0 4
              (Data (str_of_string
                 "https://github.com/chris-blay/android-open-accessory-bridge"));
            CtrlTransfer 1 0x40 52 0 5 (Data (str_of_string "AoabSerial"));
            CtrlTransfer 1 0x40 53 0 0 NoData;
            DisposeResources 1;
            Find 0x18d1 0x4ee2; Find 0x18d1 0x2d01;
            ActiveInterface 2;
            EpWrite {| bEndpointAddress := 0x02 |} [x00; x01] None;
            EpWrite {| bEndpointAddress := 0x02 |} [x30] None;
            EpWrite {| bEndpointAddress := 0x02 |} [x00; x00] None;
            DisposeResources 2 ] |}).
Proof. vm_compute. reflexivity. Qed.
